(** * AIVA: recurrence expansion and schedule-conflict checks

    A shallow embedding of the schedule queries of [database_manager.py]
    ([get_schedule_by_date_range], [get_schedule_by_month],
    [get_today_schedule], [get_today_schedule_full], [add_schedule_item],
    [add_task]) and of the conflict checks that call them
    ([create_event_from_popup] and [update_event_from_popup] in
    [event_manager.py], [add_event_voice] in [main.py]).

    The [tasks] table is a list of typed rows in insertion order together
    with the AUTOINCREMENT counter.  Python exceptions are values of
    [exn]; a function that can raise returns [result].  The calendar
    arithmetic of [datetime] and the text [isoformat] writes are modelled
    in the modules [Calendar] and [Iso] below.  The two library
    functions that read the text of a stored [start_time],
    [datetime.fromisoformat] and SQLite's [DATE()], are parameters of
    the development (class [Library]): every property is proved for
    whatever these functions return on text the application did not
    write itself.

    Beside the schedule queries the file covers the other statements of
    [database_manager.py] ([delete_task], [toggle_task_completion],
    [update_task], [get_schedule_item_by_id], [get_tasks_by_status],
    [get_all_tasks], [clear_google_tasks]) with
    [sync_google_events_to_db] of [sync_google_tasks.py] (module
    [Tasks]), the date and time pickers of [event_manager.py] (module
    [Picker]), the reading of a spoken time and of a date hint in
    [main.py] (module [Voice]) and the dots of the month grid of
    [calendar_manager.py] (module [Grid]). *)

From Stdlib Require Import ZArith Lia Bool Ascii String List.
From Stdlib Require Import Sorting.Sorted Sorting.Permutation.
From stdpp Require Import base option list gmap strings.

Local Open Scope string_scope.
Local Open Scope list_scope.
Local Open Scope Z_scope.

(** Lists are handled with the Standard Library's [In] and [NoDup]. *)
Local Abbreviation NoDup := List.NoDup.

(** ** Exceptions *)

Inductive exn : Type :=
  | ValueError        (* date(year, month, day) out of range; add_schedule_item *)
  | OverflowError     (* date + timedelta leaves [date.min, date.max] *)
  | Diverged.         (* the step bound of a modelled loop ran out; never
                         returned for dates that exist, see [days_loop_spec] *)

Inductive result (A : Type) : Type :=
  | Ok (a : A)
  | Raise (e : exn).
Arguments Ok {A} a.
Arguments Raise {A} e.

Definition bind {A B} (r : result A) (k : A -> result B) : result B :=
  match r with
  | Ok a => k a
  | Raise e => Raise e
  end.

(** ** The proleptic Gregorian calendar of [datetime.date] *)

Module Calendar.

Record date : Type := mkDate { year : Z; month : Z; day : Z }.

Definition MINYEAR : Z := 1.
Definition MAXYEAR : Z := 9999.

Definition is_leap (y : Z) : bool :=
  (y mod 4 =? 0) && (negb (y mod 100 =? 0) || (y mod 400 =? 0)).

Definition days_in_month (y m : Z) : Z :=
  if m =? 2 then (if is_leap y then 29 else 28)
  else if (m =? 4) || (m =? 6) || (m =? 9) || (m =? 11) then 30
  else 31.

(** The checks of the [date(year, month, day)] constructor. *)
Definition valid_date (d : date) : bool :=
  (MINYEAR <=? year d) && (year d <=? MAXYEAR) &&
  (1 <=? month d) && (month d <=? 12) &&
  (1 <=? day d) && (day d <=? days_in_month (year d) (month d)).

(** [date(y, m, d)]: raises [ValueError] when the fields are out of range. *)
Definition make_date (y m d : Z) : result date :=
  if valid_date (mkDate y m d) then Ok (mkDate y m d) else Raise ValueError.

Definition date_max : date := mkDate 9999 12 31.

(** Comparison of dates is comparison of (year, month, day). *)
Definition date_ltb (a b : date) : bool :=
  (year a <? year b) ||
  ((year a =? year b) &&
    ((month a <? month b) || ((month a =? month b) && (day a <? day b)))).

Definition date_eqb (a b : date) : bool :=
  (year a =? year b) && (month a =? month b) && (day a =? day b).

Definition date_leb (a b : date) : bool := date_ltb a b || date_eqb a b.

(** [d + timedelta(days=1)]. *)
Definition next_day (d : date) : result date :=
  if day d <? days_in_month (year d) (month d)
  then Ok (mkDate (year d) (month d) (day d + 1))
  else if month d <? 12 then Ok (mkDate (year d) (month d + 1) 1)
  else if year d <? MAXYEAR then Ok (mkDate (year d + 1) 1 1)
  else Raise OverflowError.

(** [d - timedelta(days=1)]. *)
Definition prev_day (d : date) : result date :=
  if 1 <? day d then Ok (mkDate (year d) (month d) (day d - 1))
  else if 1 <? month d
  then Ok (mkDate (year d) (month d - 1) (days_in_month (year d) (month d - 1)))
  else if MINYEAR <? year d then Ok (mkDate (year d - 1) 12 31)
  else Raise OverflowError.

Definition days_before_year (y : Z) : Z :=
  let p := y - 1 in p * 365 + p / 4 - p / 100 + p / 400.

Definition days_before_month (y m : Z) : Z :=
  (match m with
    | 1 => 0 | 2 => 31 | 3 => 59 | 4 => 90 | 5 => 120 | 6 => 151
    | 7 => 181 | 8 => 212 | 9 => 243 | 10 => 273 | 11 => 304 | _ => 334
    end) + (if (2 <? m) && is_leap y then 1 else 0).

Definition toordinal (d : date) : Z :=
  days_before_year (year d) + days_before_month (year d) (month d) + day d.

(** [d.weekday()]: 0 = Monday ... 6 = Sunday. *)
Definition weekday (d : date) : Z := (toordinal d + 6) mod 7.

(** A strictly increasing rank, used only to bound the day-by-day loops. *)
Definition rank (d : date) : Z := (year d * 12 + month d) * 31 + day d.

(** [datetime.time]: hour, minute, second and microsecond. *)
Record time : Type := mkTime {
  hour : Z; minute : Z; second : Z; microsecond : Z
}.

Definition valid_time (t : time) : bool :=
  (0 <=? hour t) && (hour t <? 24) &&
  (0 <=? minute t) && (minute t <? 60) &&
  (0 <=? second t) && (second t <? 60) &&
  (0 <=? microsecond t) && (microsecond t <? 1000000).

Record datetime : Type := mkDatetime { dt_date : date; dt_time : time }.

(** [datetime.combine(d, t)]. *)
Definition combine (d : date) (t : time) : datetime := mkDatetime d t.

(** [dt + timedelta(minutes=off)] for [-1440 < off < 1440]. *)
Definition add_minutes (dt : datetime) (off : Z) : result datetime :=
  let t := dt_time dt in
  let total := hour t * 60 + minute t + off in
  let t' := mkTime ((total mod 1440) / 60) (total mod 60) (second t)
                   (microsecond t) in
  if total <? 0 then
  bind (prev_day (dt_date dt)) (fun d => Ok (mkDatetime d t'))
  else if total <? 1440 then Ok (mkDatetime (dt_date dt) t')
  else bind (next_day (dt_date dt)) (fun d => Ok (mkDatetime d t')).

End Calendar.
Export Calendar.

#[global] Instance result_ret : MRet result := @Ok.
#[global] Instance result_bind : MBind result := fun A B k r => bind r k.

(** ** Text: decimal fields, ISO timestamps, [str.split] *)

Module Iso.

Definition digit_char (n : Z) : ascii := ascii_of_N (Z.to_N (48 + n)).

Definition digit_val (c : ascii) : option Z :=
  let n := Z.of_N (N_of_ascii c) in
  if (48 <=? n) && (n <=? 57) then Some (n - 48) else None.

(** ["%02d"], ["%04d"] and ["%06d"]. *)
Definition pad2 (n : Z) : string :=
  String (digit_char (n / 10)) (String (digit_char (n mod 10)) "").

Definition pad4 (n : Z) : string :=
  String (digit_char (n / 1000))
  (String (digit_char (n / 100 mod 10)) (pad2 (n mod 100))).

Definition pad6 (n : Z) : string := pad2 (n / 10000) +:+ pad4 (n mod 10000).

Definition num2 (a b : ascii) : option Z :=
  x ← digit_val a; y ← digit_val b; Some (10 * x + y).

Definition num4 (a b c d : ascii) : option Z :=
  x ← num2 a b; y ← num2 c d; Some (100 * x + y).

(** [str(d)] and [d.isoformat()] of a date. *)
Definition str_date (d : date) : string :=
  pad4 (year d) +:+ "-" +:+ pad2 (month d) +:+ "-" +:+ pad2 (day d).

(** [t.isoformat()] of a time: the microseconds are written when they
    are not zero. *)
Definition str_time (t : time) : string :=
  pad2 (hour t) +:+ ":" +:+ pad2 (minute t) +:+ ":" +:+ pad2 (second t) +:+
  (if microsecond t =? 0 then "" else "." +:+ pad6 (microsecond t)).

(** [dt.isoformat()] of a datetime without UTC offset. *)
Definition isoformat (dt : datetime) : string :=
  str_date (dt_date dt) +:+ "T" +:+ str_time (dt_time dt).

(** [s.split(',')]. *)
Fixpoint split_comma (s : string) : list string :=
  match s with
  | "" => [""]
  | String c r =>
      if Ascii.eqb c "," then "" :: split_comma r
      else match split_comma r with
           | p :: ps => String c p :: ps
           | [] => [String c ""]
           end
  end.

(** [sep.join(l)]. *)
Fixpoint join (sep : string) (l : list string) : string :=
  match l with
  | [] => ""
  | [x] => x
  | x :: l' => x +:+ sep +:+ join sep l'
  end.

(** [str(n)] for a non-negative integer below 100. *)
Definition str_small (n : Z) : string :=
  if n <? 10 then String (digit_char n) "" else pad2 n.

(** Python's [<=] on [str], and SQLite's on TEXT: code points,
    lexicographic. *)
Definition str_leb (a b : string) : bool := String.leb a b.

End Iso.
Export Iso.

(** ** The library functions that read a stored timestamp

    The text of a [start_time] is read by two functions of the
    libraries: [datetime.fromisoformat] of Python and [DATE()] of SQLite.
    Both accept much more than the application writes (UTC offsets,
    fractional seconds of any length, week dates, Julian day numbers,
    ['now']), and what they accept depends on the version.  They are
    parameters here:

    - [fromisoformat s] is the date and the time of day of
      [datetime.fromisoformat(s)], that is its [.date()] and [.time()]
      (the UTC offset of the value, which none of the functions below
      reads, is not part of it), and [None] when the call raises;
    - [sqlite_date s] is [DATE(s)], with [None] for NULL.

    What is assumed of them is what the libraries document for the text
    that [isoformat] writes: [fromisoformat] reads it back, [DATE()]
    returns its first ten characters; and a value of [datetime] is a
    date and a time that exist, and the empty string is no timestamp. *)

Class Library : Type := {
  fromisoformat : string -> option datetime;
  sqlite_date : string -> option string;
  fromisoformat_isoformat : forall dt,
    valid_date (dt_date dt) = true -> valid_time (dt_time dt) = true ->
    fromisoformat (isoformat dt) = Some dt;
  fromisoformat_valid : forall s dt,
    fromisoformat s = Some dt ->
    valid_date (dt_date dt) = true /\ valid_time (dt_time dt) = true;
  fromisoformat_empty : fromisoformat "" = None;
  sqlite_date_isoformat : forall dt,
    valid_date (dt_date dt) = true -> valid_time (dt_time dt) = true ->
    sqlite_date (isoformat dt) = Some (str_date (dt_date dt))
}.

(** ** A reader of the timestamps the application writes

    One pair of functions that satisfies the assumptions above, see
    [plain_library]: it reads an ISO date ["YYYY-MM-DD"], alone or
    followed by a separator and a time of day, and nothing else.  The
    worked examples are computed with it; no property depends on it. *)

Module Plain.

(** The leading ["YYYY-MM-DD"] of a timestamp and what follows it. *)
Definition parse_date_prefix (s : string) : option (date * string) :=
  match s with
  | String y1 (String y2 (String y3 (String y4 (String s1
      (String m1 (String m2 (String s2 (String d1 (String d2 rest))))))))) =>
      y ← num4 y1 y2 y3 y4; m ← num2 m1 m2; d ← num2 d1 d2;
      if Ascii.eqb s1 "-" && Ascii.eqb s2 "-" && valid_date (mkDate y m d)
      then Some (mkDate y m d, rest) else None
  | _ => None
  end.

(** Nothing, or a point and six digits. *)
Definition parse_fraction (s : string) : option Z :=
  match s with
  | "" => Some 0
  | String c (String a1 (String a2 (String a3 (String a4 (String a5
      (String a6 "")))))) =>
      x ← num2 a1 a2; y ← num4 a3 a4 a5 a6;
      if Ascii.eqb c "." then Some (10000 * x + y) else None
  | _ => None
  end.

(** ["HH"], ["HH:MM"], ["HH:MM:SS"] or ["HH:MM:SS.ffffff"];
    [need_minute] refuses the first. *)
Definition parse_time (need_minute : bool) (s : string) : option time :=
  match s with
  | String h1 (String h2 r) =>
      h ← num2 h1 h2;
      t ← match r with
          | "" => if need_minute then None else Some (mkTime h 0 0 0)
          | String c1 (String m1 (String m2 r2)) =>
              m ← num2 m1 m2;
              if Ascii.eqb c1 ":" then
                match r2 with
                | "" => Some (mkTime h m 0 0)
                | String c2 (String x1 (String x2 r3)) =>
                    x ← num2 x1 x2; us ← parse_fraction r3;
                    if Ascii.eqb c2 ":" then Some (mkTime h m x us) else None
                | _ => None
                end
              else None
          | _ => None
          end;
      if valid_time t then Some t else None
  | _ => None
  end.

Definition plain_fromisoformat (s : string) : option datetime :=
  '(d, rest) ← parse_date_prefix s;
  match rest with
  | "" => Some (mkDatetime d (mkTime 0 0 0 0))
  | String _ tstr => t ← parse_time false tstr; Some (mkDatetime d t)
  end.

Fixpoint skip_sep (s : string) : string :=
  match s with
  | String c r => if Ascii.eqb c " " || Ascii.eqb c "T" then skip_sep r else s
  | "" => ""
  end.

(** The date prefix, then nothing or, after blanks and ['T'], a time
    with minutes. *)
Definition plain_parse_date (s : string) : option date :=
  '(d, rest) ← parse_date_prefix s;
  match skip_sep rest with
  | "" => Some d
  | tstr => _ ← parse_time true tstr; Some d
  end.

Definition plain_sqlite_date (s : string) : option string :=
  str_date <$> plain_parse_date s.

End Plain.
Export Plain.

(** ** The [tasks] table *)

Module Store.

(** One row of [tasks]; [option] is SQL NULL. *)
Record row : Type := mkRow {
  id : Z;
  title : string;
  start_time : option string;
  completed : Z;
  source : option string;
  event_id : option string;
  is_recurring : option Z;
  repeat_days : option string;
  priority : option string
}.

(** The table in insertion order and the AUTOINCREMENT counter
    (the largest id ever handed out). *)
Record db : Type := mkDb { rows : list row; seq : Z }.

(** The [Task] object of [task.py]. *)
Record Task : Type := mkTask {
  task_title : string;
  task_start_time : option string;
  task_completed : bool;
  task_source : option string;
  task_event_id : option string;
  task_is_recurring : bool;
  task_repeat_days : option string;
  task_priority : option string
}.

(** [Task(title=..., start_time=...)] with the constructor's defaults. *)
Definition new_task (t : string) (st : option string) : Task :=
  mkTask t st false (Some "local") None false None (Some "medium").

(** A result tuple of
    [SELECT id, title, start_time, source, completed, event_id,
    is_recurring, repeat_days]: fields [event[0]] to [event[7]]. *)
Record event_tuple : Type := mkEvent {
  ev_id : Z;
  ev_title : string;
  ev_start_time : option string;
  ev_source : option string;
  ev_completed : Z;
  ev_event_id : option string;
  ev_is_recurring : option Z;
  ev_repeat_days : option string
}.

Definition select_event (r : row) : event_tuple :=
  mkEvent (id r) (title r) (start_time r) (source r) (completed r)
          (event_id r) (is_recurring r) (repeat_days r).

(** [int(b)]. *)
Definition int_of_bool (b : bool) : Z := if b then 1 else 0.

(** Python truth value of an optional string. *)
Definition truthy (s : option string) : bool :=
  match s with
  | Some (String _ _) => true
  | _ => false
  end.

(** [add_task]: one INSERT; the new row gets the next id. *)
Definition add_task (d : db) (task : Task) : db :=
  let i := seq d + 1 in
  mkDb (rows d ++
        [mkRow i (task_title task) (task_start_time task)
               (int_of_bool (task_completed task)) (task_source task)
               (task_event_id task) (Some (int_of_bool (task_is_recurring task)))
               (task_repeat_days task) (task_priority task)])
       i.

(** [add_schedule_item]. *)
Definition add_schedule_item (d : db) (task : Task) : result db :=
  if negb (truthy (task_start_time task)) then Raise ValueError
  else Ok (add_task d task).

End Store.
Export Store.

(** ** The schedule queries of [database_manager.py] *)

Module Schedule.

(** [list.sort(key=...)] and [ORDER BY ... ASC] on text: a stable sort,
    written as an insertion sort. *)
Fixpoint insert_by {A} (key : A -> string) (x : A) (l : list A) : list A :=
  match l with
  | [] => [x]
  | y :: l' =>
    if str_leb (key x) (key y) then x :: y :: l' else y :: insert_by key x l'
  end.

Definition sort_by {A} (key : A -> string) (l : list A) : list A :=
  fold_right (insert_by key) [] l.

(** [lambda x: x[2] if x[2] else ""]. *)
Definition sort_key (e : event_tuple) : string :=
  match ev_start_time e with
  | Some s => s
  | None => ""
  end.

(** [completed = 0 AND (is_recurring = 0 OR is_recurring IS NULL)]. *)
Definition one_shot (r : row) : bool :=
  (completed r =? 0) &&
  match is_recurring r with
  | None => true
  | Some z => z =? 0
  end.

Section Queries.

Context {lib : Library}.

(** [start_time IS NOT NULL AND <test on DATE(start_time)>]; a NULL
    date fails every comparison. *)
Definition date_test (test : string -> bool) (r : row) : bool :=
  match start_time r with
  | Some s => match sqlite_date s with
              | Some ds => test ds
              | None => false
              end
  | None => false
  end.

(** The first SELECT of each query: the non-recurring events whose date
    passes [test], ordered by [start_time]. *)
Definition select_non_recurring (test : string -> bool) (d : db) : list event_tuple :=
  sort_by sort_key
  (map select_event
    (List.filter (fun r => date_test test r && one_shot r) (rows d))).

(** The second SELECT: [start_time IS NOT NULL AND is_recurring = 1 AND
    repeat_days IS NOT NULL AND completed = 0], in table order. *)
Definition recurring_row (r : row) : bool :=
  match start_time r, is_recurring r, repeat_days r with
  | Some _, Some z, Some _ => (z =? 1) && (completed r =? 0)
  | _, _, _ => false
  end.

Definition select_recurring (d : db) : list event_tuple :=
  map select_event (List.filter recurring_row (rows d)).

(** [str(weekday)] for a weekday index. *)
Definition str_weekday (w : Z) : string := String (digit_char w) "".

(** [repeat_days_str and str(weekday) in repeat_days_str.split(',')]. *)
Definition repeats_on (repeat_days_str : option string) (weekday : Z) : bool :=
  match repeat_days_str with
  | Some (String c r) =>
    existsb (String.eqb (str_weekday weekday)) (split_comma (String c r))
  | _ => false
  end.

(** The tuple appended for [event] on [event_date], fields 0, 1, 3 to 7
    copied and field 2 rebuilt from the date and the stored time. *)
Definition instance_at (event_date : date) (event_time : time) (event : event_tuple)
  : event_tuple :=
  mkEvent (ev_id event) (ev_title event)
          (Some (isoformat (combine event_date event_time)))
          (ev_source event) (ev_completed event) (ev_event_id event)
          (ev_is_recurring event) (ev_repeat_days event).

(** The body of the [for event in recurring_events] loop for one event:
    what it appends.  The [try ... except: pass] makes a timestamp that
    does not parse append nothing. *)
Definition instance_for (current_date : date) (event : event_tuple) : list event_tuple :=
  if repeats_on (ev_repeat_days event) (weekday current_date) then
    match ev_start_time event ≫= fromisoformat with
    | Some original_dt => [instance_at current_date (dt_time original_dt) event]
    | None => []
    end
  else [].

Definition instances_on (current_date : date) (recurring_events : list event_tuple)
  : list event_tuple :=
  flat_map (instance_for current_date) recurring_events.

(** The [while] loop over the days: [continue] is its condition. *)
Fixpoint expand_loop (fuel : nat) (continue : date -> bool)
  (current_date : date) (recurring_events events : list event_tuple)
  : result (list event_tuple) :=
  match fuel with
  | O => Raise Diverged
  | S fuel' =>
      if continue current_date then
        let events' := events ++ instances_on current_date recurring_events in
        next ← next_day current_date;
        expand_loop fuel' continue next recurring_events events'
      else Ok events
  end.

Definition loop_bound (first last : date) : nat :=
  S (Z.to_nat (rank last - rank first + 1)).

(** [get_schedule_by_date_range(start_date, end_date)]. *)
Definition get_schedule_by_date_range (d : db) (start_date end_date : date)
  : result (list event_tuple) :=
  let lo := str_date start_date in
  let hi := str_date end_date in
  let events := select_non_recurring (fun ds => str_leb lo ds && str_leb ds hi) d in
  let recurring_events := select_recurring d in
  events ← expand_loop (loop_bound start_date end_date)
             (fun c => date_leb c end_date) start_date recurring_events events;
  Ok (sort_by sort_key events).

(** [get_schedule_by_month(year, month)]. *)
Definition get_schedule_by_month (d : db) (year month : Z) : result (list event_tuple) :=
  bounds ← (if month =? 12
            then first_day ← make_date year month 1;
                 last_day ← make_date (year + 1) 1 1;
                 Ok (first_day, last_day)
            else first_day ← make_date year month 1;
                 last_day ← make_date year (month + 1) 1;
                 Ok (first_day, last_day));
  let first_day := fst bounds in
  let last_day := snd bounds in
  let lo := str_date first_day in
  let hi := str_date last_day in
  let events :=
    select_non_recurring (fun ds => str_leb lo ds && negb (str_leb hi ds)) d in
  let recurring_events := select_recurring d in
  events ← expand_loop (loop_bound first_day last_day)
             (fun c => date_ltb c last_day) first_day recurring_events events;
  Ok (sort_by sort_key events).

(** [events[:limit]]. *)
Definition slice_to {A} (l : list A) (limit : Z) : list A :=
  if limit <? 0 then firstn (Z.to_nat (Z.of_nat (length l) + limit)) l
  else firstn (Z.to_nat limit) l.

(** The merged, still unsorted list of [get_today_schedule_full]:
    today's non-recurring events, then the instances of the recurring
    ones that repeat on today's weekday. *)
Definition today_events (d : db) (today : date) : list event_tuple :=
  select_non_recurring (String.eqb (str_date today)) d
  ++ instances_on today (select_recurring d).

(** [get_today_schedule_full(limit)]; [today] is [date.today()]. *)
Definition get_today_schedule_full (d : db) (today : date) (limit : Z)
  : list event_tuple :=
  slice_to (sort_by sort_key (today_events d today)) limit.

(** [get_today_schedule(limit)] selects and appends (title, start_time)
    pairs and sorts them on the second component. *)
Definition title_time (e : event_tuple) : string * option string :=
  (ev_title e, ev_start_time e).

Definition pair_key (x : string * option string) : string :=
  match snd x with
  | Some s => s
  | None => ""
  end.

Definition today_pairs (d : db) (today : date) : list (string * option string) :=
  sort_by pair_key
  (map (fun r => (title r, start_time r))
    (List.filter
      (fun r => date_test (String.eqb (str_date today)) r && one_shot r)
      (rows d)))
  ++ map title_time (instances_on today (select_recurring d)).

Definition get_today_schedule (d : db) (today : date) (limit : Z)
  : list (string * option string) :=
  slice_to (sort_by pair_key (today_pairs d today)) limit.

End Queries.

End Schedule.
Export Schedule.

(** ** Conflict checks of [event_manager.py] and [main.py] *)

Module Conflict.

(** [str(e)] of the exceptions above. *)
Definition exn_message (e : exn) : string :=
  match e with
  | ValueError => "Schedule items must have a start_time"
  | OverflowError => "date value out of range"
  | Diverged => ""
  end.

Section Checks.

Context {lib : Library}.

(** The test inside [for event in existing_events] of both popups:
    [event[2]] is set, parses, and has the date, hour and minute of
    [dt]; a timestamp that does not parse is passed over. *)
Definition same_slot (event_date : date) (dt : datetime) (event : event_tuple)
  : bool :=
  truthy (ev_start_time event) &&
  match ev_start_time event ≫= fromisoformat with
  | Some existing_dt =>
      date_eqb (dt_date existing_dt) event_date &&
      (hour (dt_time existing_dt) =? hour (dt_time dt)) &&
      (minute (dt_time existing_dt) =? minute (dt_time dt))
  | None => false
  end.

Inductive popup_outcome : Type :=
  | ErrorPopup (message : string)
  | Saved (d : db).

Definition already_exists : string :=
  "An event already exists at this date and time. Please choose a different time.".

Fixpoint insert_Z (x : Z) (l : list Z) : list Z :=
  match l with
  | [] => [x]
  | y :: l' => if x <=? y then x :: y :: l' else y :: insert_Z x l'
  end.

(** [','.join(map(str, sorted(selected_repeat_days)))]. *)
Definition repeat_days_of (selected_repeat_days : list Z) : string :=
  join "," (map str_small (fold_right insert_Z [] selected_repeat_days)).

Definition is_nil {A} (l : list A) : bool :=
  match l with
  | [] => true
  | _ => false
  end.

(** [create_event_from_popup], from the validated form on: [title] is
    the stripped title, [dt] the selected date and time. *)
Definition create_event_from_popup (d : db) (title : string) (dt : datetime)
    (is_recurring : bool) (selected_repeat_days : list Z) : popup_outcome :=
  if String.eqb title "" then ErrorPopup "Please enter an event title"
  else if is_recurring && is_nil selected_repeat_days
  then ErrorPopup "Please select at least one day for repeating events"
  else
    let iso_datetime := isoformat dt in
    let event_date := dt_date dt in
    match get_schedule_by_date_range d event_date event_date with
    | Raise e => ErrorPopup ("Error creating event: " +:+ exn_message e)
    | Ok existing_events =>
        if existsb (same_slot event_date dt) existing_events
        then ErrorPopup already_exists
        else
          let repeat_days_str :=
            if is_recurring && negb (is_nil selected_repeat_days)
            then Some (repeat_days_of selected_repeat_days) else None in
          let task := mkTask title (Some iso_datetime) false (Some "local")
                             None is_recurring repeat_days_str (Some "medium") in
          match add_schedule_item d task with
          | Raise e => ErrorPopup ("Error creating event: " +:+ exn_message e)
          | Ok d' => Saved d'
          end
    end.

(** [update_task]: only the arguments that are not [None] are written. *)
Definition update_task (d : db) (task_id : Z) (new_title new_start : option string)
    (new_recurring : option bool) (new_repeat_days : option string) : db :=
  mkDb (map (fun r =>
               if id r =? task_id then
                 mkRow (id r)
                       (default (title r) new_title)
                       (match new_start with
                        | Some s => Some s
                        | None => start_time r
                        end)
                       (completed r) (source r) (event_id r)
                       (match new_recurring with
                        | Some b => Some (int_of_bool b)
                        | None => is_recurring r
                        end)
                       (match new_repeat_days with
                        | Some s => Some s
                        | None => repeat_days r
                        end)
                       (priority r)
               else r)
            (rows d))
       (seq d).

(** [update_event_from_popup]: the same check, skipping the tuples
    whose id is the one being edited. *)
Definition update_event_from_popup (d : db) (event_id : Z) (title : string)
    (dt : datetime) (is_recurring : bool) (selected_repeat_days : list Z)
  : popup_outcome :=
  if String.eqb title "" then ErrorPopup "Please enter an event title."
  else if is_recurring && is_nil selected_repeat_days
  then ErrorPopup "Please select at least one day for repeating events"
  else
    let iso_datetime := isoformat dt in
    let event_date := dt_date dt in
    match get_schedule_by_date_range d event_date event_date with
    | Raise e => ErrorPopup ("Error updating event: " +:+ exn_message e)
    | Ok existing_events =>
        if existsb (fun event => negb (ev_id event =? event_id) &&
                                 same_slot event_date dt event) existing_events
        then ErrorPopup already_exists
        else
          let repeat_days_str :=
            if is_recurring && negb (is_nil selected_repeat_days)
            then Some (repeat_days_of selected_repeat_days) else None in
          Saved (update_task d event_id (Some title) (Some iso_datetime)
                             (Some is_recurring) repeat_days_str)
    end.

(** *** [add_event_voice] *)

Definition time_key (dt : datetime) : Z * Z :=
  (hour (dt_time dt), minute (dt_time dt)).

(** One round of the loop that fills the dict [event_times]: the first
    title seen for an (hour, minute) is kept. *)
Definition note_event (event_date : date) (event_times : gmap (Z * Z) string)
    (event : event_tuple) : gmap (Z * Z) string :=
  if truthy (ev_start_time event) then
    match ev_start_time event ≫= fromisoformat with
    | Some existing_dt =>
        if date_eqb (dt_date existing_dt) event_date then
          match event_times !! time_key existing_dt with
          | Some _ => event_times
          | None => <[time_key existing_dt := ev_title event]> event_times
          end
        else event_times
    | None => event_times
    end
  else event_times.

Definition build_event_times (event_date : date)
    (existing_events : list event_tuple) : gmap (Z * Z) string :=
  fold_left (note_event event_date) existing_events ∅.

(** The 12-hour rendering of a suggested time. *)
Definition format_12h (alt_time : datetime) : string :=
  let h := hour (dt_time alt_time) in
  let m := minute (dt_time alt_time) in
  let hour_12 := if h mod 12 =? 0 then 12 else h mod 12 in
  let ampm := if h <? 12 then "am" else "pm" in
  let minute_str := if 0 <? m then ":" +:+ pad2 m else "" in
  str_small hour_12 +:+ minute_str +:+ ampm.

Definition probe_offsets : list Z := [-60; -30; 30; 60].

(** [for offset_minutes in [...]] with its [break] at three suggestions. *)
Fixpoint suggest (event_times : gmap (Z * Z) string) (dt_obj : datetime)
    (offsets : list Z) (suggestions : list string) : result (list string) :=
  match offsets with
  | [] => Ok suggestions
  | offset_minutes :: rest =>
      alt_time ← add_minutes dt_obj offset_minutes;
      match event_times !! time_key alt_time with
      | None =>
          let suggestions' := suggestions ++ [format_12h alt_time] in
          if (3 <=? length suggestions')%nat then Ok suggestions'
          else suggest event_times dt_obj rest suggestions'
      | Some _ => suggest event_times dt_obj rest suggestions
      end
  end.

(** The check on the pre-parsed times: the conflicting title and the
    suggestions, or [None] when the slot is free. *)
Definition find_conflict (existing_events : list event_tuple) (dt_obj : datetime)
  : result (option (string * list string)) :=
  let event_times := build_event_times (dt_date dt_obj) existing_events in
  match event_times !! time_key dt_obj with
  | Some conflicting_title =>
      suggestions ← suggest event_times dt_obj probe_offsets [];
      Ok (Some (conflicting_title, suggestions))
  | None => Ok None
  end.

Definition month_name (m : Z) : string :=
  match m with
  | 1 => "January" | 2 => "February" | 3 => "March" | 4 => "April"
  | 5 => "May" | 6 => "June" | 7 => "July" | 8 => "August"
  | 9 => "September" | 10 => "October" | 11 => "November" | _ => "December"
  end.

(** "today", "tomorrow" or [strftime("%B %d")]. *)
Definition date_display (today target : date) : result string :=
  if date_eqb target today then Ok "today"
  else
    tomorrow ← next_day today;
    if date_eqb target tomorrow then Ok "tomorrow"
    else Ok (month_name (month target) +:+ " " +:+ pad2 (day target)).

Definition conflict_message (conflicting_title time_str date_display_check : string)
    (suggestions : list string) : string :=
  if is_nil suggestions then
    "You already have '" +:+ conflicting_title +:+ "' at " +:+ time_str +:+
    " on " +:+ date_display_check +:+ ". Please choose a different time."
  else
    "You already have '" +:+ conflicting_title +:+ "' at " +:+ time_str +:+
    " on " +:+ date_display_check +:+ ". How about " +:+
    join ", " suggestions +:+ " instead?".

(** The [try] block that looks for a conflict: [Some message] when it
    returns the conflict message, [None] when control falls through to
    the insertion (no conflict, nothing to check, or an exception that
    the [except] prints and drops). *)
Definition voice_conflict (d : db) (today : date) (time_str : string)
    (start_time : option string) : option string :=
  if truthy start_time then
    match start_time ≫= fromisoformat with
    | None => None
    | Some dt_obj =>
        let event_date := dt_date dt_obj in
        match get_schedule_by_date_range d event_date event_date with
        | Raise _ => None
        | Ok existing_events =>
            if is_nil existing_events then None
            else
              match date_display today event_date with
              | Raise _ => None
              | Ok date_display_check =>
                  match find_conflict existing_events dt_obj with
                  | Ok (Some (conflicting_title, suggestions)) =>
                      Some (conflict_message conflicting_title time_str
                              date_display_check suggestions)
                  | Ok None => None
                  | Raise _ => None
                  end
              end
        end
    end
  else None.

(** The thread [add_event_voice] is called on.  Off the main thread
    the check and the insertion are handed to the main thread with
    [Clock.schedule_once], and the caller waits for them for at most
    0.2 s before it reads [result_container]: [answered] says whether
    the callback had stored its result by then. *)
Inductive caller : Type :=
  | MainThread
  | OtherThread (answered : bool).

(** [_check_and_add_on_main_thread]: what the callback stores under
    [result_container['conflict_message']] and the table when it is
    done.  An exception of [add_schedule_item] is printed and dropped by
    its [except]. *)
Definition check_and_add_on_main_thread (d : db) (today_check : date)
    (title time_str : string) (start_time : option string)
  : option string * db :=
  match voice_conflict d today_check time_str start_time with
  | Some message => (Some message, d)
  | None =>
      match add_schedule_item d (new_task title start_time) with
      | Raise _ => (None, d)
      | Ok d' => (None, d')
      end
  end.

(** [add_event_voice].  [time_obj] is the time of day read from
    [time_str] (noon when it cannot be read) and [target_date] the date
    read from the hint.  The result is the reply and the table once the
    check and the insertion have run. *)
Definition add_event_voice (who : caller) (d : db) (today target_date : date)
    (title time_str : string) (time_obj : time) : string * db :=
  if String.eqb title "" then ("Please provide an event title", d)
  else
    let start_time :=
      if String.eqb time_str "" then None
      else Some (isoformat (combine target_date time_obj)) in
    match date_display today target_date with
    | Raise _ => ("Could not add event", d)
    | Ok shown =>
        let response_msg :=
          if String.eqb time_str ""
          then "Added '" +:+ title +:+ "' on " +:+ shown
          else "Added '" +:+ title +:+ "' on " +:+ shown +:+ " at " +:+ time_str in
        match who with
        | OtherThread answered =>
            let result_container :=
              check_and_add_on_main_thread d today title time_str start_time in
            (match fst result_container with
             | Some message => if answered then message else response_msg
             | None => response_msg
             end,
             snd result_container)
        | MainThread =>
            match voice_conflict d today time_str start_time with
            | Some message => (message, d)
            | None =>
                match add_schedule_item d (new_task title start_time) with
                | Raise _ => ("Could not add event", d)
                | Ok d' => (response_msg, d')
                end
            end
        end
    end.

End Checks.

End Conflict.
Export Conflict.

(** ** Notions used to state the properties *)

Module Notions.

Section Statements.

Context {lib : Library}.

(** (year, month, day) in lexicographic order: the order of dates. *)
Definition date_lt (a b : date) : Prop :=
  year a < year b \/
  (year a = year b /\ (month a < month b \/ (month a = month b /\ day a < day b))).

Definition date_le (a b : date) : Prop := date_lt a b \/ a = b.

(** Comparison of (year, month, day) triples. *)
Definition lex3 (a b : date) : comparison :=
  match year a ?= year b with
  | Eq =>
      match month a ?= month b with
      | Eq => day a ?= day b
      | c => c
      end
  | c => c
  end.

(** [a] sorts no later than [b]. *)
Definition key_le {A} (key : A -> string) (a b : A) : Prop :=
  str_leb (key a) (key b) = true.

(** The days the [while] loop of an expansion goes through. *)
Fixpoint days_loop (fuel : nat) (continue : date -> bool) (current_date : date)
  : result (list date) :=
  match fuel with
  | O => Raise Diverged
  | S fuel' =>
      if continue current_date then
        next ← next_day current_date;
        days ← days_loop fuel' continue next;
        Ok (current_date :: days)
      else Ok []
  end.

Definition event_eq_dec (x y : event_tuple) : {x = y} + {x <> y}.
Proof. repeat decide equality. Defined.

(** The rows the second SELECT of every query returns. *)
Definition recurring_item (r : row) : Prop :=
  completed r = 0 /\ is_recurring r = Some 1 /\
  start_time r <> None /\ repeat_days r <> None.

(** The rows the first SELECT looks at: not completed, not recurring. *)
Definition one_shot_item (r : row) : Prop :=
  completed r = 0 /\ (is_recurring r = Some 0 \/ is_recurring r = None).

(** [d] lies in the closed range from [a] to [b]. *)
Definition in_range (a b d : date) : Prop :=
  valid_date d = true /\ date_le a d /\ date_le d b.

(** The unsorted list an expansion builds over the days [days]. *)
Definition merged (test : string -> bool) (d : db) (days : list date)
  : list event_tuple :=
  select_non_recurring test d ++
  flat_map (fun day => instances_on day (select_recurring d)) days.

(** [DATE(start_time)] of the row is the text [ds]. *)
Definition date_text (r : row) (ds : string) : Prop :=
  exists st, start_time r = Some st /\ sqlite_date st = Some ds.

(** The date part of a stored timestamp, as [DATE(start_time)] reads
    it, is the day [day]. *)
Definition stored_on (r : row) (day : date) : Prop := date_text r (str_date day).

(** [DATE()] of every stored timestamp is NULL or a day of the
    calendar.  That holds of the timestamps the application writes, and
    of timestamps with a UTC offset, which [DATE()] converts; it fails
    for a text such as ["2024-02-30T10:00:00"], which [DATE()] accepts
    as it stands. *)
Definition calendar_dates (d : db) : Prop :=
  forall r ds, In r (rows d) -> date_text r ds ->
    exists day, valid_date day = true /\ ds = str_date day.

(** The WHERE tests on [DATE(start_time)] of the three kinds of query. *)
Definition range_test (start_date end_date : date) (ds : string) : bool :=
  str_leb (str_date start_date) ds && str_leb ds (str_date end_date).

Definition month_test (first_day last_day : date) (ds : string) : bool :=
  str_leb (str_date first_day) ds && negb (str_leb (str_date last_day) ds).

(** A list is in ascending key order, and so whatever has the empty key
    (no usable [start_time]) stands before everything that has one. *)
Definition ascending {A} (key : A -> string) (l : list A) : Prop :=
  StronglySorted (key_le key) l /\
  forall l1 a l2 b l3, l = l1 ++ a :: l2 ++ b :: l3 -> key b = "" -> key a = "".

(** Example table: a recurring stand-up (Monday, Wednesday, Friday),
    two one-shot events on Wednesday 2024-01-03, and a recurring row
    whose timestamp does not parse. *)
Definition example_rows : list row :=
  [mkRow 1 "Standup" (Some "2024-01-01T09:00:00") 0 (Some "local") None
         (Some 1) (Some "0,2,4") (Some "medium");
   mkRow 2 "Dentist" (Some "2024-01-03T08:30:00") 0 (Some "local") None
         (Some 0) None (Some "medium");
   mkRow 3 "Lunch" (Some "2024-01-03T14:00:00") 0 (Some "local") None
         None None (Some "medium");
   mkRow 4 "Broken" (Some "soon") 0 (Some "local") None
         (Some 1) (Some "2") (Some "medium")].

Definition example_db : db := mkDb example_rows 4.

Definition jan (n : Z) : date := mkDate 2024 1 n.

(** [event] occupies (hour, minute) [k] on [event_date]: its
    start_time is set, parses, and has that date, hour and minute. *)
Definition occupies (event_date : date) (event : event_tuple) (k : Z * Z) : Prop :=
  exists st existing_dt,
    ev_start_time event = Some st /\ fromisoformat st = Some existing_dt /\
    dt_date existing_dt = event_date /\ time_key existing_dt = k.

(** The same, computed. *)
Definition slot_of (event_date : date) (event : event_tuple) : option (Z * Z) :=
  existing_dt ← ev_start_time event ≫= fromisoformat;
  if date_eqb (dt_date existing_dt) event_date
  then Some (time_key existing_dt) else None.

Definition key_eqb (a b : Z * Z) : bool :=
  (fst a =? fst b) && (snd a =? snd b).

Definition takes (event_date : date) (k : Z * Z) (event : event_tuple) : bool :=
  match slot_of event_date event with
  | Some k' => key_eqb k' k
  | None => false
  end.

(** Some event of the list occupies [k]. *)
Definition taken (event_date : date) (existing_events : list event_tuple)
  (k : Z * Z) : bool :=
  existsb (takes event_date k) existing_events.

(** The first event of the list that occupies [k]. *)
Definition first_at (event_date : date) (k : Z * Z)
  (existing_events : list event_tuple) : option event_tuple :=
  find (takes event_date k) existing_events.

(** The caller learns what the check found: always on the main thread,
    and off it when the scheduled check had answered by the end of the
    wait. *)
Definition heard (who : caller) : bool :=
  match who with
  | MainThread => true
  | OtherThread answered => answered
  end.

(** The probe is free: no event of the list occupies its (hour, minute). *)
Definition free_probe (event_date : date) (existing_events : list event_tuple)
  (alt_time : datetime) : bool :=
  negb (taken event_date existing_events (time_key alt_time)).

(** The suggestions for the probed times [alts], taken in order. *)
Definition suggestions_for (event_date : date)
  (existing_events : list event_tuple) (alts : list datetime) : list string :=
  firstn 3 (map format_12h (List.filter (free_probe event_date existing_events) alts)).

(** The probed times exist: each offset can be added to [dt_obj]. *)
Definition probes (dt_obj : datetime) (alts : list datetime) : Prop :=
  Forall2 (fun offset_minutes alt_time =>
             add_minutes dt_obj offset_minutes = Ok alt_time)
          probe_offsets alts.

(** A year strictly inside [MINYEAR, MAXYEAR]: an hour earlier or
    later is still a date. *)
Definition inner_year (d : date) : Prop := MINYEAR < year d < MAXYEAR.

(** [d] is a day of month [m] of year [y]. *)
Definition in_month (y m : Z) (d : date) : Prop :=
  valid_date d = true /\ year d = y /\ month d = m.

(** The first day of the month after month [m] of year [y]. *)
Definition next_month_first (y m : Z) : date :=
  if m =? 12 then mkDate (y + 1) 1 1 else mkDate y (m + 1) 1.

(** What an expansion returns for the WHERE test [test] over the days
    that satisfy [P]: the tuple of a one-shot row whose [DATE()] passes
    the test, or the instance of a recurring row on such a day whose
    weekday the row lists. *)
Definition expansion_of (test : string -> bool) (P : date -> Prop) (d : db)
    (ev : event_tuple) : Prop :=
  (exists r ds, In r (rows d) /\ one_shot_item r /\ date_text r ds /\
                test ds = true /\ ev = select_event r) \/
  (exists r day st dt, In r (rows d) /\ recurring_item r /\ P day /\
                 repeats_on (repeat_days r) (weekday day) = true /\
                 start_time r = Some st /\ fromisoformat st = Some dt /\
                 ev = instance_at day (dt_time dt) (select_event r)).

(** A row that repeats on the given days from an anchor timestamp. *)
Definition weekly (i : Z) (t anchor days : string) : row :=
  mkRow i t (Some anchor) 0 (Some "local") None (Some 1) (Some days) (Some "medium").

Definition start_times (r : result (list event_tuple)) : list (option string) :=
  match r with
  | Ok events => map ev_start_time events
  | Raise _ => []
  end.

End Statements.

End Notions.
Export Notions.

(** ** The other statements of [database_manager.py] *)

Module Tasks.

(** [DELETE FROM tasks WHERE id = ?] and [cursor.rowcount > 0].  The
    AUTOINCREMENT counter is not wound back. *)
Definition delete_task (d : db) (task_id : Z) : db * bool :=
  (mkDb (List.filter (fun r => negb (id r =? task_id)) (rows d)) (seq d),
   existsb (fun r => id r =? task_id) (rows d)).

(** SQL [NOT] on an integer. *)
Definition sql_not (z : Z) : Z := if z =? 0 then 1 else 0.

(** [UPDATE tasks SET completed = NOT completed WHERE id = ?]. *)
Definition toggle_task_completion (d : db) (task_id : Z) : db * bool :=
  (mkDb (map (fun r =>
                if id r =? task_id then
                  mkRow (id r) (title r) (start_time r) (sql_not (completed r))
                        (source r) (event_id r) (is_recurring r)
                        (repeat_days r) (priority r)
                else r)
             (rows d))
        (seq d),
   existsb (fun r => id r =? task_id) (rows d)).

(** [DELETE FROM tasks WHERE source='google']; a NULL source is kept. *)
Definition clear_google_tasks (d : db) : db :=
  mkDb (List.filter (fun r => negb (match source r with
                                    | Some s => String.eqb s "google"
                                    | None => false
                                    end))
                    (rows d))
       (seq d).

(** [bool(x)] of an integer column that may be NULL. *)
Definition py_bool (z : option Z) : bool :=
  match z with
  | Some n => negb (n =? 0)
  | None => false
  end.

(** The dict [get_schedule_item_by_id] returns. *)
Record schedule_item : Type := mkItem {
  item_id : Z;
  item_title : string;
  item_start_time : option string;
  item_source : option string;
  item_completed : bool;
  item_event_id : option string;
  item_is_recurring : bool;
  item_repeat_days : option string
}.

(** [get_schedule_item_by_id]: [fetchone()] of the rows with that id. *)
Definition get_schedule_item_by_id (d : db) (task_id : Z) : option schedule_item :=
  match find (fun r => id r =? task_id) (rows d) with
  | Some row =>
      Some (mkItem (id row) (title row) (start_time row) (source row)
                   (py_bool (Some (completed row))) (event_id row)
                   (py_bool (is_recurring row)) (repeat_days row))
  | None => None
  end.

(** A stable sort for [ORDER BY]: [leb a b] says that [a] may stand
    before [b].  Rows that compare equal stay in table order (SQL leaves
    their order open). *)
Fixpoint insert_row {A} (leb : A -> A -> bool) (x : A) (l : list A) : list A :=
  match l with
  | [] => [x]
  | y :: l' => if leb x y then x :: y :: l' else y :: insert_row leb x l'
  end.

Definition order_by {A} (leb : A -> A -> bool) (l : list A) : list A :=
  fold_right (insert_row leb) [] l.

(** SQL comparison of a TEXT column: NULL is below every string, strings
    compare byte by byte. *)
Definition sql_compare (a b : option string) : comparison :=
  match a, b with
  | None, None => Eq
  | None, Some _ => Lt
  | Some _, None => Gt
  | Some x, Some y => String.compare x y
  end.

(** [ORDER BY start_time ASC]. *)
Definition start_time_asc (a b : row) : bool :=
  match sql_compare (start_time a) (start_time b) with
  | Gt => false
  | _ => true
  end.

(** [get_all_tasks]: [SELECT *] lists the columns as id, title,
    start_time, completed, source, event_id, is_recurring, repeat_days,
    priority; the [Task] is built from columns 1 to 7 and the priority
    is left to the constructor's default. *)
Definition get_all_tasks (d : db) : list Task :=
  map (fun row =>
         mkTask (title row) (start_time row) (py_bool (Some (completed row)))
                (source row) (event_id row) (py_bool (is_recurring row))
                (repeat_days row) (Some "medium"))
      (order_by start_time_asc (rows d)).

(** A result tuple of [SELECT id, title, start_time, source, completed,
    event_id, is_recurring, repeat_days, priority]: [task[0]] to
    [task[8]]. *)
Record task_tuple : Type := mkTaskTuple {
  tt_id : Z;
  tt_title : string;
  tt_start_time : option string;
  tt_source : option string;
  tt_completed : Z;
  tt_event_id : option string;
  tt_is_recurring : option Z;
  tt_repeat_days : option string;
  tt_priority : option string
}.

Definition select_task (r : row) : task_tuple :=
  mkTaskTuple (id r) (title r) (start_time r) (source r) (completed r)
              (event_id r) (is_recurring r) (repeat_days r) (priority r).

(** [ORDER BY priority DESC, id DESC]. *)
Definition priority_desc_id_desc (a b : row) : bool :=
  match sql_compare (priority a) (priority b) with
  | Gt => true
  | Lt => false
  | Eq => id b <=? id a
  end.

(** [if limit: query += f" LIMIT {limit}"]: no limit for [None] and 0;
    SQLite reads a negative LIMIT as no upper bound. *)
Definition sql_limit {A} (limit : option Z) (l : list A) : list A :=
  match limit with
  | Some n => if n <=? 0 then l else firstn (Z.to_nat n) l
  | None => l
  end.

(** [get_tasks_by_status(completed, limit)]. *)
Definition get_tasks_by_status (d : db) (completed_flag : bool) (limit : option Z)
  : list task_tuple :=
  sql_limit limit
    (map select_task
       (order_by priority_desc_id_desc
          (List.filter
             (fun r => (completed r =? int_of_bool completed_flag) &&
                       match start_time r with
                       | None => true
                       | Some _ => false
                       end)
             (rows d)))).

(** One entry of the list [get_upcoming_events] returns: the keys
    ['title'], ['start'] and ['id']. *)
Record google_event : Type := mkGoogleEvent {
  g_title : string;
  g_start : option string;
  g_id : string
}.

(** [Task(title=e['title'], start_time=e['start'], completed=False,
    source="google", event_id=e['id'])]. *)
Definition google_task (e : google_event) : Task :=
  mkTask (g_title e) (g_start e) false (Some "google") (Some (g_id e))
         false None (Some "medium").

(** [sync_google_events_to_db], given the events fetched: the old
    Google rows are cleared and one row is added per event. *)
Definition sync_google_events_to_db (d : db) (events : list google_event) : db :=
  fold_left (fun table e => add_task table (google_task e))
            events (clear_google_tasks d).

End Tasks.
Export Tasks.

(** ** Notions for the statements about the table *)

Module TableNotions.

(** Ids are unique and none is above the AUTOINCREMENT counter: what
    the primary key and the counter of SQLite maintain. *)
Definition well_formed (d : db) : Prop :=
  NoDup (map id (rows d)) /\ (forall r, In r (rows d) -> id r <= seq d).

(** The rows other than row [i], and the tuples of a query result that
    do not belong to it. *)
Definition other_row (i : Z) (r : row) : bool := negb (id r =? i).

Definition other_event (i : Z) (ev : event_tuple) : bool := negb (ev_id ev =? i).

Definition without_id (i : Z) (events : list event_tuple) : list event_tuple :=
  List.filter (other_event i) events.

Definition map_result {A B} (f : A -> B) (r : result A) : result B :=
  match r with
  | Ok a => Ok (f a)
  | Raise e => Raise e
  end.

(** The place of a priority in the task list: text in descending order. *)
Definition listing_rank (p : option string) : Z :=
  match p with
  | Some "medium" => 0
  | Some "low" => 1
  | Some "high" => 2
  | _ => 3
  end.

Definition known_priority (p : option string) : Prop :=
  p = Some "high" \/ p = Some "medium" \/ p = Some "low".

(** [a] is listed before [b]: by priority text in descending order,
    and among equal priorities the later row first. *)
Definition listed_before (a b : task_tuple) : Prop :=
  listing_rank (tt_priority a) < listing_rank (tt_priority b) \/
  (tt_priority a = tt_priority b /\ tt_id b <= tt_id a).

(** The [Task] that [get_all_tasks] builds from a row. *)
Definition listed_task (r : row) : Task :=
  mkTask (title r) (start_time r) (py_bool (Some (completed r)))
         (source r) (event_id r) (py_bool (is_recurring r))
         (repeat_days r) (Some "medium").

(** NULL first, then text in ascending order. *)
Definition start_time_le (a b : Task) : Prop :=
  sql_compare (task_start_time a) (task_start_time b) <> Gt.

(** The dict of a row as [get_schedule_item_by_id] builds it. *)
Definition item_of (r : row) : schedule_item :=
  mkItem (id r) (title r) (start_time r) (source r)
         (py_bool (Some (completed r))) (event_id r)
         (py_bool (is_recurring r)) (repeat_days r).

(** The dict of a row after [update_task] with the given arguments:
    an argument that is [None] leaves its entry as it was. *)
Definition updated_item (new_title new_start : option string)
    (new_recurring : option bool) (new_repeat_days : option string)
    (it : schedule_item) : schedule_item :=
  mkItem (item_id it)
         (default (item_title it) new_title)
         (match new_start with
          | Some s => Some s
          | None => item_start_time it
          end)
         (item_source it) (item_completed it) (item_event_id it)
         (default (item_is_recurring it) new_recurring)
         (match new_repeat_days with
          | Some s => Some s
          | None => item_repeat_days it
          end).

(** The row a task becomes when it is inserted with id [i]. *)
Definition row_of (i : Z) (task : Task) : row :=
  mkRow i (task_title task) (task_start_time task)
        (int_of_bool (task_completed task)) (task_source task)
        (task_event_id task) (Some (int_of_bool (task_is_recurring task)))
        (task_repeat_days task) (task_priority task).

Definition is_google (r : row) : bool :=
  match source r with
  | Some s => String.eqb s "google"
  | None => false
  end.

Definition is_local (r : row) : bool := negb (is_google r).

(** What a sync stores of a row and of a fetched event. *)
Definition synced_fields (r : row) : string * option string * option string :=
  (title r, start_time r, event_id r).

Definition fetched_fields (e : google_event) : string * option string * option string :=
  (g_title e, g_start e, Some (g_id e)).

(** Example table: four open tasks of the three priorities, a completed
    task and an event. *)
Definition task_rows : list row :=
  [mkRow 1 "Write report" None 0 (Some "local") None (Some 0) None (Some "high");
   mkRow 2 "Buy milk" None 0 (Some "local") None (Some 0) None (Some "low");
   mkRow 3 "Call mom" None 0 (Some "local") None (Some 0) None (Some "medium");
   mkRow 4 "Review" (Some "2024-01-03T16:00:00") 0 (Some "google") (Some "g1")
         (Some 0) None (Some "medium");
   mkRow 5 "Old chore" None 1 (Some "local") None (Some 0) None (Some "medium");
   mkRow 6 "Pay rent" None 0 (Some "local") None (Some 0) None (Some "high")].

Definition task_db : db := mkDb task_rows 6.

End TableNotions.
Export TableNotions.

(** ** The pickers of [event_manager.py] *)

Module Picker.

(** [date_picker_prev_month] and [date_picker_next_month] on
    (year, month); [CalendarManager.prev_month] and [next_month] run the
    same steps on the month the calendar shows. *)
Definition prev_month (year month : Z) : Z * Z :=
  if month =? 1 then (year - 1, 12) else (year, month - 1).

Definition next_month (year month : Z) : Z * Z :=
  if month =? 12 then (year + 1, 1) else (year, month + 1).

(** The fields of the application that the date and time pickers set
    and the event popups read. *)
Record picker : Type := mkPicker {
  selected_event_date : option string;
  selected_event_time : option string;
  selected_hour : option Z;
  selected_minute : option Z;
  selected_ampm : option string
}.

(** [render_time_picker] draws the picker; before it does, it sets
    what is not set of hour, minute and AM/PM to 12, 0 and PM. *)
Definition render_time_picker (p : picker) : picker :=
  mkPicker (selected_event_date p) (selected_event_time p)
           (match selected_hour p with
            | None => Some 12
            | Some hour => Some hour
            end)
           (match selected_minute p with
            | None => Some 0
            | Some minute => Some minute
            end)
           (match selected_ampm p with
            | None => Some "PM"
            | Some ampm => Some ampm
            end).

(** [open_time_picker_for_event] resets the time to 12:00 PM and draws
    the picker. *)
Definition open_time_picker_for_event (p : picker) : picker :=
  render_time_picker
    (mkPicker (selected_event_date p) (selected_event_time p)
              (Some 12) (Some 0) (Some "PM")).

(** [open_time_picker_for_edit_event] resets it only when no hour is
    set. *)
Definition open_time_picker_for_edit_event (p : picker) : picker :=
  render_time_picker
    (match selected_hour p with
     | None => mkPicker (selected_event_date p) (selected_event_time p)
                        (Some 12) (Some 0) (Some "PM")
     | Some _ => p
     end).

Definition select_hour (p : picker) (hour : Z) : picker :=
  mkPicker (selected_event_date p) (selected_event_time p)
           (Some hour) (selected_minute p) (selected_ampm p).

Definition select_minute (p : picker) (minute : Z) : picker :=
  mkPicker (selected_event_date p) (selected_event_time p)
           (selected_hour p) (Some minute) (selected_ampm p).

Definition select_ampm (p : picker) (ampm : string) : picker :=
  mkPicker (selected_event_date p) (selected_event_time p)
           (selected_hour p) (selected_minute p) (Some ampm).

(** The hour [confirm_time_selection] stores for a 12-hour choice. *)
Definition hour_24 (selected_hour : Z) (selected_ampm : string) : Z :=
  if String.eqb selected_ampm "PM" && negb (selected_hour =? 12)
  then selected_hour + 12
  else if String.eqb selected_ampm "AM" && (selected_hour =? 12) then 0
  else selected_hour.

(** The text it puts on the time button. *)
Definition display_time (selected_hour selected_minute : Z) (selected_ampm : string)
  : string :=
  if String.eqb selected_ampm "AM" then
    if selected_hour =? 12 then "12:" +:+ pad2 selected_minute +:+ " am"
    else str_small selected_hour +:+ ":" +:+ pad2 selected_minute +:+ " am"
  else
    if selected_hour =? 12 then "12:" +:+ pad2 selected_minute +:+ " pm"
    else str_small selected_hour +:+ ":" +:+ pad2 selected_minute +:+ " pm".

(** [confirm_time_selection]: the picker afterwards and the button
    text; nothing changes while a part of the time is unset. *)
Definition confirm_time_selection (p : picker) : picker * option string :=
  match selected_hour p, selected_minute p, selected_ampm p with
  | Some h, Some m, Some ampm =>
      let time_str := pad2 (hour_24 h ampm) +:+ ":" +:+ pad2 m in
      (mkPicker (selected_event_date p) (Some time_str)
                (selected_hour p) (selected_minute p) (selected_ampm p),
       Some (display_time h m ampm))
  | _, _, _ => (p, None)
  end.

(** [s.lstrip("0")]. *)
Fixpoint lstrip_zero (s : string) : string :=
  match s with
  | String c r => if Ascii.eqb c "0" then lstrip_zero r else s
  | "" => ""
  end.

(** [dt.strftime("%I:%M %p").lstrip("0")], with a leading blank
    dropped, as the edit popup and the day popup show a time; [%p] is
    AM or PM. *)
Definition time_12h (t : time) : string :=
  let hour_12 := if hour t mod 12 =? 0 then 12 else hour t mod 12 in
  let s := lstrip_zero (pad2 hour_12 +:+ ":" +:+ pad2 (minute t) +:+ " " +:+
                        (if hour t <? 12 then "AM" else "PM")) in
  match s with
  | String c r => if Ascii.eqb c " " then r else s
  | "" => ""
  end.

Section Prefill.

Context {lib : Library}.

(** The part of [edit_event_from_day_popup] that fills date and time
    from the stored start_time: the picker afterwards and the text of
    the time button.  A start_time that does not parse clears date and
    time and leaves the hour, minute and AM/PM of the picker alone. *)
Definition prefill_time (start_time : option string) (p : picker)
  : picker * string :=
  let cleared := (mkPicker None None (selected_hour p) (selected_minute p)
                           (selected_ampm p), "Select Time") in
  if truthy start_time then
    match start_time ≫= fromisoformat with
    | Some dt =>
        let t := dt_time dt in
        let hour_12 := if hour t mod 12 =? 0 then 12 else hour t mod 12 in
        (mkPicker (Some (str_date (dt_date dt)))
                  (Some (pad2 (hour t) +:+ ":" +:+ pad2 (minute t)))
                  (Some hour_12) (Some (minute t))
                  (Some (if hour t <? 12 then "AM" else "PM")),
         time_12h t)
    | None => cleared
    end
  else cleared.

End Prefill.

(** [list.remove(x)]: the first occurrence goes. *)
Fixpoint remove_first (x : Z) (l : list Z) : list Z :=
  match l with
  | [] => []
  | y :: l' => if y =? x then l' else y :: remove_first x l'
  end.

(** [on_repeat_day_changed(day_num, state)] on the list of selected
    weekdays. *)
Definition on_repeat_day_changed (selected_repeat_days : list Z) (day_num : Z)
    (state : string) : list Z :=
  if String.eqb state "down" then
    if existsb (Z.eqb day_num) selected_repeat_days then selected_repeat_days
    else selected_repeat_days ++ [day_num]
  else
    if existsb (Z.eqb day_num) selected_repeat_days
    then remove_first day_num selected_repeat_days
    else selected_repeat_days.

End Picker.
Export Picker.

(** ** Notions for the statements about the pickers *)

Module PickerNotions.

(** A choice the time picker offers: an hour from 1 to 12, a minute and
    AM or PM. *)
Definition picker_choice (h m : Z) (ampm : string) : Prop :=
  1 <= h <= 12 /\ 0 <= m < 60 /\ (ampm = "AM" \/ ampm = "PM").

(** The selection after a series of presses on the weekday buttons,
    starting from none selected. *)
Definition selection_after (presses : list (Z * string)) : list Z :=
  fold_left (fun selected press =>
               on_repeat_day_changed selected (fst press) (snd press))
            presses [].

(** The state a weekday button was last put in; up when never pressed. *)
Definition is_down (day_num : Z) (presses : list (Z * string)) : bool :=
  fold_left (fun down press =>
               if fst press =? day_num then String.eqb (snd press) "down" else down)
            presses false.

Definition weekdays (l : list Z) : Prop := forall w, In w l -> 0 <= w <= 6.

(** A string without a comma. *)
Fixpoint comma_free (s : string) : bool :=
  match s with
  | "" => true
  | String c r => negb (Ascii.eqb c ",") && comma_free r
  end.

(** The task a popup stores for a title, a time and a recurrence. *)
Definition popup_task (title : string) (dt : datetime) (is_recurring : bool)
    (selected_repeat_days : list Z) : Task :=
  mkTask title (Some (isoformat dt)) false (Some "local") None is_recurring
         (if is_recurring then Some (repeat_days_of selected_repeat_days) else None)
         (Some "medium").

End PickerNotions.
Export PickerNotions.

(** ** The voice commands of [main.py]

    The text a voice command carries is taken as ASCII: [lower] maps
    the letters A to Z, [strip] removes the ASCII white space, and a
    digit is one of 0 to 9. *)

Module Voice.

Definition code (c : ascii) : Z := Z.of_N (N_of_ascii c).

(** [s.lower()]. *)
Definition lower_char (c : ascii) : ascii :=
  if (65 <=? code c) && (code c <=? 90)
  then ascii_of_N (Z.to_N (code c + 32)) else c.

Fixpoint lower (s : string) : string :=
  match s with
  | "" => ""
  | String c r => String (lower_char c) (lower r)
  end.

(** [s.strip()]. *)
Definition is_space (c : ascii) : bool :=
  ((9 <=? code c) && (code c <=? 13)) || ((28 <=? code c) && (code c <=? 32)).

Fixpoint lstrip (s : string) : string :=
  match s with
  | String c r => if is_space c then lstrip r else s
  | "" => ""
  end.

Fixpoint rstrip (s : string) : string :=
  match s with
  | "" => ""
  | String c r =>
      match rstrip r with
      | "" => if is_space c then "" else String c ""
      | r' => String c r'
      end
  end.

Definition strip (s : string) : string := rstrip (lstrip s).

(** [s.replace(c, '')] for a single character. *)
Fixpoint remove_char (x : ascii) (s : string) : string :=
  match s with
  | "" => ""
  | String c r => if Ascii.eqb c x then remove_char x r else String c (remove_char x r)
  end.

(** [p in s]. *)
Fixpoint contains (p s : string) : bool :=
  String.prefix p s ||
  match s with
  | "" => false
  | String _ r => contains p r
  end.

(** *** [datetime.strptime] for the five formats of [add_event_voice]

    [strptime] turns a format into a regular expression and matches it
    at the start of the text.  A directive is written here as a matcher
    that takes the text and the matcher of what follows it, and tries
    its alternatives in the order of the expression. *)

Definition or_else {A} (x y : option A) : option A :=
  match x with
  | Some _ => x
  | None => y
  end.

Definition two_digits {A} (first second : Z -> bool) (s : string)
    (k : Z -> string -> option A) : option A :=
  match s with
  | String a (String b r) =>
      match digit_val a, digit_val b with
      | Some x, Some y => if first x && second y then k (10 * x + y) r else None
      | _, _ => None
      end
  | _ => None
  end.

Definition one_digit {A} (ok : Z -> bool) (s : string)
    (k : Z -> string -> option A) : option A :=
  match s with
  | String a r =>
      match digit_val a with
      | Some x => if ok x then k x r else None
      | None => None
      end
  | "" => None
  end.

Definition any_digit (x : Z) : bool := true.

(** [%I]: [1[0-2]|0[1-9]|[1-9]]. *)
Definition re_I {A} (s : string) (k : Z -> string -> option A) : option A :=
  or_else (two_digits (Z.eqb 1) (fun y => y <=? 2) s k)
    (or_else (two_digits (Z.eqb 0) (fun y => 1 <=? y) s k)
             (one_digit (fun x => 1 <=? x) s k)).

(** [%H]: [2[0-3]|[0-1]\d|\d]. *)
Definition re_H {A} (s : string) (k : Z -> string -> option A) : option A :=
  or_else (two_digits (Z.eqb 2) (fun y => y <=? 3) s k)
    (or_else (two_digits (fun x => x <=? 1) any_digit s k)
             (one_digit any_digit s k)).

(** [%M]: [[0-5]\d|\d]. *)
Definition re_M {A} (s : string) (k : Z -> string -> option A) : option A :=
  or_else (two_digits (fun x => x <=? 5) any_digit s k)
          (one_digit any_digit s k).

(** [%S]: [6[0-1]|[0-5]\d|\d]. *)
Definition re_S {A} (s : string) (k : Z -> string -> option A) : option A :=
  or_else (two_digits (Z.eqb 6) (fun y => y <=? 1) s k)
    (or_else (two_digits (fun x => x <=? 5) any_digit s k)
             (one_digit any_digit s k)).

(** A character of the format that stands for itself. *)
Definition re_char {A} (c : ascii) (s : string) (k : string -> option A) : option A :=
  match s with
  | String a r => if Ascii.eqb a c then k r else None
  | "" => None
  end.

(** [%p]: [am|pm], letter case ignored; the matcher passes on whether
    it read pm. *)
Definition re_p {A} (s : string) (k : bool -> string -> option A) : option A :=
  match s with
  | String a (String b r) =>
      if Ascii.eqb (lower_char b) "m" then
        if Ascii.eqb (lower_char a) "a" then k false r
        else if Ascii.eqb (lower_char a) "p" then k true r
        else None
      else None
  | _ => None
  end.

(** The hour of a 12-hour reading. *)
Definition hour_of_12 (h : Z) (pm : bool) : Z :=
  if pm then (if h =? 12 then 12 else h + 12) else (if h =? 12 then 0 else h).

(** After the match: text left over is a [ValueError], and so is a
    time of day that does not exist (second 60 or 61). *)
Definition matched (r : option (time * string)) : option time :=
  match r with
  | Some (t, "") => if valid_time t then Some t else None
  | _ => None
  end.

(** [strptime(s, "%I%p")], [strptime(s, "%I:%M%p")] and
    [strptime(s, "%I:%M:%S%p")], then [.time()]. *)
Definition strptime_Ip (s : string) : option time :=
  matched (re_I s (fun h r =>
           re_p r (fun pm rest => Some (mkTime (hour_of_12 h pm) 0 0 0, rest)))).

Definition strptime_IMp (s : string) : option time :=
  matched (re_I s (fun h r =>
           re_char ":" r (fun r =>
           re_M r (fun m r =>
           re_p r (fun pm rest => Some (mkTime (hour_of_12 h pm) m 0 0, rest)))))).

Definition strptime_IMSp (s : string) : option time :=
  matched (re_I s (fun h r =>
           re_char ":" r (fun r =>
           re_M r (fun m r =>
           re_char ":" r (fun r =>
           re_S r (fun x r =>
           re_p r (fun pm rest => Some (mkTime (hour_of_12 h pm) m x 0, rest)))))))).

(** [strptime(s, "%H:%M:%S")] and [strptime(s, "%H:%M")]. *)
Definition strptime_HMS (s : string) : option time :=
  matched (re_H s (fun h r =>
           re_char ":" r (fun r =>
           re_M r (fun m r =>
           re_char ":" r (fun r =>
           re_S r (fun x rest => Some (mkTime h m x 0, rest))))))).

Definition strptime_HM (s : string) : option time :=
  matched (re_H s (fun h r =>
           re_char ":" r (fun r =>
           re_M r (fun m rest => Some (mkTime h m 0 0, rest))))).

(** The time of day [add_event_voice] reads from a non-empty
    [time_str]: the first format that matches, and noon when none
    does. *)
Definition spoken_time (time_str : string) : time :=
  let time_str_lower :=
    remove_char "." (remove_char " " (strip (lower time_str))) in
  let parsed :=
    if contains "pm" time_str_lower || contains "am" time_str_lower then
      or_else (strptime_Ip time_str_lower)
        (or_else (strptime_IMp time_str_lower) (strptime_IMSp time_str_lower))
    else if contains ":" time_str_lower then
      or_else (strptime_HMS time_str_lower) (strptime_HM time_str_lower)
    else None in
  match parsed with
  | Some time_obj => time_obj
  | None => mkTime 12 0 0 0
  end.

Section Spoken.

Context {lib : Library}.

(** [add_event_voice] from the spoken time on, for a date already read
    from the hint. *)
Definition add_event_voice_at (who : caller) (d : db) (today target_date : date)
    (title time_str : string) : string * db :=
  add_event_voice who d today target_date title time_str (spoken_time time_str).

End Spoken.

(** *** [_parse_date_hint] *)

(** [d + timedelta(days=n)]. *)
Definition add_days (d : date) (n : Z) : result date :=
  if 0 <=? n
  then Nat.iter (Z.to_nat n) (fun r => r ≫= next_day) (Ok d)
  else Nat.iter (Z.to_nat (- n)) (fun r => r ≫= prev_day) (Ok d).

(** The dict [day_names], in the order it is written. *)
Definition day_names : list (string * Z) :=
  [("monday", 0); ("mon", 0);
   ("tuesday", 1); ("tue", 1); ("tues", 1);
   ("wednesday", 2); ("wed", 2);
   ("thursday", 3); ("thu", 3); ("thur", 3); ("thurs", 3);
   ("friday", 4); ("fri", 4);
   ("saturday", 5); ("sat", 5);
   ("sunday", 6); ("sun", 6)].

(** The first part of [_parse_date_hint]: the words today, tomorrow
    and next week and the names of the weekdays.  [None] stands for a
    text with none of them, which the function goes on to read as a
    numeric or month-name date. *)
Definition parse_date_hint_words (today : date) (date_hint title : string)
  : option (result date) :=
  let text := lower (date_hint +:+ " " +:+ title) in
  if contains "today" text || String.eqb date_hint "" ||
     String.eqb (lower date_hint) "today"
  then Some (Ok today)
  else if contains "tomorrow" text then Some (add_days today 1)
  else if contains "next week" text then Some (add_days today 7)
  else
    match find (fun entry => contains (fst entry) text) day_names with
    | Some (_, day_num) =>
        let current_day := weekday today in
        let days_ahead := day_num - current_day in
        let days_ahead :=
          if contains "next" text || (days_ahead <=? 0)
          then days_ahead + 7 else days_ahead in
        Some (add_days today days_ahead)
    | None => None
    end.

(** *** Showing the schedule *)

Section Shown.

Context {lib : Library}.

(** The time [update_schedule_display] writes before a title. *)
Definition schedule_time (start_time : option string) : string :=
  if truthy start_time then
    match start_time ≫= fromisoformat with
    | Some dt =>
        let hour := hour (dt_time dt) in
        let minute := minute (dt_time dt) in
        let am_pm := if hour <? 12 then "AM" else "PM" in
        let hour_12 := if hour <=? 12 then hour else hour - 12 in
        let hour_12 := if hour_12 =? 0 then 12 else hour_12 in
        str_small hour_12 +:+ ":" +:+ pad2 minute +:+ " " +:+ am_pm
    | None => "00:00 AM"
    end
  else "00:00 AM".

(** The time [_populate_day_events_popup] shows for an event. *)
Definition day_popup_time (start_time : option string) : string :=
  if truthy start_time then
    match start_time ≫= fromisoformat with
    | Some dt => time_12h (dt_time dt)
    | None => ""
    end
  else "".

End Shown.

End Voice.
Export Voice.

(** ** Notions for the statements about the voice commands *)

Module VoiceNotions.

(** The numbers [0 .. n-1]. *)
Definition upto (n : nat) : list Z := map Z.of_nat (List.seq 0 n).

Definition time_eqb (a b : time) : bool :=
  (hour a =? hour b) && (minute a =? minute b) && (second a =? second b) &&
  (microsecond a =? microsecond b).

(** The reading of every suggestion and of every 24-hour time, checked
    over the hours and minutes of a day. *)
Definition suggestions_read_back : bool :=
  forallb (fun h =>
    forallb (fun m =>
      time_eqb (spoken_time
                  (format_12h (mkDatetime (mkDate 2024 1 1) (mkTime h m 0 0))))
               (mkTime h m 0 0) &&
      time_eqb (spoken_time (pad2 h +:+ ":" +:+ pad2 m)) (mkTime h m 0 0))
      (upto 60))
    (upto 24).

(** No word that [_parse_date_hint] reads before the weekday names is
    in the text. *)
Definition no_day_word (date_hint text : string) : Prop :=
  contains "today" text = false /\ date_hint <> "" /\
  contains "tomorrow" text = false /\ contains "next week" text = false.

End VoiceNotions.
Export VoiceNotions.

(** ** The month grid of [calendar_manager.py] *)

Module Grid.

Section Dots.

Context {lib : Library}.

(** A date as the key of a dict. *)
Definition date_key (d : date) : Z * Z * Z := (year d, month d, day d).

(** One round of the loop of [render_calendar_grid] over the events of
    the month: it fills the dicts [events_by_date] and
    [recurring_events_by_date]. *)
Definition mark_event (marks : gmap (Z * Z * Z) bool * gmap (Z * Z * Z) bool)
    (event : event_tuple) : gmap (Z * Z * Z) bool * gmap (Z * Z * Z) bool :=
  let events_by_date := fst marks in
  let recurring_events_by_date := snd marks in
  if truthy (ev_start_time event) then
    match ev_start_time event ≫= fromisoformat with
    | Some dt =>
        let event_date := date_key (dt_date dt) in
        if py_bool (ev_is_recurring event) then
          match recurring_events_by_date !! event_date with
          | None => (events_by_date, <[event_date := true]> recurring_events_by_date)
          | Some _ => marks
          end
        else
          match events_by_date !! event_date with
          | None => (<[event_date := true]> events_by_date, recurring_events_by_date)
          | Some _ => marks
          end
    | None => marks
    end
  else marks.

(** The two dicts [render_calendar_grid] builds for the month shown. *)
Definition month_marks (d : db) (year month : Z)
  : result (gmap (Z * Z * Z) bool * gmap (Z * Z * Z) bool) :=
  events ← get_schedule_by_month d year month;
  Ok (fold_left mark_event events (∅, ∅)).

(** [events_by_date.get(day_date, False)] and
    [recurring_events_by_date.get(day_date, False)]: the dots of a day. *)
Definition has_events (marks : gmap (Z * Z * Z) bool * gmap (Z * Z * Z) bool)
    (day_date : date) : bool :=
  default false (fst marks !! date_key day_date).

Definition has_recurring_events
    (marks : gmap (Z * Z * Z) bool * gmap (Z * Z * Z) bool)
    (day_date : date) : bool :=
  default false (snd marks !! date_key day_date).

(** [show_day_events]: the events listed for a day that is tapped. *)
Definition show_day_events (d : db) (event_date : date) : result (list event_tuple) :=
  get_schedule_by_date_range d event_date event_date.

End Dots.

End Grid.
Export Grid.

(** ** Notions for the statements about the grid *)

Module GridNotions.

Section DotStatements.

Context {lib : Library}.

(** [event] is marked on [day] in the dict for the given kind: its
    recurring flag is [flag] and its start_time parses to that day. *)
Definition marked_on (day : date) (flag : bool) (event : event_tuple) : Prop :=
  py_bool (ev_is_recurring event) = flag /\
  exists st dt, ev_start_time event = Some st /\ fromisoformat st = Some dt /\
                dt_date dt = day.

(** The start_time of [event] can be read as a timestamp. *)
Definition readable (event : event_tuple) : Prop :=
  exists st dt, ev_start_time event = Some st /\ fromisoformat st = Some dt.

(** [DATE()] and [datetime.fromisoformat] read the same day from the
    timestamps of the table: where both read a stored start_time, the
    text [DATE()] returns is the date [fromisoformat] reads.  It holds of
    timestamps written by [isoformat]; it fails of a timestamp with a UTC
    offset whose UTC date is another day. *)
Definition dates_agree (d : db) : Prop :=
  forall r st dt ds,
    In r (rows d) -> start_time r = Some st ->
    fromisoformat st = Some dt -> sqlite_date st = Some ds ->
    ds = str_date (dt_date dt).

End DotStatements.

End GridNotions.
Export GridNotions.

(** * Properties *)

(** ** Calendar facts *)

Section CalendarFacts.

Lemma valid_date_bounds d :
  valid_date d = true ->
  1 <= year d <= 9999 /\ 1 <= month d <= 12 /\
  1 <= day d <= days_in_month (year d) (month d).
Proof.
  unfold valid_date, MINYEAR, MAXYEAR. intros H.
  repeat (apply andb_prop in H; destruct H as [H ?]). lia.
Qed.

Lemma days_in_month_bounds y m : 28 <= days_in_month y m <= 31.
Proof.
  unfold days_in_month.
  repeat match goal with |- context [if ?b then _ else _] => destruct b end; lia.
Qed.

Lemma date_eqb_eq a b : date_eqb a b = true <-> a = b.
Proof.
  destruct a, b. unfold date_eqb. cbn. split.
  - intros H. repeat (apply andb_prop in H; destruct H as [H ?]).
    f_equal; lia.
  - intros [= -> -> ->]. rewrite !Z.eqb_refl. reflexivity.
Qed.

Lemma date_ltb_lt a b : date_ltb a b = true <-> date_lt a b.
Proof.
  unfold date_ltb, date_lt.
  rewrite !orb_true_iff, !andb_true_iff, !orb_true_iff, !andb_true_iff.
  rewrite !Z.ltb_lt, !Z.eqb_eq. tauto.
Qed.

Lemma date_leb_le a b : date_leb a b = true <-> date_lt a b \/ a = b.
Proof.
  unfold date_leb. rewrite orb_true_iff, date_ltb_lt, date_eqb_eq. tauto.
Qed.

Lemma date_lt_irrefl a : ~ date_lt a a.
Proof. unfold date_lt. lia. Qed.

Lemma date_lt_trans a b c : date_lt a b -> date_lt b c -> date_lt a c.
Proof. unfold date_lt. lia. Qed.

Lemma date_lt_total a b : date_lt a b \/ a = b \/ date_lt b a.
Proof.
  destruct a as [y m d], b as [y' m' d']. unfold date_lt. cbn.
  destruct (Z.lt_total y y') as [?|[->|?]]; [lia| |lia].
  destruct (Z.lt_total m m') as [?|[->|?]]; [lia| |lia].
  destruct (Z.lt_total d d') as [?|[->|?]]; [lia| |lia].
  right. left. reflexivity.
Qed.

Lemma date_leb_false a b : date_leb a b = false <-> date_lt b a.
Proof.
  split.
  - intros H. destruct (date_lt_total a b) as [Hl|[->|Hl]]; [| |assumption].
    + assert (date_leb a b = true) by (apply date_leb_le; tauto). congruence.
    + assert (date_leb b b = true) by (apply date_leb_le; tauto). congruence.
  - intros Hl. destruct (date_leb a b) eqn:E; [|reflexivity].
    apply date_leb_le in E. destruct E as [E| ->].
    + destruct (date_lt_irrefl a). eapply date_lt_trans; eassumption.
    + destruct (date_lt_irrefl _ Hl).
Qed.

Lemma date_ltb_false a b : date_ltb a b = false <-> date_lt b a \/ a = b.
Proof.
  split.
  - intros H. destruct (date_lt_total a b) as [Hl|[->|Hl]]; [|tauto|tauto].
    apply date_ltb_lt in Hl. congruence.
  - intros Hl. destruct (date_ltb a b) eqn:E; [|reflexivity].
    apply date_ltb_lt in E. destruct Hl as [Hl| ->].
    + destruct (date_lt_irrefl a). eapply date_lt_trans; eassumption.
    + destruct (date_lt_irrefl _ E).
Qed.

Lemma rank_lt a b :
  valid_date a = true -> valid_date b = true -> date_lt a b -> rank a < rank b.
Proof.
  intros Ha Hb. apply valid_date_bounds in Ha, Hb.
  pose proof (days_in_month_bounds (year a) (month a)).
  pose proof (days_in_month_bounds (year b) (month b)).
  unfold date_lt, rank. nia.
Qed.

(** The day after [a] exists as soon as some date lies after [a]; it
    is a date, and the earliest one after [a]. *)
Lemma next_day_spec a b :
  valid_date a = true -> valid_date b = true -> date_lt a b ->
  exists n, next_day a = Ok n /\ valid_date n = true /\ date_lt a n /\
  (date_lt n b \/ n = b).
Proof.
  intros Ha Hb Hlt.
  pose proof (valid_date_bounds _ Ha) as Ba.
  pose proof (valid_date_bounds _ Hb) as Bb.
  destruct a as [y m d], b as [y' m' d']. simpl year in *; simpl month in *; simpl day in *.
  unfold next_day, MAXYEAR. simpl year; simpl month; simpl day.
  unfold date_lt in Hlt. simpl year in *; simpl month in *; simpl day in *.
  pose proof (days_in_month_bounds y (m + 1)).
  assert (Hv : forall y m d, 1 <= y <= 9999 -> 1 <= m <= 12 -> 1 <= d <= days_in_month y m ->
    valid_date (mkDate y m d) = true).
  { intros. unfold valid_date, MINYEAR, MAXYEAR. simpl.
    repeat (apply andb_true_intro; split); lia. }
  assert (He : forall n, (date_lt n (mkDate y' m' d') \/ n = mkDate y' m' d') <->
    (year n < y' \/ year n = y' /\ (month n < m' \/ month n = m' /\ day n <= d'))).
  { intros [a b c]. unfold date_lt. simpl. split.
    - intros [?|[= -> -> ->]]; lia.
    - intros ?. destruct (Z.eq_dec a y') as [->|?]; [|lia].
      destruct (Z.eq_dec b m') as [->|?]; [|lia].
      destruct (Z.eq_dec c d') as [->|?]; [right; reflexivity|lia]. }
  destruct (Z.ltb_spec d (days_in_month y m)) as [Hd|Hd];
    [|destruct (Z.ltb_spec m 12) as [Hm|Hm];
    [|destruct (Z.ltb_spec y 9999) as [Hy|Hy]]].
  - eexists; split; [reflexivity|]. rewrite He. unfold date_lt. simpl. split; [apply Hv; lia|].
    split; [lia|].
    destruct Hlt as [?|[? [?|[? ?]]]]; subst; lia.
  - eexists; split; [reflexivity|]. rewrite He. unfold date_lt. simpl. split; [apply Hv; lia|].
    split; [lia|].
    destruct Hlt as [?|[? [?|[? ?]]]]; subst; lia.
  - eexists; split; [reflexivity|]. rewrite He. unfold date_lt. simpl. split; [apply Hv; try lia|].
    { unfold days_in_month. simpl. lia. }
    split; [lia|].
    destruct Hlt as [?|[? [?|[? ?]]]]; subst; lia.
  - exfalso. destruct Hlt as [?|[? [?|[? ?]]]]; subst; lia.
Qed.

End CalendarFacts.

(** ** The calendar steps one ordinal at a time *)

Section Ordinals.

Lemma days_before_year_succ y :
  days_before_year (y + 1) = days_before_year y + (if is_leap y then 366 else 365).
Proof.
  unfold days_before_year, is_leap. replace (y + 1 - 1) with y by lia. cbv zeta.
  destruct (Z.eqb_spec (y mod 4) 0), (Z.eqb_spec (y mod 100) 0),
    (Z.eqb_spec (y mod 400) 0); simpl; Z.div_mod_to_equations; lia.
Qed.

Lemma days_before_month_succ y m :
  1 <= m < 12 ->
  days_before_month y (m + 1) = days_before_month y m + days_in_month y m.
Proof.
  intros H.
  assert (Hm : m = 1 \/ m = 2 \/ m = 3 \/ m = 4 \/ m = 5 \/ m = 6 \/ m = 7 \/
               m = 8 \/ m = 9 \/ m = 10 \/ m = 11) by lia.
  unfold days_before_month, days_in_month.
  repeat (destruct Hm as [->|Hm]; [simpl; destruct (is_leap y); reflexivity|]).
  subst m. simpl. destruct (is_leap y); reflexivity.
Qed.

(** [next_day] is [fromordinal(toordinal() + 1)]. *)
Lemma next_day_toordinal d n :
  valid_date d = true -> next_day d = Ok n -> toordinal n = toordinal d + 1.
Proof.
  intros Hv. pose proof (valid_date_bounds _ Hv) as B.
  destruct d as [y m dd]. cbn [year month day] in B.
  unfold next_day, toordinal. cbn [year month day].
  destruct (Z.ltb_spec dd (days_in_month y m)); [intros [= <-]; cbn; lia|].
  destruct (Z.ltb_spec m 12).
  - intros [= <-]. cbn [year month day].
    rewrite days_before_month_succ by lia. lia.
  - destruct (Z.ltb_spec y MAXYEAR); [|discriminate].
    intros [= <-]. cbn [year month day].
    rewrite days_before_year_succ.
    assert (m = 12) by lia. subst m.
    unfold days_before_month, days_in_month in *. simpl in *.
    destruct (is_leap y); lia.
Qed.

(** The weekday advances by one, Sunday back to Monday. *)
Lemma next_day_weekday d n :
  valid_date d = true -> next_day d = Ok n -> weekday n = (weekday d + 1) mod 7.
Proof.
  intros Hv E. unfold weekday. rewrite (next_day_toordinal d n Hv E).
  Z.div_mod_to_equations. lia.
Qed.

End Ordinals.

(** ** Facts about text *)

Section TextFacts.

Lemma N_of_digit_char n :
  0 <= n <= 9 -> N_of_ascii (digit_char n) = Z.to_N (48 + n).
Proof.
  intros H. unfold digit_char. apply N_ascii_embedding. lia.
Qed.

Lemma digit_char_compare a b :
  0 <= a <= 9 -> 0 <= b <= 9 ->
  Ascii.compare (digit_char a) (digit_char b) = (a ?= b).
Proof.
  intros Ha Hb. unfold Ascii.compare. rewrite !N_of_digit_char by assumption.
  rewrite Z2N.inj_compare by lia. apply Z.add_compare_mono_l.
Qed.

Lemma digit_val_char n : 0 <= n <= 9 -> digit_val (digit_char n) = Some n.
Proof.
  intros H. unfold digit_val. rewrite N_of_digit_char by assumption.
  rewrite Z2N.id by lia.
  replace ((48 <=? 48 + n) && (48 + n <=? 57)) with true
    by (symmetry; apply andb_true_intro; split; lia).
  f_equal. lia.
Qed.

Lemma digit_char_inj a b :
  0 <= a <= 9 -> 0 <= b <= 9 -> digit_char a = digit_char b -> a = b.
Proof.
  intros Ha Hb E. apply (f_equal digit_val) in E.
  rewrite !digit_val_char in E by assumption. congruence.
Qed.

Lemma num2_pad2 n r :
  0 <= n < 100 ->
  exists a b, pad2 n +:+ r = String a (String b r) /\ num2 a b = Some n.
Proof.
  intros H. exists (digit_char (n / 10)), (digit_char (n mod 10)).
  split; [reflexivity|]. unfold num2.
  rewrite !digit_val_char by (split; [try apply Z.div_pos; try apply Z.mod_pos_bound; lia| try (apply Z.lt_succ_r, Z.div_lt_upper_bound; lia); pose proof (Z.mod_pos_bound n 10); lia]).
  simpl. f_equal. pose proof (Z.div_mod n 10). lia.
Qed.

(** Comparing two-digit fields compares the numbers. *)
Lemma compare_pad2 x y s t :
  0 <= x < 100 -> 0 <= y < 100 ->
  String.compare (pad2 x +:+ s) (pad2 y +:+ t) =
  match x ?= y with
  | Eq => String.compare s t
  | c => c
  end.
Proof.
  intros Hx Hy. unfold pad2. simpl.
  rewrite !digit_char_compare by
    (split; [try apply Z.div_pos; try apply Z.mod_pos_bound; lia
    | try (apply Z.lt_succ_r, Z.div_lt_upper_bound; lia);
    pose proof (Z.mod_pos_bound x 10); pose proof (Z.mod_pos_bound y 10); lia]).
  pose proof (Z.div_mod x 10). pose proof (Z.div_mod y 10).
  pose proof (Z.mod_pos_bound x 10). pose proof (Z.mod_pos_bound y 10).
  destruct (Z.compare_spec (x / 10) (y / 10));
    destruct (Z.compare_spec (x mod 10) (y mod 10));
    destruct (Z.compare_spec x y); try reflexivity; lia.
Qed.

Lemma pad4_pad2 n s :
  pad4 n +:+ s = pad2 (n / 100) +:+ (pad2 (n mod 100) +:+ s).
Proof.
  unfold pad4, pad2. simpl. rewrite Z.div_div by lia. reflexivity.
Qed.

Lemma compare_pad4 x y s t :
  0 <= x < 10000 -> 0 <= y < 10000 ->
  String.compare (pad4 x +:+ s) (pad4 y +:+ t) =
  match x ?= y with
  | Eq => String.compare s t
  | c => c
  end.
Proof.
  intros Hx Hy. rewrite !pad4_pad2.
  pose proof (Z.div_mod x 100). pose proof (Z.div_mod y 100).
  pose proof (Z.mod_pos_bound x 100). pose proof (Z.mod_pos_bound y 100).
  assert (0 <= x / 100 < 100) by (split; [apply Z.div_pos; lia|apply Z.div_lt_upper_bound; lia]).
  assert (0 <= y / 100 < 100) by (split; [apply Z.div_pos; lia|apply Z.div_lt_upper_bound; lia]).
  rewrite compare_pad2 by lia. rewrite compare_pad2 by lia.
  destruct (Z.compare_spec (x / 100) (y / 100));
    destruct (Z.compare_spec (x mod 100) (y mod 100));
    destruct (Z.compare_spec x y); try reflexivity; lia.
Qed.


Lemma string_compare_refl s : String.compare s s = Eq.
Proof.
  induction s as [|c s IH]; [reflexivity|]. simpl.
  unfold Ascii.compare. rewrite N.compare_refl. exact IH.
Qed.


Lemma valid_date_fields d :
  valid_date d = true ->
  0 <= year d < 10000 /\ 0 <= month d < 100 /\ 0 <= day d < 100.
Proof.
  intros H. apply valid_date_bounds in H.
  pose proof (days_in_month_bounds (year d) (month d)). lia.
Qed.

Lemma str_date_compare a b :
  valid_date a = true -> valid_date b = true ->
  String.compare (str_date a) (str_date b) = lex3 a b.
Proof.
  intros Ha Hb. apply valid_date_fields in Ha, Hb.
  unfold str_date, lex3.
  change (pad2 (day a)) with (pad2 (day a) +:+ "").
  change (pad2 (day b)) with (pad2 (day b) +:+ "").
  rewrite compare_pad4 by lia.
  destruct (year a ?= year b); try reflexivity.
  change (String.compare ("-" +:+ ?s) ("-" +:+ ?t)) with (String.compare s t).
  rewrite compare_pad2 by lia.
  destruct (month a ?= month b); try reflexivity.
  change (String.compare ("-" +:+ ?s) ("-" +:+ ?t)) with (String.compare s t).
  rewrite compare_pad2 by lia.
  destruct (day a ?= day b); reflexivity.
Qed.

Lemma lex3_Lt a b : lex3 a b = Lt <-> date_lt a b.
Proof.
  unfold lex3, date_lt.
  destruct (Z.compare_spec (year a) (year b));
    destruct (Z.compare_spec (month a) (month b));
    destruct (Z.compare_spec (day a) (day b));
    split; intros; try discriminate; try reflexivity; lia.
Qed.

Lemma lex3_Eq a b : lex3 a b = Eq <-> a = b.
Proof.
  unfold lex3. destruct a, b. simpl.
  destruct (Z.compare_spec year0 year1);
    destruct (Z.compare_spec month0 month1);
    destruct (Z.compare_spec day0 day1);
    split; intros E; try discriminate; try reflexivity;
    try (injection E; intros); subst; try reflexivity; lia.
Qed.

(** Text order on [str(date)] is the order of the dates. *)
Lemma str_leb_date a b :
  valid_date a = true -> valid_date b = true ->
  str_leb (str_date a) (str_date b) = date_leb a b.
Proof.
  intros Ha Hb. unfold str_leb, String.leb.
  rewrite str_date_compare by assumption.
  apply eq_true_iff_eq. rewrite date_leb_le.
  pose proof (lex3_Lt a b). pose proof (lex3_Eq a b).
  destruct (lex3 a b) eqn:E; split; intros; try reflexivity; try tauto.
  - discriminate.
  - destruct H1 as [H1|H1]; [apply H in H1|apply H0 in H1]; discriminate.
Qed.

Lemma str_date_inj a b :
  valid_date a = true -> valid_date b = true ->
  str_date a = str_date b -> a = b.
Proof.
  intros Ha Hb E. apply lex3_Eq. rewrite <- str_date_compare by assumption.
  rewrite E. apply string_compare_refl.
Qed.

Lemma str_eqb_date a b :
  valid_date a = true -> valid_date b = true ->
  String.eqb (str_date a) (str_date b) = date_eqb a b.
Proof.
  intros Ha Hb. apply eq_true_iff_eq. rewrite String.eqb_eq, date_eqb_eq.
  split; [apply str_date_inj; assumption|congruence].
Qed.

(** *** Reading back what [isoformat] writes *)

Lemma num2_digits n :
  0 <= n < 100 -> num2 (digit_char (n / 10)) (digit_char (n mod 10)) = Some n.
Proof.
  intros H. unfold num2.
  rewrite !digit_val_char by (Z.div_mod_to_equations; lia).
  simpl. f_equal. Z.div_mod_to_equations; lia.
Qed.

Lemma num4_digits n :
  0 <= n < 10000 ->
  num4 (digit_char (n / 1000)) (digit_char (n / 100 mod 10))
  (digit_char (n mod 100 / 10)) (digit_char (n mod 100 mod 10)) = Some n.
Proof.
  intros H. unfold num4.
  replace (n / 1000) with (n / 100 / 10) by (rewrite Z.div_div by lia; reflexivity).
  rewrite !num2_digits by (Z.div_mod_to_equations; lia).
  simpl. f_equal. Z.div_mod_to_equations; lia.
Qed.

Lemma parse_date_prefix_str d rest :
  valid_date d = true ->
  parse_date_prefix (str_date d +:+ rest) = Some (d, rest).
Proof.
  intros Hd. pose proof (valid_date_fields _ Hd) as B.
  destruct d as [y m dd]. simpl in B.
  unfold str_date, pad4, pad2. simpl. unfold parse_date_prefix.
  rewrite num4_digits by lia. simpl.
  rewrite !num2_digits by lia. simpl.
  rewrite Hd. reflexivity.
Qed.

Lemma valid_time_fields t :
  valid_time t = true ->
  0 <= hour t < 24 /\ 0 <= minute t < 60 /\ 0 <= second t < 60 /\
  0 <= microsecond t < 1000000.
Proof.
  unfold valid_time. intros Ht.
  repeat (apply andb_prop in Ht; destruct Ht as [Ht ?]). lia.
Qed.

Lemma parse_fraction_str us :
  0 <= us < 1000000 ->
  parse_fraction (if us =? 0 then "" else "." +:+ pad6 us) = Some us.
Proof.
  intros H. destruct (Z.eqb_spec us 0) as [->|Hne]; [reflexivity|].
  unfold pad6, pad4, pad2. simpl. unfold parse_fraction.
  rewrite num2_digits by (Z.div_mod_to_equations; lia).
  rewrite num4_digits by (Z.div_mod_to_equations; lia).
  simpl. f_equal. Z.div_mod_to_equations; lia.
Qed.

Lemma parse_time_str need t :
  valid_time t = true -> parse_time need (str_time t) = Some t.
Proof.
  intros Ht. pose proof (valid_time_fields _ Ht) as B.
  destruct t as [h m x us]. cbn [hour minute second microsecond] in B.
  unfold str_time. cbn [hour minute second microsecond].
  pose proof (parse_fraction_str us (proj2 (proj2 (proj2 B)))) as Hf.
  revert Hf. generalize (if us =? 0 then "" else "." +:+ pad6 us).
  intros frac Hf. unfold pad2. simpl. unfold parse_time.
  rewrite !num2_digits by lia. simpl.
  change ("" +:+ frac) with frac.
  rewrite Hf. simpl. rewrite Ht. reflexivity.
Qed.

Lemma plain_fromisoformat_isoformat dt :
  valid_date (dt_date dt) = true -> valid_time (dt_time dt) = true ->
  plain_fromisoformat (isoformat dt) = Some dt.
Proof.
  intros Hd Ht. destruct dt as [d t]. unfold plain_fromisoformat, isoformat.
  simpl dt_date in *. simpl dt_time in *.
  rewrite parse_date_prefix_str by assumption.
  cbn -[str_time parse_time].
  change ("T" +:+ str_time t) with (String "T" (str_time t)). cbv iota.
  rewrite parse_time_str by assumption. reflexivity.
Qed.

(** What parses is a date that exists and a time of day. *)
Lemma parse_date_prefix_valid s d rest :
  parse_date_prefix s = Some (d, rest) -> valid_date d = true.
Proof.
  unfold parse_date_prefix.
  destruct s as [|y1 [|y2 [|y3 [|y4 [|s1 [|m1 [|m2 [|s2 [|d1 [|d2 s]]]]]]]]]];
    try discriminate.
  destruct (num4 y1 y2 y3 y4) as [y|], (num2 m1 m2) as [m|], (num2 d1 d2) as [dd|];
    cbn [mbind option_bind]; try discriminate.
  destruct (_ && valid_date _) eqn:E; [|discriminate].
  intros [= <- <-]. apply andb_prop in E. tauto.
Qed.

Lemma parse_time_valid need s t : parse_time need s = Some t -> valid_time t = true.
Proof.
  unfold parse_time. destruct s as [|h1 [|h2 r]]; try discriminate.
  destruct (num2 h1 h2) as [h|]; cbn [mbind option_bind]; [|discriminate].
  match goal with |- context [mbind _ ?o] => destruct o as [t'|] end;
    cbn [mbind option_bind]; [|discriminate].
  destruct (valid_time t') eqn:E; [|discriminate]. intros [= <-]. exact E.
Qed.

Lemma plain_fromisoformat_valid s dt :
  plain_fromisoformat s = Some dt ->
  valid_date (dt_date dt) = true /\ valid_time (dt_time dt) = true.
Proof.
  unfold plain_fromisoformat.
  destruct (parse_date_prefix s) as [[d rest]|] eqn:E; [|discriminate].
  apply parse_date_prefix_valid in E. cbn [mbind option_bind].
  destruct rest as [|c tstr].
  - intros [= <-]. split; [exact E|reflexivity].
  - destruct (parse_time false tstr) as [t|] eqn:Et; cbn [mbind option_bind];
      [|discriminate].
    intros [= <-]. split; [exact E|]. eapply parse_time_valid, Et.
Qed.

Lemma digit_char_not (c : ascii) n :
  0 <= n <= 9 -> digit_val c = None -> Ascii.eqb (digit_char n) c = false.
Proof.
  intros H Hc. destruct (Ascii.eqb_spec (digit_char n) c) as [E|E]; [|reflexivity].
  rewrite <- E, digit_val_char in Hc by exact H. discriminate.
Qed.

Lemma skip_sep_digit n r :
  0 <= n <= 9 -> skip_sep (String (digit_char n) r) = String (digit_char n) r.
Proof.
  intros H. cbn [skip_sep].
  rewrite (digit_char_not " " n H eq_refl), (digit_char_not "T" n H eq_refl).
  reflexivity.
Qed.

Lemma plain_sqlite_date_isoformat dt :
  valid_date (dt_date dt) = true -> valid_time (dt_time dt) = true ->
  plain_sqlite_date (isoformat dt) = Some (str_date (dt_date dt)).
Proof.
  intros Hd Ht. destruct dt as [d t].
  unfold plain_sqlite_date, plain_parse_date, isoformat.
  simpl dt_date in *. simpl dt_time in *.
  rewrite parse_date_prefix_str by assumption.
  cbn -[str_time parse_time skip_sep].
  change ("T" +:+ str_time t) with (String "T" (str_time t)).
  assert (Hs : skip_sep (String "T" (str_time t)) = str_time t).
  { change (skip_sep (String "T" (str_time t))) with (skip_sep (str_time t)).
    unfold str_time, pad2.
    change (skip_sep (String (digit_char (hour t / 10)) ?r))
      with (skip_sep (String (digit_char (hour t / 10)) r)).
    apply skip_sep_digit.
    pose proof (valid_time_fields _ Ht).
    Z.div_mod_to_equations. lia. }
  rewrite Hs. pose proof (parse_time_str true t Ht) as Hp.
  destruct (str_time t) eqn:E; [discriminate Hp|].
  rewrite Hp. reflexivity.
Qed.

(** The date is read off the first ten characters of an ISO timestamp. *)
Lemma isoformat_date_inj d1 t1 d2 t2 :
  valid_date d1 = true -> valid_date d2 = true ->
  isoformat (combine d1 t1) = isoformat (combine d2 t2) -> d1 = d2.
Proof.
  intros H1 H2 E. unfold isoformat, combine in E. simpl in E.
  apply (f_equal parse_date_prefix) in E.
  rewrite !parse_date_prefix_str in E by assumption. congruence.
Qed.

(** *** The order on text *)

Lemma str_leb_refl s : str_leb s s = true.
Proof.
  unfold str_leb, String.leb.
  rewrite string_compare_refl. reflexivity.
Qed.

Lemma str_leb_total a b : str_leb a b = true \/ str_leb b a = true.
Proof. apply String.leb_total. Qed.

Lemma compare_not_Gt_trans a : forall b c,
  String.compare a b <> Gt -> String.compare b c <> Gt -> String.compare a c <> Gt.
Proof.
  induction a as [|x a IH]; intros [|y b] [|z c]; simpl; try congruence.
  unfold Ascii.compare.
  destruct (N.compare_spec (N_of_ascii x) (N_of_ascii y)) as [E1|L1|G1];
    destruct (N.compare_spec (N_of_ascii y) (N_of_ascii z)) as [E2|L2|G2];
    try congruence.
  - rewrite E1, E2, N.compare_refl. apply IH.
  - intros _ _. rewrite E1. apply N.compare_lt_iff in L2. rewrite L2. discriminate.
  - intros _ _. rewrite <- E2. apply N.compare_lt_iff in L1. rewrite L1. discriminate.
  - intros _ _. assert (L : (N_of_ascii x < N_of_ascii z)%N) by lia.
    apply N.compare_lt_iff in L. rewrite L. discriminate.
Qed.

Lemma str_leb_trans a b c :
  str_leb a b = true -> str_leb b c = true -> str_leb a c = true.
Proof.
  unfold str_leb, String.leb. intros H1 H2.
  pose proof (compare_not_Gt_trans a b c).
  destruct (String.compare a b), (String.compare b c), (String.compare a c);
    try reflexivity; try discriminate; exfalso; apply H;
    (discriminate || reflexivity).
Qed.

Lemma str_leb_empty s : str_leb "" s = true.
Proof. destruct s; reflexivity. Qed.

Lemma str_leb_empty_inv s : str_leb s "" = true -> s = "".
Proof. destruct s; [reflexivity|discriminate]. Qed.

End TextFacts.

(** ** The plain reader is a [Library]

    The assumptions on the library functions can be met: the plain
    reader meets them.  The worked examples below are computed with this
    instance; a statement that names no table of its own is about every
    [Library]. *)

#[global] Instance plain_library : Library := {|
  fromisoformat := plain_fromisoformat;
  sqlite_date := plain_sqlite_date;
  fromisoformat_isoformat := plain_fromisoformat_isoformat;
  fromisoformat_valid := plain_fromisoformat_valid;
  fromisoformat_empty := eq_refl;
  sqlite_date_isoformat := plain_sqlite_date_isoformat
|}.


(** ** Facts about sorting *)

Section SortFacts.

Context {A : Type} (key : A -> string).

Lemma insert_by_perm x l : Permutation (insert_by key x l) (x :: l).
Proof.
  induction l as [|y l IH]; simpl; [reflexivity|].
  destruct (str_leb (key x) (key y)); [reflexivity|].
  rewrite IH. apply perm_swap.
Qed.

Lemma sort_by_perm l : Permutation (sort_by key l) l.
Proof.
  induction l as [|x l IH]; simpl; [reflexivity|].
  rewrite insert_by_perm. constructor. exact IH.
Qed.

Lemma sort_by_In x l : In x (sort_by key l) <-> In x l.
Proof.
  split; apply Permutation_in; [|symmetry]; apply sort_by_perm.
Qed.

Lemma insert_by_sorted x l :
  StronglySorted (key_le key) l -> StronglySorted (key_le key) (insert_by key x l).
Proof.
  induction 1 as [|y l Hs IH Hy]; simpl.
  - repeat constructor.
  - destruct (str_leb (key x) (key y)) eqn:E.
    + constructor; [constructor; assumption|].
      constructor; [exact E|].
      rewrite List.Forall_forall in *. intros z Hz.
      eapply str_leb_trans; [exact E|]. apply Hy, Hz.
    + constructor; [exact IH|].
      rewrite List.Forall_forall in *. intros z Hz.
      apply (Permutation_in _ (insert_by_perm x l)) in Hz.
      destruct Hz as [<-|Hz]; [|apply Hy, Hz].
      destruct (str_leb_total (key x) (key y)) as [E'|E']; [congruence|exact E'].
Qed.

Lemma sort_by_sorted l : StronglySorted (key_le key) (sort_by key l).
Proof.
  induction l as [|x l IH]; simpl; [constructor|].
  apply insert_by_sorted, IH.
Qed.

Lemma sort_by_NoDup l : NoDup l -> NoDup (sort_by key l).
Proof.
  intros H. eapply Permutation_NoDup; [symmetry; apply sort_by_perm|exact H].
Qed.

(** In a sorted list an entry never follows one that sorts strictly later. *)
Lemma sorted_split l1 a l2 b l3 :
  StronglySorted (key_le key) (l1 ++ a :: l2 ++ b :: l3) -> key_le key a b.
Proof.
  induction l1 as [|x l1 IH]; simpl; intros H.
  - apply StronglySorted_inv in H. destruct H as [_ H].
    rewrite List.Forall_forall in H. apply H.
    apply in_or_app. right. left. reflexivity.
  - apply StronglySorted_inv in H. apply IH, H.
Qed.

Lemma sorted_firstn_skipn n l a b :
  StronglySorted (key_le key) l ->
  In a (firstn n l) -> In b (skipn n l) -> key_le key a b.
Proof.
  intros Hs Ha Hb.
  apply in_split in Ha. destruct Ha as (l1 & l2 & E1).
  apply in_split in Hb. destruct Hb as (l3 & l4 & E2).
  rewrite <- (firstn_skipn n l), E1, E2, <- app_assoc in Hs. simpl in Hs.
  rewrite (app_assoc l2 l3) in Hs.
  eapply sorted_split. exact Hs.
Qed.

End SortFacts.

Section InsertByMap.

Lemma insert_by_map {A B} (f : A -> B) (key : A -> string) (key' : B -> string) x l :
  (forall a, key' (f a) = key a) ->
  map f (insert_by key x l) = insert_by key' (f x) (map f l).
Proof.
  intros H. induction l as [|y l IH]; simpl; [reflexivity|].
  rewrite !H. destruct (str_leb (key x) (key y)); simpl; [reflexivity|].
  rewrite IH. reflexivity.
Qed.

Lemma sort_by_map {A B} (f : A -> B) (key : A -> string) (key' : B -> string) l :
  (forall a, key' (f a) = key a) ->
  map f (sort_by key l) = sort_by key' (map f l).
Proof.
  intros H. induction l as [|y l IH]; simpl; [reflexivity|].
  rewrite (insert_by_map f key key') by exact H. rewrite IH. reflexivity.
Qed.

End InsertByMap.

(** ** The day-by-day loop *)

Section LoopFacts.

Context {lib : Library}.

Lemma expand_loop_days fuel continue : forall cur rec evs,
  expand_loop fuel continue cur rec evs =
  (days ← days_loop fuel continue cur;
    Ok (evs ++ flat_map (fun d => instances_on d rec) days)).
Proof.
  induction fuel as [|fuel IH]; intros cur rec evs; simpl; [reflexivity|].
  destruct (continue cur).
  - destruct (next_day cur) as [n|e]; simpl; [|reflexivity].
    rewrite IH. destruct (days_loop fuel continue n); simpl; [|reflexivity].
    rewrite <- app_assoc. reflexivity.
  - simpl. rewrite app_nil_r. reflexivity.
Qed.

Variable continue : date -> bool.
Variable bound : date.
Hypothesis bound_valid : valid_date bound = true.
Hypothesis bound_not_last : date_lt bound date_max.
Hypothesis continue_below : forall c, continue c = true -> date_le c bound.
Hypothesis continue_down : forall a b,
  date_le a b -> continue b = true -> continue a = true.

(** With enough steps the loop ends, and has gone through exactly the
    dates from [cur] on that satisfy its condition, each once. *)
Lemma days_loop_spec fuel : forall cur,
  valid_date cur = true ->
  (0 < fuel)%nat ->
  rank bound - rank cur + 1 < Z.of_nat fuel ->
  exists days, days_loop fuel continue cur = Ok days /\
  NoDup days /\
  (forall day, In day days <->
    valid_date day = true /\ date_le cur day /\ continue day = true).
Proof.
  induction fuel as [|fuel IH]; intros cur Hc Hpos Hf; [lia|].
  simpl. destruct (continue cur) eqn:Ec.
  - assert (Hlt : date_lt cur date_max).
    { destruct (continue_below _ Ec) as [L| ->]; [|assumption].
      eapply date_lt_trans; eassumption. }
    destruct (next_day_spec cur date_max Hc eq_refl Hlt) as (n & En & Hn & Hcn & _).
    rewrite En. simpl.
    assert (Hr : rank cur <= rank bound).
    { destruct (continue_below _ Ec) as [L| ->]; [|lia].
      pose proof (rank_lt _ _ Hc bound_valid L). lia. }
    pose proof (rank_lt _ _ Hc Hn Hcn) as Hrn.
    destruct (IH n Hn) as (days & Ed & Hnd & Hin); [lia|lia|].
    rewrite Ed. simpl. exists (cur :: days). split; [reflexivity|]. split.
    + constructor; [|assumption]. intros Hi. apply Hin in Hi.
      destruct Hi as (_ & [L| ->] & _).
      * apply (date_lt_irrefl cur). eapply date_lt_trans; eassumption.
      * apply (date_lt_irrefl _ Hcn).
    + intros day. simpl. rewrite Hin. split.
      * intros [<-|(Hv & Hle & Hcont)].
        -- split; [assumption|]. split; [right; reflexivity|assumption].
        -- split; [assumption|]. split; [|assumption]. left.
          destruct Hle as [L| <-]; [eapply date_lt_trans; eassumption|assumption].
      * intros (Hv & [L| <-] & Hcont); [|left; reflexivity]. right.
        split; [assumption|]. split; [|assumption].
        destruct (next_day_spec cur day Hc Hv L) as (n' & En' & _ & _ & Hle).
        rewrite En in En'. injection En' as <-. exact Hle.
  - exists []. split; [reflexivity|]. split; [constructor|].
    intros day. simpl. split; [tauto|]. intros (_ & Hle & Hcont).
    rewrite (continue_down _ _ Hle Hcont) in Ec. discriminate.
Qed.

End LoopFacts.


(** ** What the two SELECTs return *)

Section SelectFacts.

Context {lib : Library}.

Lemma one_shot_iff r : one_shot r = true <-> one_shot_item r.
Proof.
  unfold one_shot, one_shot_item. rewrite andb_true_iff, Z.eqb_eq.
  destruct (is_recurring r) as [z|].
  - rewrite Z.eqb_eq. split; [intros [? ->]; auto|].
    intros [? [[= ->]|[=]]]. auto.
  - split; [intros [? _]; auto|intros [? _]; auto].
Qed.

Lemma recurring_row_iff r : recurring_row r = true <-> recurring_item r.
Proof.
  unfold recurring_row, recurring_item.
  destruct (start_time r), (is_recurring r) as [z|], (repeat_days r);
    try rewrite andb_true_iff, !Z.eqb_eq;
    split; try discriminate; try (intros (? & ? & ? & ?); congruence).
  - intros [-> ->]. repeat split; discriminate.
  - intros (? & [=] & _). auto.
Qed.

Lemma in_select_non_recurring test d ev :
  In ev (select_non_recurring test d) <->
  exists r, In r (rows d) /\ date_test test r = true /\ one_shot_item r /\
  ev = select_event r.
Proof.
  unfold select_non_recurring. rewrite sort_by_In, in_map_iff. split.
  - intros (r & <- & Hr). apply filter_In in Hr. destruct Hr as [Hr Ht].
    apply andb_prop in Ht. destruct Ht as [Ht Ho]. apply one_shot_iff in Ho.
    eauto.
  - intros (r & Hr & Ht & Ho & ->). exists r. split; [reflexivity|].
    apply filter_In. split; [assumption|]. apply one_shot_iff in Ho.
    rewrite Ht, Ho. reflexivity.
Qed.

Lemma in_select_recurring d ev :
  In ev (select_recurring d) <->
  exists r, In r (rows d) /\ recurring_item r /\ ev = select_event r.
Proof.
  unfold select_recurring. rewrite in_map_iff. split.
  - intros (r & <- & Hr). apply filter_In in Hr. destruct Hr as [Hr Ht].
    apply recurring_row_iff in Ht. eauto.
  - intros (r & Hr & Ht & ->). exists r. split; [reflexivity|].
    apply filter_In. split; [assumption|]. apply recurring_row_iff. assumption.
Qed.

Lemma in_instance_for day event ev :
  In ev (instance_for day event) <->
  repeats_on (ev_repeat_days event) (weekday day) = true /\
  exists st dt, ev_start_time event = Some st /\ fromisoformat st = Some dt /\
  ev = instance_at day (dt_time dt) event.
Proof.
  unfold instance_for. destruct (repeats_on _ _); [|simpl; split; [tauto|intros [[=] _]]].
  destruct (ev_start_time event) as [st|]; simpl.
  - destruct (fromisoformat st) as [dt|] eqn:E; simpl.
    + split.
      * intros [<-|[]]. split; [reflexivity|]. exists st, dt. auto.
      * intros (_ & st' & dt' & [= <-] & E' & ->).
        rewrite E in E'. injection E' as <-. left. reflexivity.
    + split; [tauto|]. intros (_ & st' & dt' & [= <-] & E' & _). congruence.
  - split; [tauto|]. intros (_ & st' & dt' & [=] & _).
Qed.

Lemma in_instances_on day rec ev :
  In ev (instances_on day rec) <->
  exists event, In event rec /\ In ev (instance_for day event).
Proof. unfold instances_on. apply in_flat_map. Qed.

(** [repeats_on] is membership of [str(weekday)] in the split text. *)
Lemma repeats_on_iff rd w :
  repeats_on rd w = true <->
  exists s, rd = Some s /\ s <> "" /\ In (str_weekday w) (split_comma s).
Proof.
  unfold repeats_on. destruct rd as [[|c s]|].
  - split; [discriminate|]. intros (s & [= <-] & H & _). congruence.
  - rewrite existsb_exists. split.
    + intros (x & Hx & E). apply String.eqb_eq in E. subst x.
      exists (String c s). repeat split; [discriminate|assumption].
    + intros (s' & [= <-] & _ & H). exists (str_weekday w).
      split; [assumption|apply String.eqb_refl].
  - split; [discriminate|]. intros (s & [=] & _).
Qed.

End SelectFacts.


(** ** The expansions, unfolded *)

Section ExpansionFacts.

Context {lib : Library}.

Lemma date_test_text test r :
  date_test test r = true <-> exists ds, date_text r ds /\ test ds = true.
Proof.
  unfold date_test, date_text.
  destruct (start_time r) as [st|].
  - destruct (sqlite_date st) as [ds|] eqn:E.
    + split; [intros Ht; exists ds; split; [exists st; auto|exact Ht]|].
      intros (ds' & (st' & [= <-] & E') & Ht).
      rewrite E in E'. injection E' as <-. exact Ht.
    + split; [discriminate|]. intros (ds' & (st' & [= <-] & E') & _).
      congruence.
  - split; [discriminate|]. intros (ds' & (st' & [=] & _) & _).
Qed.

Lemma date_text_fun r ds ds' : date_text r ds -> date_text r ds' -> ds = ds'.
Proof. intros (st & E1 & E2) (st' & E1' & E2'). congruence. Qed.

Lemma stored_on_fun r day day' :
  valid_date day = true -> valid_date day' = true ->
  stored_on r day -> stored_on r day' -> day = day'.
Proof.
  intros Hv Hv' H H'. apply str_date_inj; [exact Hv|exact Hv'|].
  eapply date_text_fun; eassumption.
Qed.


Lemma range_test_date s e day :
  valid_date s = true -> valid_date e = true -> valid_date day = true ->
  range_test s e (str_date day) = date_leb s day && date_leb day e.
Proof.
  intros Hs He Hd. unfold range_test. rewrite !str_leb_date by assumption.
  reflexivity.
Qed.

Lemma month_test_date s e day :
  valid_date s = true -> valid_date e = true -> valid_date day = true ->
  month_test s e (str_date day) = date_leb s day && date_ltb day e.
Proof.
  intros Hs He Hd. unfold month_test. rewrite !str_leb_date by assumption.
  f_equal. apply eq_true_iff_eq. rewrite negb_true_iff, date_leb_false, date_ltb_lt.
  reflexivity.
Qed.

Lemma date_lt_max d : valid_date d = true -> d <> date_max -> date_lt d date_max.
Proof.
  intros H Hne. destruct (date_lt_total d date_max) as [L|[E|L]]; [assumption|contradiction|].
  apply valid_date_bounds in H. pose proof (days_in_month_bounds (year d) (month d)).
  unfold date_lt, date_max in L. simpl in L.
  assert (month d = 12 -> days_in_month (year d) (month d) = 31) by (intros ->; reflexivity).
  lia.
Qed.

(** The loop of [get_schedule_by_date_range] goes through the days of
    the range, each once. *)
Lemma range_days s e :
  valid_date s = true -> valid_date e = true -> date_lt e date_max ->
  exists days,
  days_loop (loop_bound s e) (fun c => date_leb c e) s = Ok days /\
  NoDup days /\ (forall day, In day days <-> in_range s e day).
Proof.
  intros Hs He Hmax.
  destruct (days_loop_spec (fun c => date_leb c e) e He Hmax) with
    (fuel := loop_bound s e) (cur := s) as (days & E & Hnd & Hin).
  - intros c Hc. apply date_leb_le in Hc. exact Hc.
  - intros a b Hab Hb. apply date_leb_le in Hb. apply date_leb_le.
    destruct Hab as [L| ->]; [|exact Hb]. left.
    destruct Hb as [L'| <-]; [eapply date_lt_trans; eassumption|exact L].
  - exact Hs.
  - unfold loop_bound. lia.
  - unfold loop_bound. lia.
  - exists days. split; [exact E|]. split; [exact Hnd|].
    intros day. rewrite Hin. unfold in_range. rewrite date_leb_le. reflexivity.
Qed.

Lemma get_schedule_by_date_range_merged d s e :
  valid_date s = true -> valid_date e = true -> date_lt e date_max ->
  exists days,
  get_schedule_by_date_range d s e =
  Ok (sort_by sort_key (merged (range_test s e) d days)) /\
  NoDup days /\ (forall day, In day days <-> in_range s e day).
Proof.
  intros Hs He Hmax. destruct (range_days s e Hs He Hmax) as (days & E & Hnd & Hin).
  exists days. split; [|split; assumption].
  unfold get_schedule_by_date_range. rewrite expand_loop_days, E. reflexivity.
Qed.

(** Whatever an expansion returns is the output of the final sort. *)
Lemma get_schedule_by_date_range_sorted d s e events :
  get_schedule_by_date_range d s e = Ok events ->
  exists l, events = sort_by sort_key l.
Proof.
  unfold get_schedule_by_date_range.
  destruct (expand_loop _ _ _ _ _) as [l|]; [|discriminate].
  intros [= <-]. exists l. reflexivity.
Qed.

Lemma get_schedule_by_month_sorted d y m events :
  get_schedule_by_month d y m = Ok events ->
  exists l, events = sort_by sort_key l.
Proof.
  unfold get_schedule_by_month.
  destruct (if m =? 12 then _ else _) as [[f l]|]; [|discriminate].
  cbn [mbind result_bind bind fst snd].
  destruct (expand_loop _ _ _ _ _) as [l'|]; [|discriminate].
  intros [= <-]. exists l'. reflexivity.
Qed.

End ExpansionFacts.

(** ** No tuple is produced twice *)

Section Uniqueness.

Context {lib : Library}.

Lemma NoDup_map_filter {A B} (f : A -> B) (p : A -> bool) l :
  NoDup (map f l) -> NoDup (map f (List.filter p l)).
Proof.
  induction l as [|x l IH]; simpl; intros H; [constructor|].
  apply NoDup_cons_iff in H. destruct H as [Hx Hl].
  destruct (p x); simpl; [|apply IH, Hl].
  constructor; [|apply IH, Hl].
  intros Hi. apply Hx. apply in_map_iff in Hi. destruct Hi as (y & E & Hy).
  apply filter_In in Hy. apply in_map_iff. exists y. tauto.
Qed.

Lemma NoDup_flat_map {A B} (f : A -> list B) l :
  NoDup l ->
  (forall x, In x l -> NoDup (f x)) ->
  (forall x y z, In x l -> In y l -> In z (f x) -> In z (f y) -> x = y) ->
  NoDup (flat_map f l).
Proof.
  induction 1 as [|x l Hx Hl IH]; simpl; intros Hf Hd; [constructor|].
  apply List.NoDup_app.
  - apply Hf. left. reflexivity.
  - apply IH.
    + intros y Hy. apply Hf. right. exact Hy.
    + intros a b z Ha Hb. apply Hd; right; assumption.
  - intros z Hz Hz'.
    apply in_flat_map in Hz'. destruct Hz' as (y & Hy & Hzy).
    assert (x = y) by (eapply Hd; [left; reflexivity|right; exact Hy|exact Hz|exact Hzy]).
    subst y. contradiction.
Qed.

(** On one day every recurring row yields at most one tuple, with its id. *)
Lemma instances_on_ids day rec :
  NoDup (map ev_id rec) -> NoDup (map ev_id (instances_on day rec)).
Proof.
  unfold instances_on. induction rec as [|e rec IH]; simpl; intros H; [constructor|].
  apply NoDup_cons_iff in H. destruct H as [He Hr].
  rewrite map_app. apply List.NoDup_app; [|apply IH, Hr|].
  - unfold instance_for. destruct (repeats_on _ _); [|constructor].
    destruct (_ ≫= fromisoformat); simpl; repeat constructor. intros [].
  - intros i Hi Hi'. apply He.
    apply in_map_iff in Hi. destruct Hi as (ev & <- & Hev).
    apply in_instance_for in Hev. destruct Hev as (_ & st & dt & _ & _ & ->).
    simpl. apply in_map_iff in Hi'. destruct Hi' as (ev' & E & Hev').
    apply in_flat_map in Hev'. destruct Hev' as (e' & He' & Hev').
    apply in_instance_for in Hev'. destruct Hev' as (_ & st' & dt' & _ & _ & ->).
    simpl in E. rewrite <- E. apply in_map. exact He'.
Qed.

Lemma NoDup_of_map {A B} (f : A -> B) l : NoDup (map f l) -> NoDup l.
Proof. apply NoDup_map_inv. Qed.

Lemma select_ids p d :
  map ev_id (map select_event (List.filter p (rows d))) =
  map id (List.filter p (rows d)).
Proof. rewrite map_map. reflexivity. Qed.

Lemma select_non_recurring_NoDup test d :
  NoDup (map id (rows d)) -> NoDup (select_non_recurring test d).
Proof.
  intros H. unfold select_non_recurring. apply sort_by_NoDup.
  apply (NoDup_of_map ev_id). rewrite select_ids. apply NoDup_map_filter, H.
Qed.

Lemma select_recurring_ids d :
  NoDup (map id (rows d)) -> NoDup (map ev_id (select_recurring d)).
Proof.
  intros H. unfold select_recurring. rewrite select_ids.
  apply NoDup_map_filter, H.
Qed.

(** The unsorted list of an expansion holds no tuple twice. *)
Lemma merged_NoDup test d days :
  NoDup (map id (rows d)) -> NoDup days ->
  (forall day, In day days -> valid_date day = true) ->
  NoDup (merged test d days).
Proof.
  intros Hid Hdays Hvalid. unfold merged. apply List.NoDup_app.
  - apply select_non_recurring_NoDup, Hid.
  - apply NoDup_flat_map; [exact Hdays| |].
    + intros day _. apply (NoDup_of_map ev_id), instances_on_ids.
      apply select_recurring_ids, Hid.
    + intros day day' ev Hd Hd' Hev Hev'.
      apply in_instances_on in Hev, Hev'.
      destruct Hev as (e & _ & He). destruct Hev' as (e' & _ & He').
      apply in_instance_for in He, He'.
      destruct He as (_ & st & dt & _ & _ & ->).
      destruct He' as (_ & st' & dt' & _ & _ & E).
      apply (f_equal ev_start_time) in E. cbn [ev_start_time instance_at] in E.
      eapply isoformat_date_inj; [apply Hvalid, Hd|apply Hvalid, Hd'|].
      apply (f_equal (default "")) in E. exact E.
  - intros ev Hev Hev'.
    apply in_select_non_recurring in Hev. destruct Hev as (r & _ & _ & (_ & Hrec) & ->).
    apply in_flat_map in Hev'. destruct Hev' as (day & _ & Hev').
    apply in_instances_on in Hev'. destruct Hev' as (e & He & Hev').
    apply in_select_recurring in He. destruct He as (r' & _ & (_ & Hrec' & _) & ->).
    apply in_instance_for in Hev'. destruct Hev' as (_ & st & dt & _ & _ & E).
    apply (f_equal ev_is_recurring) in E. simpl in E.
    destruct Hrec; congruence.
Qed.

End Uniqueness.


(** ** The expansion over any set of days *)

Section AnyDays.

Context {lib : Library}.

Variable test : string -> bool.
Variable P : date -> Prop.
Variable d : db.
Variable days : list date.
Hypothesis days_P : forall day, In day days <-> P day.
Hypothesis P_valid : forall day, P day -> valid_date day = true.

Lemma merged_mem ev :
  In ev (sort_by sort_key (merged test d days)) <-> expansion_of test P d ev.
Proof.
  rewrite sort_by_In. unfold merged, expansion_of. rewrite in_app_iff.
  apply Morphisms_Prop.or_iff_morphism.
  - rewrite in_select_non_recurring. split.
    + intros (r & Hr & Ht & Ho & ->).
      apply date_test_text in Ht. destruct Ht as (ds & Hs & Ht).
      exists r, ds. auto.
    + intros (r & ds & Hr & Ho & Hs & Ht & ->).
      exists r. split; [exact Hr|]. split; [|split; [exact Ho|reflexivity]].
      apply date_test_text. exists ds. split; [exact Hs|exact Ht].
  - rewrite in_flat_map. split.
    + intros (day & Hd & Hev). apply days_P in Hd.
      apply in_instances_on in Hev. destruct Hev as (e & He & Hev).
      apply in_select_recurring in He. destruct He as (r & Hr & Hrec & ->).
      apply in_instance_for in Hev. destruct Hev as (Hrep & st & dt & Hst & Hdt & ->).
      exists r, day, st, dt. tauto.
    + intros (r & day & st & dt & Hr & Hrec & Hd & Hrep & Hst & Hdt & ->).
      exists day. split; [apply days_P, Hd|].
      apply in_instances_on. exists (select_event r). split.
      * apply in_select_recurring. exists r. auto.
      * apply in_instance_for. split; [exact Hrep|]. exists st, dt. auto.
Qed.

Lemma merged_sorted_NoDup :
  NoDup (map id (rows d)) -> NoDup days ->
  NoDup (sort_by sort_key (merged test d days)).
Proof.
  intros Hids Hnd. apply sort_by_NoDup, merged_NoDup; [exact Hids|exact Hnd|].
  intros day Hd. apply P_valid, days_P, Hd.
Qed.

End AnyDays.

(** ** The expansion of a date range *)

Section RangeExpansion.

Context {lib : Library}.

Lemma id_inj (l : list row) a b :
  NoDup (map id l) -> In a l -> In b l -> id a = id b -> a = b.
Proof.
  induction l as [|x l IH]; simpl; intros H Ha Hb E; [contradiction|].
  apply NoDup_cons_iff in H. destruct H as [Hx Hl].
  destruct Ha as [<-|Ha], Hb as [<-|Hb]; auto.
  - exfalso. apply Hx. rewrite E. apply in_map, Hb.
  - exfalso. apply Hx. rewrite <- E. apply in_map, Ha.
Qed.

Lemma count_occ_once (l : list event_tuple) x :
  NoDup l -> In x l -> count_occ event_eq_dec l x = 1%nat.
Proof. intros H. revert x. apply NoDup_count_occ'. exact H. Qed.

Lemma in_range_valid s e day : in_range s e day -> valid_date day = true.
Proof. intros [H _]. exact H. Qed.

Variable d : db.
Variables start_date end_date : date.
Hypothesis start_valid : valid_date start_date = true.
Hypothesis end_valid : valid_date end_date = true.
Hypothesis end_not_last : date_lt end_date date_max.
(** The query returns, and what it returns is described tuple by tuple. *)
Lemma range_events_mem :
  exists events,
  get_schedule_by_date_range d start_date end_date = Ok events /\
  (NoDup (map id (rows d)) -> NoDup events) /\
  forall ev, In ev events <->
  (exists r ds, In r (rows d) /\ one_shot_item r /\ date_text r ds /\
    range_test start_date end_date ds = true /\ ev = select_event r) \/
  (exists r day st dt, In r (rows d) /\ recurring_item r /\
    in_range start_date end_date day /\
    repeats_on (repeat_days r) (weekday day) = true /\
    start_time r = Some st /\ fromisoformat st = Some dt /\
    ev = instance_at day (dt_time dt) (select_event r)).
Proof.
  destruct (get_schedule_by_date_range_merged d _ _ start_valid end_valid end_not_last)
    as (days & E & Hnd & Hin).
  eexists. split; [exact E|]. split.
  - intros ids_unique.
    apply sort_by_NoDup, merged_NoDup; [exact ids_unique|exact Hnd|].
    intros day Hd. apply Hin in Hd. apply Hd.
  - intros ev.
    apply (merged_mem (range_test start_date end_date)
             (in_range start_date end_date) d days Hin).
Qed.

Hypothesis ids_unique : NoDup (map id (rows d)).

Lemma range_events :
  exists events,
  get_schedule_by_date_range d start_date end_date = Ok events /\
  NoDup events /\
  forall ev, In ev events <->
  (exists r ds, In r (rows d) /\ one_shot_item r /\ date_text r ds /\
    range_test start_date end_date ds = true /\ ev = select_event r) \/
  (exists r day st dt, In r (rows d) /\ recurring_item r /\
    in_range start_date end_date day /\
    repeats_on (repeat_days r) (weekday day) = true /\
    start_time r = Some st /\ fromisoformat st = Some dt /\
    ev = instance_at day (dt_time dt) (select_event r)).
Proof.
  destruct range_events_mem as (events & E & Hnd & Hin).
  exists events. split; [exact E|]. split; [apply Hnd, ids_unique|exact Hin].
Qed.

End RangeExpansion.

(** ** The expansion of a month *)

Section MonthExpansion.

Context {lib : Library}.

Variable d : db.
Variables y m : Z.
Hypothesis year_ok : 1 <= y <= 9999.
Hypothesis month_ok : 1 <= m <= 12.
Hypothesis not_last_month : ~ (y = 9999 /\ m = 12).

Lemma month_bounds :
  exists first_day last_day,
    (if m =? 12
     then first_day ← make_date y m 1; last_day ← make_date (y + 1) 1 1;
          Ok (first_day, last_day)
     else first_day ← make_date y m 1; last_day ← make_date y (m + 1) 1;
          Ok (first_day, last_day)) = Ok (first_day, last_day) /\
    (first_day = mkDate y m 1 /\ last_day = next_month_first y m) /\
    valid_date first_day = true /\ valid_date last_day = true /\
    date_lt last_day date_max /\
    (forall day, valid_date day = true ->
       (date_le first_day day /\ date_lt day last_day <-> in_month y m day)).
Proof.
  assert (Hv : forall y' m', 1 <= y' <= 9999 -> 1 <= m' <= 12 ->
                 valid_date (mkDate y' m' 1) = true).
  { intros y' m' Hy Hm. unfold valid_date, MINYEAR, MAXYEAR. simpl.
    pose proof (days_in_month_bounds y' m').
    repeat (apply andb_true_intro; split); lia. }
  assert (Hle : forall a b, date_le a b <->
            year a < year b \/ year a = year b /\
              (month a < month b \/ month a = month b /\ day a <= day b)).
  { intros [a1 a2 a3] [b1 b2 b3]. unfold date_le, date_lt. simpl. split.
    - intros [H|[= -> -> ->]]; lia.
    - intros H. destruct (Z.eq_dec a1 b1) as [->|]; [|lia].
      destruct (Z.eq_dec a2 b2) as [->|]; [|lia].
      destruct (Z.eq_dec a3 b3) as [->|]; [right; reflexivity|lia]. }
  unfold next_month_first.
  destruct (Z.eqb_spec m 12) as [->|Hm].
  - exists (mkDate y 12 1), (mkDate (y + 1) 1 1).
    unfold make_date. rewrite !Hv by lia. cbn [mbind result_bind bind].
    split; [reflexivity|]. split; [split; reflexivity|].
    split; [reflexivity|]. split; [reflexivity|].
    split; [unfold date_lt; simpl; lia|].
    intros day Hd. rewrite Hle. unfold date_lt, in_month. simpl.
    pose proof (valid_date_bounds _ Hd). intuition lia.
  - exists (mkDate y m 1), (mkDate y (m + 1) 1).
    unfold make_date. rewrite !Hv by lia. cbn [mbind result_bind bind].
    split; [reflexivity|]. split; [split; reflexivity|].
    split; [reflexivity|]. split; [reflexivity|].
    split; [unfold date_lt; simpl; lia|].
    intros day Hd. rewrite Hle. unfold date_lt, in_month. simpl.
    pose proof (valid_date_bounds _ Hd). intuition lia.
Qed.

(** The month query returns, and returns the expansion over the days of
    the month. *)
Lemma month_events :
  exists events,
    get_schedule_by_month d y m = Ok events /\
    (NoDup (map id (rows d)) -> NoDup events) /\
    forall ev, In ev events <->
      expansion_of (month_test (mkDate y m 1) (next_month_first y m))
                   (in_month y m) d ev.
Proof.
  destruct month_bounds
    as (first_day & last_day & Eb & [Ef El] & Hf & Hl & Hmax & Hin).
  destruct (days_loop_spec (fun c => date_ltb c last_day) last_day Hl Hmax) with
    (fuel := loop_bound first_day last_day) (cur := first_day)
    as (days & E & Hnd & Hdays).
  - intros c Hc. left. apply date_ltb_lt, Hc.
  - intros a b [Hab| ->] Hb; [|exact Hb]. apply date_ltb_lt.
    apply date_ltb_lt in Hb. eapply date_lt_trans; eassumption.
  - exact Hf.
  - unfold loop_bound. lia.
  - unfold loop_bound. lia.
  - assert (HP : forall day, In day days <-> in_month y m day).
    { intros day. rewrite Hdays, date_ltb_lt. split.
      - intros (Hv & H1 & H2). apply Hin; auto.
      - intros H. pose proof H as (Hv & _). apply Hin in H; tauto. }
    exists (sort_by sort_key (merged (month_test first_day last_day) d days)).
    split; [|split].
    + unfold get_schedule_by_month. rewrite Eb. cbn [mbind result_bind bind fst snd].
      rewrite expand_loop_days, E. reflexivity.
    + intros Hids. eapply merged_sorted_NoDup; try eassumption.
      intros day H. apply H.
    + intros ev. rewrite <- Ef, <- El.
      apply (merged_mem (month_test first_day last_day) (in_month y m) d days HP).
Qed.

End MonthExpansion.

(** ** Recurring items in a range *)

Section RecurringOccurrences.

Context {lib : Library}.

(** C1.  For a range ending before [date.max] over a table with unique
    ids, [get_schedule_by_date_range] returns a list in which every
    non-completed recurring row [r] (is_recurring 1, non-empty
    repeat_days, a start_time that parses) has, for every day of the
    range whose weekday index is among the comma-separated repeat_days,
    exactly one tuple: start_time is that day at the time of day of the
    stored start_time (and reads back as such), the other seven fields
    are the row's.  Every returned tuple with the id of [r] is one of
    these, so [r] has no tuple on a day whose weekday is not listed,
    its anchor day included. *)
Theorem C1_recurring_occurrences d start_date end_date :
  valid_date start_date = true -> valid_date end_date = true ->
  date_lt end_date date_max ->
  NoDup (map id (rows d)) ->
  exists events,
    get_schedule_by_date_range d start_date end_date = Ok events /\
    forall r rd st original_dt,
      In r (rows d) -> completed r = 0 -> is_recurring r = Some 1 ->
      repeat_days r = Some rd -> rd <> "" ->
      start_time r = Some st -> fromisoformat st = Some original_dt ->
      let occurrence day :=
        mkEvent (id r) (title r)
                (Some (isoformat (combine day (dt_time original_dt))))
                (source r) (completed r) (event_id r)
                (is_recurring r) (repeat_days r) in
      (forall day,
         in_range start_date end_date day ->
         In (str_weekday (weekday day)) (split_comma rd) ->
         count_occ event_eq_dec events (occurrence day) = 1%nat /\
         fromisoformat (isoformat (combine day (dt_time original_dt))) =
           Some (mkDatetime day (dt_time original_dt))) /\
      (forall ev,
         In ev events -> ev_id ev = id r ->
         exists day,
           in_range start_date end_date day /\
           In (str_weekday (weekday day)) (split_comma rd) /\
           ev = occurrence day) /\
      (forall day,
         valid_date day = true ->
         ~ In (str_weekday (weekday day)) (split_comma rd) ->
         ~ In (occurrence day) events).
Proof.
  intros Hs He Hmax Hids.
  destruct (range_events d _ _ Hs He Hmax Hids) as (events & E & Hnd & Hin).
  exists events. split; [exact E|].
  intros r rd st dt Hr Hc Hrec Hrd Hne Hst Hdt occurrence.
  assert (Hitem : recurring_item r).
  { unfold recurring_item. rewrite Hst, Hrd. repeat split; auto; discriminate. }
  assert (Hocc : forall day, occurrence day = instance_at day (dt_time dt) (select_event r))
    by reflexivity.
  assert (Hchar : forall ev, In ev events -> ev_id ev = id r ->
            exists day, in_range start_date end_date day /\
              In (str_weekday (weekday day)) (split_comma rd) /\ ev = occurrence day).
  { intros ev Hev Hid. apply Hin in Hev.
    destruct Hev as [(r' & day & Hr' & Ho & _ & _ & ->)
                    |(r' & day & st' & dt' & Hr' & _ & Hd & Hrep & Hst' & Hdt' & ->)];
      simpl in Hid; apply (id_inj _ _ _ Hids Hr' Hr) in Hid; subst r'.
    - destruct Ho as (_ & [Ho|Ho]); congruence.
    - exists day. split; [exact Hd|].
      rewrite Hst in Hst'. injection Hst' as <-. rewrite Hdt in Hdt'. injection Hdt' as <-.
      split; [|reflexivity].
      apply repeats_on_iff in Hrep. destruct Hrep as (s & Hs' & _ & Hw).
      rewrite Hrd in Hs'. injection Hs' as <-. exact Hw. }
  split; [|split; [exact Hchar|]].
  - intros day Hd Hw. split.
    + apply count_occ_once; [exact Hnd|]. apply Hin. right.
      exists r, day, st, dt. repeat split; try assumption; try apply Hd; try apply Hitem.
      apply repeats_on_iff. exists rd. auto.
    + apply fromisoformat_isoformat; simpl; [apply Hd|].
      eapply fromisoformat_valid, Hdt.
  - intros day Hv Hw Hi. destruct (Hchar _ Hi eq_refl) as (day' & Hd' & Hw' & Eo).
    rewrite !Hocc in Eo. apply (f_equal ev_start_time) in Eo.
    cbn [ev_start_time instance_at] in Eo. apply (f_equal (default "")) in Eo.
    apply isoformat_date_inj in Eo; [|exact Hv|apply Hd'].
    subst day'. contradiction.
Qed.


Lemma example_ids_unique : NoDup (map id (rows example_db)).
Proof.
  simpl. repeat constructor; simpl; intuition discriminate.
Qed.

Lemma jan_before_max n : date_lt (jan n) date_max.
Proof. left. simpl. lia. Qed.

End RecurringOccurrences.

Lemma C1_witness :
  valid_date (jan 1) = true /\ valid_date (jan 7) = true /\
  date_lt (jan 7) date_max /\ NoDup (map id (rows example_db)) /\
  exists events,
    get_schedule_by_date_range example_db (jan 1) (jan 7) = Ok events /\
    count_occ event_eq_dec events
      (mkEvent 1 "Standup" (Some "2024-01-03T09:00:00") (Some "local") 0 None
               (Some 1) (Some "0,2,4")) = 1%nat.
Proof.
  split; [reflexivity|]. split; [reflexivity|].
  split; [apply jan_before_max|]. split; [apply example_ids_unique|].
  destruct (C1_recurring_occurrences example_db (jan 1) (jan 7) eq_refl eq_refl
              (jan_before_max 7) example_ids_unique) as (events & E & H).
  exists events. split; [exact E|].
  refine (proj1 (proj1 (H (mkRow 1 "Standup" (Some "2024-01-01T09:00:00") 0
                             (Some "local") None (Some 1) (Some "0,2,4")
                             (Some "medium"))
                          "0,2,4" "2024-01-01T09:00:00"
                          (mkDatetime (jan 1) (mkTime 9 0 0 0))
                          _ eq_refl eq_refl eq_refl _ eq_refl eq_refl)
                       (jan 3) _ _)).
  - left. reflexivity.
  - discriminate.
  - split; [reflexivity|]. split; left; right; simpl; lia.
  - right. left. reflexivity.
Defined.

(** ** One-shot items in a range *)

Section OneShotInRange.

Context {lib : Library}.


End OneShotInRange.


(** ** Order of the returned lists *)

Section Order.

Lemma sorted_ascending {A} (key : A -> string) l :
  StronglySorted (key_le key) l -> ascending key l.
Proof.
  intros H. split; [exact H|].
  intros l1 a l2 b l3 -> Hb.
  apply sorted_split in H. unfold key_le in H. rewrite Hb in H.
  apply str_leb_empty_inv, H.
Qed.

Lemma sorted_firstn {A} (R : A -> A -> Prop) n l :
  StronglySorted R l -> StronglySorted R (firstn n l).
Proof.
  intros H. revert n. induction H as [|x l Hl IH Hx]; intros [|n]; simpl;
    try constructor.
  - apply IH.
  - rewrite List.Forall_forall in *. intros y Hy. apply Hx.
    rewrite <- (firstn_skipn n l). apply in_or_app. left. exact Hy.
Qed.

Lemma sorted_slice_to {A} (R : A -> A -> Prop) l limit :
  StronglySorted R l -> StronglySorted R (slice_to l limit).
Proof.
  intros H. unfold slice_to. destruct (limit <? 0); apply sorted_firstn, H.
Qed.

End Order.

Section SortedOutput.

Context {lib : Library}.

(** C3.  Whatever list a range, month or today query returns is in
    ascending order of the sort key, the start_time text with the empty
    string for a missing one; hence a tuple with the empty key never
    stands after a tuple with a timestamp. *)
Theorem C3_sorted_output d :
  (forall start_date end_date events,
     get_schedule_by_date_range d start_date end_date = Ok events ->
     ascending sort_key events) /\
  (forall year month events,
     get_schedule_by_month d year month = Ok events ->
     ascending sort_key events) /\
  (forall today limit,
     ascending sort_key (get_today_schedule_full d today limit)) /\
  (forall today limit,
     ascending pair_key (get_today_schedule d today limit)).
Proof.
  split; [|split; [|split]].
  - intros s e events H. apply get_schedule_by_date_range_sorted in H.
    destruct H as (l & ->). apply sorted_ascending, sort_by_sorted.
  - intros y m events H. apply get_schedule_by_month_sorted in H.
    destruct H as (l & ->). apply sorted_ascending, sort_by_sorted.
  - intros today limit. apply sorted_ascending, sorted_slice_to, sort_by_sorted.
  - intros today limit. apply sorted_ascending, sorted_slice_to, sort_by_sorted.
Qed.

End SortedOutput.

Lemma C3_witness :
  get_schedule_by_date_range example_db (jan 1) (jan 7) =
    Ok (sort_by sort_key (merged (range_test (jan 1) (jan 7)) example_db
                            [jan 1; jan 2; jan 3; jan 4; jan 5; jan 6; jan 7])) /\
  ascending sort_key
    (sort_by sort_key (merged (range_test (jan 1) (jan 7)) example_db
                         [jan 1; jan 2; jan 3; jan 4; jan 5; jan 6; jan 7])).
Proof.
  split; [reflexivity|].
  exact (proj1 (C3_sorted_output example_db) (jan 1) (jan 7) _ eq_refl).
Defined.


(** ** Occupied times *)

Section ConflictFacts.

Context {lib : Library}.

Lemma eqb_false_of_ne (s : string) : s <> "" -> String.eqb s "" = false.
Proof. intros H. apply String.eqb_neq. exact H. Qed.

Lemma key_eqb_eq a b : key_eqb a b = true <-> a = b.
Proof.
  destruct a, b. unfold key_eqb. simpl.
  rewrite andb_true_iff, !Z.eqb_eq. split; [intros [-> ->]; reflexivity|].
  intros [= -> ->]. auto.
Qed.

Lemma truthy_parse (s : option string) dt :
  s ≫= fromisoformat = Some dt -> truthy s = true.
Proof.
  destruct s as [[|c s]|]; simpl; try discriminate; [|reflexivity].
  rewrite fromisoformat_empty. discriminate.
Qed.

Lemma slot_of_occupies event_date event k :
  slot_of event_date event = Some k <-> occupies event_date event k.
Proof.
  unfold slot_of, occupies. destruct (ev_start_time event) as [st|]; simpl.
  - destruct (fromisoformat st) as [dt|] eqn:E; simpl.
    + destruct (date_eqb (dt_date dt) event_date) eqn:Ed.
      * apply date_eqb_eq in Ed. split.
        -- intros [= <-]. exists st, dt. auto.
        -- intros (st' & dt' & [= <-] & E' & _ & <-). congruence.
      * split; [discriminate|].
        intros (st' & dt' & [= <-] & E' & Hd & _).
        rewrite E in E'. injection E' as <-. apply date_eqb_eq in Hd. congruence.
    + split; [discriminate|]. intros (st' & dt' & [= <-] & E' & _). congruence.
  - split; [discriminate|]. intros (st' & dt' & [=] & _).
Qed.

Lemma takes_occupies event_date k event :
  takes event_date k event = true <-> occupies event_date event k.
Proof.
  rewrite <- slot_of_occupies. unfold takes.
  destruct (slot_of event_date event) as [k'|].
  - rewrite key_eqb_eq. split; congruence.
  - split; discriminate.
Qed.

Lemma taken_iff event_date existing k :
  taken event_date existing k = true <->
  exists event, In event existing /\ occupies event_date event k.
Proof.
  unfold taken. rewrite existsb_exists.
  split; intros (e & He & H); exists e; (split; [exact He|]);
    apply takes_occupies; exact H.
Qed.

(** Both popups test exactly [takes]. *)
Lemma same_slot_takes event_date dt event :
  same_slot event_date dt event = takes event_date (time_key dt) event.
Proof.
  unfold same_slot, takes, slot_of, time_key, key_eqb.
  destruct (ev_start_time event ≫= fromisoformat) as [existing_dt|] eqn:E;
    cbn [mbind option_bind].
  - rewrite (truthy_parse _ _ E). simpl.
    destruct (date_eqb _ _); simpl; reflexivity.
  - apply andb_false_r.
Qed.

Lemma note_event_slot (event_date : date) (event_times : gmap (Z * Z) string)
  (event : event_tuple) :
  note_event event_date event_times event =
  match slot_of event_date event with
  | Some k => match event_times !! k with
    | Some _ => event_times
    | None => <[k := ev_title event]> event_times
    end
  | None => event_times
  end.
Proof.
  unfold note_event, slot_of.
  destruct (ev_start_time event ≫= fromisoformat) as [existing_dt|] eqn:E;
    cbn [mbind option_bind].
  - rewrite (truthy_parse _ _ E). destruct (date_eqb _ _); reflexivity.
  - destruct (truthy _); reflexivity.
Qed.

(** The dictionary holds, under each key, the title of the first event
    of the list that occupies it. *)
Lemma fold_note_lookup (event_date : date) (existing : list event_tuple) :
  forall (m : gmap (Z * Z) string) (k : Z * Z),
  fold_left (note_event event_date) existing m !! k =
  match m !! k with
  | Some t => Some t
  | None => ev_title <$> first_at event_date k existing
  end.
Proof.
  induction existing as [|e l IH]; intros m k; simpl.
  - destruct (m !! k); reflexivity.
  - rewrite IH, note_event_slot. unfold takes.
    destruct (slot_of event_date e) as [k'|] eqn:Es.
    + destruct (key_eqb k' k) eqn:Ek.
      * apply key_eqb_eq in Ek. subst k'.
        destruct (m !! k) eqn:Em; [rewrite Em; reflexivity|].
        rewrite lookup_insert_eq. reflexivity.
      * assert (k' <> k) by (intros ->; rewrite (proj2 (key_eqb_eq k k) eq_refl) in Ek; discriminate).
        destruct (m !! k') eqn:Em'; [reflexivity|].
        rewrite lookup_insert_ne by assumption. reflexivity.
    + reflexivity.
Qed.

Lemma build_event_times_lookup (event_date : date) (existing : list event_tuple)
  (k : Z * Z) :
  build_event_times event_date existing !! k =
  ev_title <$> first_at event_date k existing.
Proof.
  unfold build_event_times. rewrite fold_note_lookup, lookup_empty. reflexivity.
Qed.

Lemma first_at_taken event_date k existing :
  taken event_date existing k = true <->
  exists e, first_at event_date k existing = Some e.
Proof.
  unfold taken, first_at. induction existing as [|x l IH]; simpl.
  - split; [discriminate|intros [e [=]]].
  - destruct (takes event_date k x); simpl; [split; eauto|exact IH].
Qed.

Lemma first_at_occupies event_date k existing e :
  first_at event_date k existing = Some e ->
  In e existing /\ occupies event_date e k.
Proof.
  intros H. apply find_some in H. destruct H as [Hi Ht].
  split; [exact Hi|]. apply takes_occupies, Ht.
Qed.

Lemma build_event_times_free (event_date : date) (existing : list event_tuple)
  (k : Z * Z) :
  build_event_times event_date existing !! k = None <->
  taken event_date existing k = false.
Proof.
  rewrite build_event_times_lookup.
  destruct (taken event_date existing k) eqn:E.
  - apply first_at_taken in E. destruct E as [e ->]. simpl.
    split; discriminate.
  - destruct (first_at event_date k existing) eqn:Ef; simpl; [|tauto].
    assert (taken event_date existing k = true)
      by (apply first_at_taken; eauto). congruence.
Qed.

End ConflictFacts.


(** ** The conflict check of [add_event_voice] *)

Section VoiceFacts.

Context {lib : Library}.

Lemma add_minutes_defined dt off :
  inner_year (dt_date dt) -> exists alt, add_minutes dt off = Ok alt.
Proof.
  unfold inner_year, MINYEAR, MAXYEAR. intros H. unfold add_minutes.
  destruct (_ <? 0).
  - unfold prev_day, MINYEAR.
    destruct (1 <? day _); [simpl; eauto|].
    destruct (1 <? month _); [simpl; eauto|].
    destruct (Z.ltb_spec 1 (year (dt_date dt))); [simpl; eauto|lia].
  - destruct (_ <? 1440); [eauto|].
    unfold next_day, MAXYEAR.
    destruct (day _ <? _); [simpl; eauto|].
    destruct (month _ <? 12); [simpl; eauto|].
    destruct (Z.ltb_spec (year (dt_date dt)) 9999); [simpl; eauto|lia].
Qed.

Lemma probes_exist dt_obj :
  inner_year (dt_date dt_obj) -> exists alts, probes dt_obj alts.
Proof.
  intros H. unfold probes, probe_offsets.
  destruct (add_minutes_defined dt_obj (-60) H) as [a1 E1].
  destruct (add_minutes_defined dt_obj (-30) H) as [a2 E2].
  destruct (add_minutes_defined dt_obj 30 H) as [a3 E3].
  destruct (add_minutes_defined dt_obj 60 H) as [a4 E4].
  exists [a1; a2; a3; a4]. repeat constructor; assumption.
Qed.

Lemma firstn_exact {A} (l k : list A) n : length l = n -> firstn n (l ++ k) = l.
Proof.
  intros <-. rewrite firstn_app, Nat.sub_diag, firstn_all. simpl.
  apply app_nil_r.
Qed.

(** The loop over the offsets keeps the free probes, in order, and
    stops at three. *)
Lemma suggest_spec (event_times : gmap (Z * Z) string) dt_obj offsets alts :
  Forall2 (fun off alt => add_minutes dt_obj off = Ok alt) offsets alts ->
  forall suggestions, (length suggestions < 3)%nat ->
  suggest event_times dt_obj offsets suggestions =
  Ok (firstn 3 (suggestions ++
      map format_12h
      (List.filter (fun alt => match event_times !! time_key alt with
          | None => true
          | Some _ => false
          end) alts))).
Proof.
  induction 1 as [|off alt offsets alts E _ IH]; intros acc Hacc.
  - simpl. rewrite app_nil_r, firstn_all2 by lia. reflexivity.
  - cbn [suggest]. unfold mbind, result_bind. rewrite E. cbn [bind List.filter].
    destruct (event_times !! time_key alt) eqn:Elk; [apply IH, Hacc|].
    cbn [map].
    destruct (3 <=? length (acc ++ [format_12h alt]))%nat eqn:El.
    + apply Nat.leb_le in El. rewrite length_app in El. simpl in El.
      set (rest := map format_12h _).
      replace (acc ++ format_12h alt :: rest)
        with ((acc ++ [format_12h alt]) ++ rest)
        by (rewrite <- app_assoc; reflexivity).
      rewrite (firstn_exact (acc ++ [format_12h alt]) rest 3); [reflexivity|].
      rewrite length_app. simpl. lia.
    + apply Nat.leb_gt in El. rewrite IH by exact El.
      rewrite <- app_assoc. reflexivity.
Qed.

Lemma filter_ext_eq {A} (p q : A -> bool) l :
  (forall x, p x = q x) -> List.filter p l = List.filter q l.
Proof.
  intros H. induction l as [|x l IH]; simpl; [reflexivity|].
  rewrite H, IH. reflexivity.
Qed.

(** [find_conflict]: the first event at the candidate's (hour, minute)
    gives the title; the suggestions are the free probes. *)
Lemma find_conflict_spec existing dt_obj alts :
  probes dt_obj alts ->
  find_conflict existing dt_obj =
  Ok ((fun e => (ev_title e, suggestions_for (dt_date dt_obj) existing alts))
    <$> first_at (dt_date dt_obj) (time_key dt_obj) existing).
Proof.
  intros Hp. unfold find_conflict. rewrite build_event_times_lookup.
  destruct (first_at _ _ _) as [e|]; cbn [fmap option_fmap option_map];
    [|reflexivity].
  rewrite (suggest_spec _ _ _ _ Hp) by (simpl; lia).
  cbn [mbind result_bind bind app]. unfold suggestions_for. do 5 f_equal.
  apply filter_ext_eq. intros alt. unfold free_probe.
  destruct (build_event_times _ _ !! _) eqn:E.
  - destruct (taken _ _ _) eqn:Et; [reflexivity|].
    apply build_event_times_free in Et. congruence.
  - apply build_event_times_free in E. rewrite E. reflexivity.
Qed.

Lemma date_display_defined today target :
  year today < MAXYEAR -> exists shown, date_display today target = Ok shown.
Proof.
  unfold MAXYEAR. intros H. unfold date_display.
  destruct (date_eqb target today); [eauto|].
  unfold next_day, MAXYEAR.
  destruct (day _ <? _); [simpl; destruct (date_eqb _ _); eauto|].
  destruct (month _ <? 12); [simpl; destruct (date_eqb _ _); eauto|].
  destruct (Z.ltb_spec (year today) 9999); [|lia].
  simpl; destruct (date_eqb _ _); eauto.
Qed.

Lemma truthy_isoformat dt : truthy (Some (isoformat dt)) = true.
Proof. reflexivity. Qed.

Lemma inner_year_lt_max d : valid_date d = true -> inner_year d -> date_lt d date_max.
Proof. intros _ [_ H]. left. exact H. Qed.

Lemma first_at_none event_date k existing :
  first_at event_date k existing = None <->
  forall e, In e existing -> ~ occupies event_date e k.
Proof.
  split.
  - intros H e He Ho. apply takes_occupies in Ho.
    eapply find_none in H; [|exact He]. congruence.
  - intros H. destruct (first_at event_date k existing) as [e|] eqn:E; [|reflexivity].
    apply first_at_occupies in E. destruct E as [He Ho]. destruct (H e He Ho).
Qed.

(** The conflict check of the voice command, end to end. *)
Lemma voice_conflict_spec d today target time_str time_obj existing shown alts :
  valid_date target = true -> valid_time time_obj = true ->
  get_schedule_by_date_range d target target = Ok existing ->
  date_display today target = Ok shown ->
  probes (combine target time_obj) alts ->
  voice_conflict d today time_str (Some (isoformat (combine target time_obj))) =
  (fun e => conflict_message (ev_title e) time_str shown
    (suggestions_for target existing alts))
  <$> first_at target (time_key (combine target time_obj)) existing.
Proof.
  intros Hd Ht He Hs Hp. unfold voice_conflict.
  rewrite truthy_isoformat. cbn [mbind option_bind].
  rewrite fromisoformat_isoformat by assumption.
  cbn [dt_date combine]. rewrite He.
  destruct existing as [|x l]; [reflexivity|]. cbn [is_nil].
  rewrite Hs, (find_conflict_spec _ _ _ Hp). cbn [dt_date combine].
  destruct (first_at _ _ _); reflexivity.
Qed.

(** The first event at a time stands after events that are not at it. *)
Lemma first_at_split event_date k existing e :
  first_at event_date k existing = Some e ->
  exists l1 l2, existing = l1 ++ e :: l2 /\ occupies event_date e k /\
                forall x, In x l1 -> ~ occupies event_date x k.
Proof.
  unfold first_at. induction existing as [|x l IH]; simpl; [discriminate|].
  destruct (takes event_date k x) eqn:Ex.
  - intros [= <-]. exists [], l. split; [reflexivity|].
    split; [apply takes_occupies, Ex|intros y []].
  - intros H. destruct (IH H) as (l1 & l2 & -> & Ho & Hn).
    exists (x :: l1), l2. split; [reflexivity|]. split; [exact Ho|].
    intros y [<-|Hy]; [|apply Hn, Hy].
    intros Hx. apply takes_occupies in Hx. congruence.
Qed.

(** [add_event_voice] for a title and a time that were given: what the
    check stores and what the caller is told, on either thread. *)
Lemma add_event_voice_cases who d today target title time_str time_obj existing
    shown alts :
  title <> "" -> time_str <> "" ->
  valid_date target = true -> valid_time time_obj = true ->
  get_schedule_by_date_range d target target = Ok existing ->
  date_display today target = Ok shown ->
  probes (combine target time_obj) alts ->
  let dt_obj := combine target time_obj in
  let added := "Added '" +:+ title +:+ "' on " +:+ shown +:+ " at " +:+ time_str in
  let told e := conflict_message (ev_title e) time_str shown
                  (suggestions_for target existing alts) in
  check_and_add_on_main_thread d today title time_str (Some (isoformat dt_obj)) =
    match first_at target (time_key dt_obj) existing with
    | Some e => (Some (told e), d)
    | None => (None, add_task d (new_task title (Some (isoformat dt_obj))))
    end /\
  add_event_voice who d today target title time_str time_obj =
    match first_at target (time_key dt_obj) existing with
    | Some e => (if heard who then told e else added, d)
    | None => (added, add_task d (new_task title (Some (isoformat dt_obj))))
    end.
Proof.
  intros Ht Hts Hv Hvt E Es Hp dt_obj added told.
  pose proof (voice_conflict_spec d today target time_str time_obj existing
                shown alts Hv Hvt E Es Hp) as Hvc.
  fold dt_obj in Hvc.
  assert (Hc : check_and_add_on_main_thread d today title time_str
                 (Some (isoformat dt_obj)) =
               match first_at target (time_key dt_obj) existing with
               | Some e => (Some (told e), d)
               | None => (None, add_task d (new_task title (Some (isoformat dt_obj))))
               end).
  { unfold check_and_add_on_main_thread. rewrite Hvc.
    destruct (first_at _ _ _); reflexivity. }
  split; [exact Hc|].
  unfold add_event_voice.
  rewrite (eqb_false_of_ne _ Ht), (eqb_false_of_ne _ Hts), Es.
  fold dt_obj. destruct who as [|answered].
  - rewrite Hvc. destruct (first_at _ _ _); reflexivity.
  - rewrite Hc. destruct (first_at _ _ _); [destruct answered|]; reflexivity.
Qed.

End VoiceFacts.

(** ** Conflicts are collisions of hour and minute *)

Section PopupFacts.

Context {lib : Library}.

Lemma is_nil_false {A} (l : list A) : l <> [] -> is_nil l = false.
Proof. destruct l; [contradiction|reflexivity]. Qed.

Lemma recurring_guard (is_recurring : bool) (selected : list Z) :
  (is_recurring = true -> selected <> []) ->
  is_recurring && is_nil selected = false /\
  is_recurring && negb (is_nil selected) = is_recurring.
Proof.
  destruct is_recurring; simpl; [|auto]. intros H.
  rewrite (is_nil_false _ (H eq_refl)). auto.
Qed.

Lemma existsb_takes event_date k existing :
  existsb (takes event_date k) existing = taken event_date existing k.
Proof. reflexivity. Qed.

Lemma taken_false event_date existing k :
  taken event_date existing k = false <->
  forall e, In e existing -> ~ occupies event_date e k.
Proof.
  rewrite <- not_true_iff_false, taken_iff. split.
  - intros H e He Ho. apply H. eauto.
  - intros H (e & He & Ho). exact (H e He Ho).
Qed.

Lemma existsb_ext_eq {A} (f g : A -> bool) l :
  (forall x, f x = g x) -> existsb f l = existsb g l.
Proof.
  intros H. induction l as [|x l IH]; simpl; [reflexivity|].
  rewrite H, IH. reflexivity.
Qed.

End PopupFacts.

Section ExactMinuteConflict.

Context {lib : Library}.

(** C4, as the code has it.  For a candidate in a year strictly inside
    1..9999 the conflict check signals a conflict exactly when some
    occurrence returned by the expansion of the candidate's date has the
    candidate's (hour, minute) on that date.  In [add_event_voice] the
    check then stores the conflict message, which carries the title of
    the first such occurrence of the returned list, and no row; the
    message is the reply on the main thread, and off it when the check
    had answered by the end of the wait.  Otherwise the event is added.
    In [create_event_from_popup] the fixed error popup stands for the
    conflict; otherwise the event is saved.  An occurrence occupies one
    (hour, minute) only, so a candidate a minute (or any non-zero number
    of minutes) away from every occurrence is never flagged. *)
Theorem C4_exact_minute_conflict d :
  (forall who today target title time_str time_obj,
     title <> "" -> time_str <> "" ->
     valid_date target = true -> valid_time time_obj = true ->
     year today < MAXYEAR -> inner_year target ->
     let dt_obj := combine target time_obj in
     exists existing shown,
       get_schedule_by_date_range d target target = Ok existing /\
       date_display today target = Ok shown /\
       let added :=
         "Added '" +:+ title +:+ "' on " +:+ shown +:+ " at " +:+ time_str in
       ((exists e, In e existing /\ occupies target e (time_key dt_obj)) ->
        exists before e after suggestions,
          existing = before ++ e :: after /\
          occupies target e (time_key dt_obj) /\
          (forall x, In x before -> ~ occupies target x (time_key dt_obj)) /\
          let message := conflict_message (ev_title e) time_str shown suggestions in
          check_and_add_on_main_thread d today title time_str
              (Some (isoformat dt_obj)) = (Some message, d) /\
          add_event_voice who d today target title time_str time_obj =
            (if heard who then message else added, d)) /\
       ((forall e, In e existing -> ~ occupies target e (time_key dt_obj)) ->
        check_and_add_on_main_thread d today title time_str
            (Some (isoformat dt_obj)) =
          (None, add_task d (new_task title (Some (isoformat dt_obj)))) /\
        add_event_voice who d today target title time_str time_obj =
          (added, add_task d (new_task title (Some (isoformat dt_obj)))))) /\
  (forall title dt is_recurring selected_repeat_days,
     title <> "" -> (is_recurring = true -> selected_repeat_days <> []) ->
     valid_date (dt_date dt) = true -> date_lt (dt_date dt) date_max ->
     exists existing,
       get_schedule_by_date_range d (dt_date dt) (dt_date dt) = Ok existing /\
       ((exists e, In e existing /\ occupies (dt_date dt) e (time_key dt)) ->
        create_event_from_popup d title dt is_recurring selected_repeat_days =
          ErrorPopup already_exists) /\
       ((forall e, In e existing -> ~ occupies (dt_date dt) e (time_key dt)) ->
        create_event_from_popup d title dt is_recurring selected_repeat_days =
          Saved (add_task d
                   (mkTask title (Some (isoformat dt)) false (Some "local") None
                           is_recurring
                           (if is_recurring
                            then Some (repeat_days_of selected_repeat_days)
                            else None)
                           (Some "medium"))))) /\
  (forall event_date e k k',
     occupies event_date e k -> occupies event_date e k' -> k = k').
Proof.
  split; [|split].
  - intros who today target title time_str time_obj Ht Hts Hv Hvt Htoday Hinner
           dt_obj.
    destruct (range_events_mem d target target Hv Hv (inner_year_lt_max _ Hv Hinner))
      as (existing & E & _ & _).
    destruct (date_display_defined today target Htoday) as (shown & Es).
    destruct (probes_exist dt_obj Hinner) as (alts & Hp).
    exists existing, shown. split; [exact E|]. split; [exact Es|].
    destruct (add_event_voice_cases who d today target title time_str time_obj
                existing shown alts Ht Hts Hv Hvt E Es Hp) as [Hc Hav].
    fold dt_obj in Hc, Hav. intros added.
    split.
    + intros Hex. apply taken_iff, first_at_taken in Hex. destruct Hex as (e & Ef).
      destruct (first_at_split _ _ _ _ Ef) as (l1 & l2 & El & Ho & Hn).
      exists l1, e, l2, (suggestions_for target existing alts).
      split; [exact El|]. split; [exact Ho|]. split; [exact Hn|].
      rewrite Hc, Hav, Ef. split; reflexivity.
    + intros Hno. apply first_at_none in Hno. rewrite Hc, Hav, Hno.
      split; reflexivity.
  - intros title dt is_recurring selected Ht Hrec Hv Hmax.
    destruct (range_events_mem d _ _ Hv Hv Hmax) as (existing & E & _ & _).
    exists existing. split; [exact E|].
    destruct (recurring_guard _ _ Hrec) as [G1 G2].
    assert (Hc : create_event_from_popup d title dt is_recurring selected =
              if taken (dt_date dt) existing (time_key dt)
              then ErrorPopup already_exists
              else Saved (add_task d
                   (mkTask title (Some (isoformat dt)) false (Some "local") None
                           is_recurring
                           (if is_recurring then Some (repeat_days_of selected)
                            else None)
                           (Some "medium")))).
    { unfold create_event_from_popup.
      rewrite (eqb_false_of_ne _ Ht), G1, E, G2.
      rewrite (existsb_ext_eq _ _ _ (same_slot_takes (dt_date dt) dt)), existsb_takes.
      destruct (taken _ _ _); reflexivity. }
    split.
    + intros Hex. apply taken_iff in Hex. rewrite Hc, Hex. reflexivity.
    + intros Hno. apply taken_false in Hno. rewrite Hc, Hno. reflexivity.
  - intros event_date e k k' (st & dt & Hs & Hp & _ & <-) (st' & dt' & Hs' & Hp' & _ & <-).
    congruence.
Qed.

End ExactMinuteConflict.

Lemma C4_witness :
  "Call" <> "" /\ "2pm" <> "" /\ valid_date (jan 3) = true /\
  valid_time (mkTime 14 0 0 0) = true /\ year (jan 1) < MAXYEAR /\
  inner_year (jan 3) /\
  exists existing shown,
    get_schedule_by_date_range example_db (jan 3) (jan 3) = Ok existing /\
    date_display (jan 1) (jan 3) = Ok shown /\
    ((exists e, In e existing /\
                occupies (jan 3) e (time_key (combine (jan 3) (mkTime 14 0 0 0)))) ->
     exists before e after suggestions,
       existing = before ++ e :: after /\
       occupies (jan 3) e (time_key (combine (jan 3) (mkTime 14 0 0 0))) /\
       (forall x, In x before ->
          ~ occupies (jan 3) x (time_key (combine (jan 3) (mkTime 14 0 0 0)))) /\
       add_event_voice (OtherThread true) example_db (jan 1) (jan 3) "Call" "2pm"
                       (mkTime 14 0 0 0) =
         (conflict_message (ev_title e) "2pm" shown suggestions, example_db)).
Proof.
  assert (H1 : "Call" <> "") by discriminate.
  assert (H2 : "2pm" <> "") by discriminate.
  assert (H3 : year (jan 1) < MAXYEAR) by reflexivity.
  assert (H4 : inner_year (jan 3)) by (split; reflexivity).
  repeat (split; [assumption || reflexivity|]).
  destruct (proj1 (C4_exact_minute_conflict example_db) (OtherThread true)
              (jan 1) (jan 3) "Call" "2pm"
              (mkTime 14 0 0 0) H1 H2 eq_refl eq_refl H3 H4)
    as (existing & shown & E & Es & Hc & _).
  exists existing, shown. split; [exact E|]. split; [exact Es|].
  intros Hex. destruct (Hc Hex) as (l1 & e & l2 & sg & El & Ho & Hn & _ & Hav).
  exists l1, e, l2, sg. repeat (split; [assumption|]). exact Hav.
Defined.

(** ** Editing an event *)

Section EditIgnoresOwnOccurrences.

Context {lib : Library}.

(** C5.  [update_event_from_popup] passes over every occurrence whose id
    is the id being edited, and every occurrence of the expansion, the
    synthesized ones included, has the id of the row it comes from.  So
    when every occurrence at the chosen (hour, minute) has the edited
    id, the edit is saved; the error popup appears exactly when an
    occurrence with another id is there. *)
Theorem C5_edit_ignores_own_occurrences d event_id title dt is_recurring
    selected_repeat_days :
  title <> "" -> (is_recurring = true -> selected_repeat_days <> []) ->
  valid_date (dt_date dt) = true -> date_lt (dt_date dt) date_max ->
  exists existing,
    get_schedule_by_date_range d (dt_date dt) (dt_date dt) = Ok existing /\
    (forall e, In e existing ->
       exists r, In r (rows d) /\ ev_id e = id r /\
         (e = select_event r \/
          exists t, e = instance_at (dt_date dt) t (select_event r))) /\
    ((forall e, In e existing -> occupies (dt_date dt) e (time_key dt) ->
                ev_id e = event_id) ->
     update_event_from_popup d event_id title dt is_recurring selected_repeat_days =
       Saved (update_task d event_id (Some title) (Some (isoformat dt))
                (Some is_recurring)
                (if is_recurring then Some (repeat_days_of selected_repeat_days)
                 else None))) /\
    ((exists e, In e existing /\ ev_id e <> event_id /\
                occupies (dt_date dt) e (time_key dt)) ->
     update_event_from_popup d event_id title dt is_recurring selected_repeat_days =
       ErrorPopup already_exists).
Proof.
  intros Ht Hrec Hv Hmax.
  destruct (range_events_mem d _ _ Hv Hv Hmax) as (existing & E & _ & Hin).
  exists existing. split; [exact E|].
  destruct (recurring_guard _ _ Hrec) as [G1 G2].
  set (other := fun event => negb (ev_id event =? event_id) &&
                             same_slot (dt_date dt) dt event).
  assert (Hu : update_event_from_popup d event_id title dt is_recurring
                 selected_repeat_days =
              if existsb other existing
              then ErrorPopup already_exists
              else Saved (update_task d event_id (Some title) (Some (isoformat dt))
                            (Some is_recurring)
                            (if is_recurring
                             then Some (repeat_days_of selected_repeat_days)
                             else None))).
  { unfold update_event_from_popup.
    rewrite (eqb_false_of_ne _ Ht), G1, E, G2. fold other.
    destruct (existsb other existing); reflexivity. }
  assert (Hother : forall e, other e = true <->
                     ev_id e <> event_id /\ occupies (dt_date dt) e (time_key dt)).
  { intros e. unfold other.
    rewrite andb_true_iff, negb_true_iff, Z.eqb_neq, same_slot_takes, takes_occupies.
    reflexivity. }
  split; [|split].
  - intros e He. apply Hin in He.
    destruct He as [(r & day & Hr & _ & _ & _ & ->)
                   |(r & day & st & dt' & Hr & _ & Hd & _ & _ & _ & ->)];
      exists r; (split; [exact Hr|]); (split; [reflexivity|]).
    + left. reflexivity.
    + right. exists (dt_time dt'). f_equal.
      destruct Hd as (_ & [L|Eq] & [L'|Eq']); try congruence.
      destruct (date_lt_irrefl (dt_date dt)). eapply date_lt_trans; eassumption.
  - intros Hown. rewrite Hu.
    destruct (existsb other existing) eqn:Ex; [|reflexivity].
    apply existsb_exists in Ex. destruct Ex as (e & He & Ho).
    apply Hother in Ho. destruct Ho as [Hne Ho]. destruct (Hne (Hown e He Ho)).
  - intros (e & He & Hne & Ho). rewrite Hu.
    replace (existsb other existing) with true; [reflexivity|].
    symmetry. apply existsb_exists. exists e. split; [exact He|].
    apply Hother. auto.
Qed.

End EditIgnoresOwnOccurrences.

Lemma C5_witness :
  "Lunch break" <> "" /\ valid_date (jan 3) = true /\ date_lt (jan 3) date_max /\
  update_event_from_popup example_db 3 "Lunch break"
      (mkDatetime (jan 3) (mkTime 14 0 0 0)) false [] =
    Saved (update_task example_db 3 (Some "Lunch break")
             (Some "2024-01-03T14:00:00") (Some false) None).
Proof.
  assert (H1 : "Lunch break" <> "") by discriminate.
  assert (H2 : false = true -> @nil Z <> []) by discriminate.
  split; [exact H1|]. split; [reflexivity|]. split; [apply jan_before_max|].
  destruct (C5_edit_ignores_own_occurrences example_db 3 "Lunch break"
              (mkDatetime (jan 3) (mkTime 14 0 0 0)) false [] H1 H2 eq_refl
              (jan_before_max 3)) as (existing & E & _ & Hsave & _).
  apply Hsave. intros e He Ho.
  injection E as <-. apply takes_occupies in Ho.
  repeat (destruct He as [<-|He]; [reflexivity || discriminate Ho|]).
  destruct He.
Defined.

(** ** Alternative times *)

Section FormatFacts.

Lemma format_12h_clock d h m s us :
  0 <= h < 24 -> 0 <= m < 60 ->
  format_12h (mkDatetime d (mkTime h m s us)) =
  str_small ((h + 11) mod 12 + 1) +:+
  (if m =? 0 then "" else ":" +:+ pad2 m) +:+
  (if h <? 12 then "am" else "pm").
Proof.
  intros Hh Hm. unfold format_12h. cbn [dt_time hour minute].
  replace (if h mod 12 =? 0 then 12 else h mod 12) with ((h + 11) mod 12 + 1).
  - destruct (Z.ltb_spec 0 m), (Z.eqb_spec m 0); try lia; reflexivity.
  - destruct (Z.eqb_spec (h mod 12) 0); Z.div_mod_to_equations; lia.
Qed.

End FormatFacts.

Section AlternativeTimes.

Context {lib : Library}.

(** C6.  When the check of [add_event_voice] finds a conflict, the
    suggestions in the message it stores are the first three, in the
    probing order -60, -30, +30, +60 minutes, of the probed times whose
    (hour, minute) no occurrence of the candidate's date occupies, each
    written on the 12-hour clock with am or pm in lower case and the
    minutes left out when zero.  With no free probe the message is still
    the conflict message, ending in the request to choose a different
    time.  The message is the reply on the main thread, and off it when
    the check had answered by the end of the wait.  The candidate's year
    is strictly inside 1..9999, so that the four probed times exist. *)
Theorem C6_alternative_times who d today target title time_str time_obj :
  title <> "" -> time_str <> "" ->
  valid_date target = true -> valid_time time_obj = true ->
  year today < MAXYEAR -> inner_year target ->
  let dt_obj := combine target time_obj in
  exists existing shown a1 a2 a3 a4,
    get_schedule_by_date_range d target target = Ok existing /\
    date_display today target = Ok shown /\
    add_minutes dt_obj (-60) = Ok a1 /\ add_minutes dt_obj (-30) = Ok a2 /\
    add_minutes dt_obj 30 = Ok a3 /\ add_minutes dt_obj 60 = Ok a4 /\
    let free :=
      List.filter (free_probe target existing) [a1; a2; a3; a4] in
    let added :=
      "Added '" +:+ title +:+ "' on " +:+ shown +:+ " at " +:+ time_str in
    (forall alt, free_probe target existing alt = true <->
                 forall e, In e existing -> ~ occupies target e (time_key alt)) /\
    ((exists e, In e existing /\ occupies target e (time_key dt_obj)) ->
     exists conflicting_title,
       let message :=
         conflict_message conflicting_title time_str shown
           (firstn 3 (map format_12h free)) in
       check_and_add_on_main_thread d today title time_str
           (Some (isoformat dt_obj)) = (Some message, d) /\
       add_event_voice who d today target title time_str time_obj =
         (if heard who then message else added, d) /\
       (free = [] ->
        message =
          "You already have '" +:+ conflicting_title +:+ "' at " +:+ time_str +:+
          " on " +:+ shown +:+ ". Please choose a different time.")) /\
    (forall day h m s us,
       0 <= h < 24 -> 0 <= m < 60 ->
       format_12h (mkDatetime day (mkTime h m s us)) =
         str_small ((h + 11) mod 12 + 1) +:+
         (if m =? 0 then "" else ":" +:+ pad2 m) +:+
         (if h <? 12 then "am" else "pm")) /\
    format_12h (mkDatetime target (mkTime 14 0 0 0)) = "2pm" /\
    format_12h (mkDatetime target (mkTime 14 30 0 0)) = "2:30pm".
Proof.
  intros Ht Hts Hv Hvt Htoday Hinner dt_obj.
  destruct (range_events_mem d target target Hv Hv (inner_year_lt_max _ Hv Hinner))
    as (existing & E & _ & _).
  destruct (date_display_defined today target Htoday) as (shown & Es).
  destruct (add_minutes_defined dt_obj (-60) Hinner) as [a1 E1].
  destruct (add_minutes_defined dt_obj (-30) Hinner) as [a2 E2].
  destruct (add_minutes_defined dt_obj 30 Hinner) as [a3 E3].
  destruct (add_minutes_defined dt_obj 60 Hinner) as [a4 E4].
  assert (Hp : probes dt_obj [a1; a2; a3; a4]) by (repeat constructor; assumption).
  exists existing, shown, a1, a2, a3, a4.
  repeat (split; [assumption|]).
  intros free added. split; [|split; [|split; [|split; reflexivity]]].
  - intros alt. unfold free_probe. rewrite negb_true_iff. apply taken_false.
  - intros Hex. apply taken_iff, first_at_taken in Hex. destruct Hex as (e & Ef).
    exists (ev_title e). intros message.
    destruct (add_event_voice_cases who d today target title time_str time_obj
                existing shown _ Ht Hts Hv Hvt E Es Hp) as [Hc Hav].
    fold dt_obj in Hc, Hav. rewrite Ef in Hc, Hav.
    split; [exact Hc|]. split; [exact Hav|].
    intros Hfree. unfold message. rewrite Hfree. reflexivity.
  - intros day h m s us. apply format_12h_clock.
Qed.

End AlternativeTimes.

Lemma C6_witness :
  "Call" <> "" /\ "2pm" <> "" /\ year (jan 1) < MAXYEAR /\ inner_year (jan 3) /\
  exists existing shown a1 a2 a3 a4,
    get_schedule_by_date_range example_db (jan 3) (jan 3) = Ok existing /\
    date_display (jan 1) (jan 3) = Ok shown /\
    add_minutes (combine (jan 3) (mkTime 14 0 0 0)) (-60) = Ok a1 /\
    add_minutes (combine (jan 3) (mkTime 14 0 0 0)) (-30) = Ok a2 /\
    add_minutes (combine (jan 3) (mkTime 14 0 0 0)) 30 = Ok a3 /\
    add_minutes (combine (jan 3) (mkTime 14 0 0 0)) 60 = Ok a4.
Proof.
  assert (H1 : "Call" <> "") by discriminate.
  assert (H2 : "2pm" <> "") by discriminate.
  assert (H3 : year (jan 1) < MAXYEAR) by reflexivity.
  assert (H4 : inner_year (jan 3)) by (split; reflexivity).
  repeat (split; [assumption|]).
  destruct (C6_alternative_times MainThread example_db (jan 1) (jan 3) "Call" "2pm"
              (mkTime 14 0 0 0) H1 H2 eq_refl eq_refl H3 H4)
    as (existing & shown & a1 & a2 & a3 & a4 & E & Es & E1 & E2 & E3 & E4 & _).
  exists existing, shown, a1, a2, a3, a4. repeat (split; [assumption|]). assumption.
Defined.

Example voice_reply_on_conflict :
  fst (add_event_voice MainThread example_db (jan 1) (jan 3) "Call" "2pm"
                       (mkTime 14 0 0 0)) =
  "You already have 'Lunch' at 2pm on January 03. How about 1pm, 1:30pm, 2:30pm instead?".
Proof. reflexivity. Qed.

Example voice_reply_one_minute_later :
  add_event_voice MainThread example_db (jan 1) (jan 3) "Call" "2:01pm"
                  (mkTime 14 1 0 0) =
  ("Added 'Call' on January 03 at 2:01pm",
   add_task example_db (new_task "Call" (Some "2024-01-03T14:01:00"))).
Proof. reflexivity. Qed.

(** Off the main thread, when the wait ends before the check has
    answered, the caller is told the event was added although the check
    found the conflict and stored nothing. *)
Example voice_reply_unanswered :
  add_event_voice (OtherThread false) example_db (jan 1) (jan 3) "Call" "2pm"
                  (mkTime 14 0 0 0) =
  ("Added 'Call' on January 03 at 2pm", example_db).
Proof. reflexivity. Qed.

(** ** Queries with bounds that name no range *)

Section Bounds.

Lemma filter_none {A} (p : A -> bool) l :
  (forall x, In x l -> p x = false) -> List.filter p l = [].
Proof.
  induction l as [|x l IH]; simpl; intros H; [reflexivity|].
  rewrite (H x) by (left; reflexivity). apply IH.
  intros y Hy. apply H. right. exact Hy.
Qed.

Lemma make_date_bad_month y m d : ~ 1 <= m <= 12 -> make_date y m d = Raise ValueError.
Proof.
  intros H. unfold make_date.
  destruct (valid_date (mkDate y m d)) eqn:E; [|reflexivity].
  apply valid_date_bounds in E. simpl in E. lia.
Qed.

(** No text lies between the bounds of an inverted range. *)
Lemma range_test_empty s e ds :
  valid_date s = true -> valid_date e = true -> date_lt e s ->
  range_test s e ds = false.
Proof.
  intros Hs He Hlt. apply not_true_iff_false. intros H.
  unfold range_test in H. apply andb_prop in H. destruct H as [H1 H2].
  pose proof (str_leb_trans _ _ _ H1 H2) as H3.
  rewrite str_leb_date in H3 by assumption. apply date_leb_le in H3.
  apply (date_lt_irrefl e).
  destruct H3 as [L| <-]; [eapply date_lt_trans; eassumption|exact Hlt].
Qed.

End Bounds.

Section InvalidBounds.

Context {lib : Library}.

(** C7, as the code has it.  A month outside 1..12 makes
    [get_schedule_by_month] raise the [ValueError] of the [date]
    constructor before anything is read.  A range whose end is before
    its start is no error for [get_schedule_by_date_range]: the query
    returns the empty list. *)
Theorem C7_invalid_bounds d :
  (forall year month,
     ~ 1 <= month <= 12 -> get_schedule_by_month d year month = Raise ValueError) /\
  (forall start_date end_date,
     valid_date start_date = true -> valid_date end_date = true ->
     date_lt end_date start_date ->
     get_schedule_by_date_range d start_date end_date = Ok []).
Proof.
  split.
  - intros y m Hm. unfold get_schedule_by_month.
    destruct (Z.eqb_spec m 12) as [->|_]; [lia|].
    rewrite (make_date_bad_month y m 1 Hm). reflexivity.
  - intros s e Hs He Hlt. unfold get_schedule_by_date_range.
    assert (Hnone : select_non_recurring
                      (fun ds => str_leb (str_date s) ds && str_leb ds (str_date e)) d
                    = []).
    { unfold select_non_recurring. rewrite filter_none; [reflexivity|].
      intros r _. apply andb_false_intro1. apply not_true_iff_false. intros Ht.
      apply date_test_text in Ht. destruct Ht as (ds & Hst & Ht).
      pose proof (range_test_empty s e ds Hs He Hlt) as Hf.
      unfold range_test in Hf. cbv beta in Ht. rewrite Hf in Ht. discriminate. }
    rewrite Hnone. unfold loop_bound. cbn [expand_loop].
    replace (date_leb s e) with false by (symmetry; apply date_leb_false; exact Hlt).
    reflexivity.
Qed.

End InvalidBounds.

Lemma C7_witness :
  ~ 1 <= 13 <= 12 /\ date_lt (jan 1) (jan 7) /\
  get_schedule_by_month example_db 2024 13 = Raise ValueError /\
  get_schedule_by_date_range example_db (jan 7) (jan 1) = Ok [].
Proof.
  assert (H1 : ~ 1 <= 13 <= 12) by lia.
  assert (H2 : date_lt (jan 1) (jan 7)) by (right; simpl; lia).
  split; [exact H1|]. split; [exact H2|]. split.
  - exact (proj1 (C7_invalid_bounds example_db) 2024 13 H1).
  - exact (proj2 (C7_invalid_bounds example_db) (jan 7) (jan 1) eq_refl eq_refl H2).
Defined.

(** C7 as stated fails: the range from 7 January back to 1 January is
    answered with the empty list, not with an error. *)
Lemma C7_counterexample :
  date_ltb (jan 1) (jan 7) = true /\
  get_schedule_by_date_range example_db (jan 7) (jan 1) = Ok [] /\
  forall e, get_schedule_by_date_range example_db (jan 7) (jan 1) <> Raise e.
Proof. split; [reflexivity|]. split; [reflexivity|]. intros e. discriminate. Qed.

(** ** Rows whose timestamp does not parse *)

Section Malformed.

Context {lib : Library}.

Lemma expand_loop_ext fuel continue rec rec' :
  (forall day, instances_on day rec = instances_on day rec') ->
  forall cur evs,
  expand_loop fuel continue cur rec evs = expand_loop fuel continue cur rec' evs.
Proof.
  intros H. induction fuel as [|fuel IH]; intros cur evs; simpl; [reflexivity|].
  destruct (continue cur); [|reflexivity].
  rewrite H. destruct (next_day cur); simpl; [apply IH|reflexivity].
Qed.

Lemma instance_for_unparseable day event :
  ev_start_time event ≫= fromisoformat = None -> instance_for day event = [].
Proof.
  intros H. unfold instance_for. rewrite H. destruct (repeats_on _ _); reflexivity.
Qed.

Variables (rows1 rows2 : list row) (r : row) (n : Z).
Hypothesis r_recurring : is_recurring r = Some 1.
Hypothesis r_unparseable : start_time r ≫= fromisoformat = None.

Lemma one_shot_rows_same p :
  List.filter (fun x => p x && one_shot x) (rows (mkDb (rows1 ++ r :: rows2) n)) =
  List.filter (fun x => p x && one_shot x) (rows (mkDb (rows1 ++ rows2) n)).
Proof.
  simpl. rewrite !List.filter_app. simpl.
  replace (one_shot r) with false; [rewrite andb_false_r; reflexivity|].
  unfold one_shot. rewrite r_recurring. simpl. symmetry. apply andb_false_r.
Qed.

Lemma select_non_recurring_same test :
  select_non_recurring test (mkDb (rows1 ++ r :: rows2) n) =
  select_non_recurring test (mkDb (rows1 ++ rows2) n).
Proof. unfold select_non_recurring. rewrite one_shot_rows_same. reflexivity. Qed.

Lemma instances_on_same day :
  instances_on day (select_recurring (mkDb (rows1 ++ r :: rows2) n)) =
  instances_on day (select_recurring (mkDb (rows1 ++ rows2) n)).
Proof.
  unfold select_recurring, instances_on. simpl.
  rewrite !List.filter_app, !List.map_app, !List.flat_map_app. f_equal. simpl.
  destruct (recurring_row r); [|reflexivity]. simpl.
  rewrite instance_for_unparseable by exact r_unparseable. reflexivity.
Qed.

Lemma today_pairs_same today :
  today_pairs (mkDb (rows1 ++ r :: rows2) n) today =
  today_pairs (mkDb (rows1 ++ rows2) n) today.
Proof.
  unfold today_pairs. rewrite one_shot_rows_same, instances_on_same. reflexivity.
Qed.

End Malformed.

Section RangeEventsIds.

Context {lib : Library}.

Lemma range_events_ids d s e events :
  get_schedule_by_date_range d s e = Ok events ->
  forall ev, In ev events ->
    (exists r, In r (rows d) /\ one_shot_item r /\ ev = select_event r) \/
    (exists r day st dt, In r (rows d) /\ recurring_item r /\
        start_time r = Some st /\ fromisoformat st = Some dt /\
        ev = instance_at day (dt_time dt) (select_event r)).
Proof.
  unfold get_schedule_by_date_range. rewrite expand_loop_days.
  destruct (days_loop _ _ _) as [days|]; [|discriminate].
  cbn [mbind result_bind bind]. intros [= <-] ev Hev.
  apply sort_by_In, in_app_or in Hev. destruct Hev as [Hev|Hev].
  - left. apply in_select_non_recurring in Hev.
    destruct Hev as (r & Hr & _ & Ho & ->). eauto.
  - right. apply in_flat_map in Hev. destruct Hev as (day & _ & Hev).
    apply in_instances_on in Hev. destruct Hev as (e' & He' & Hev).
    apply in_select_recurring in He'. destruct He' as (r & Hr & Hrec & ->).
    apply in_instance_for in Hev. destruct Hev as (_ & st & dt & Hst & Hdt & ->).
    exists r, day, st, dt. auto.
Qed.

(** C8.  A recurring row whose start_time does not parse changes
    nothing: each query over the table with the row equals the query over
    the table without it, raising or returning alike, so the occurrences
    of the other rows are all produced; and with unique ids no returned
    tuple carries the id of such a row. *)
Theorem C8_unparseable_recurring_skipped rows1 r rows2 n :
  is_recurring r = Some 1 ->
  start_time r ≫= fromisoformat = None ->
  let with_r := mkDb (rows1 ++ r :: rows2) n in
  let without_r := mkDb (rows1 ++ rows2) n in
  (forall start_date end_date,
     get_schedule_by_date_range with_r start_date end_date =
     get_schedule_by_date_range without_r start_date end_date) /\
  (forall year month,
     get_schedule_by_month with_r year month =
     get_schedule_by_month without_r year month) /\
  (forall today limit,
     get_today_schedule_full with_r today limit =
     get_today_schedule_full without_r today limit) /\
  (forall today limit,
     get_today_schedule with_r today limit =
     get_today_schedule without_r today limit) /\
  (NoDup (map id (rows with_r)) ->
   forall start_date end_date events,
     get_schedule_by_date_range with_r start_date end_date = Ok events ->
     forall ev, In ev events -> ev_id ev <> id r).
Proof.
  intros Hrec Hbad with_r without_r.
  split; [|split; [|split; [|split]]].
  - intros s e. unfold get_schedule_by_date_range.
    rewrite (select_non_recurring_same rows1 rows2 r n Hrec).
    rewrite (expand_loop_ext _ _ _ _ (instances_on_same rows1 rows2 r n Hbad)).
    reflexivity.
  - intros y m. unfold get_schedule_by_month.
    destruct (if m =? 12 then _ else _) as [[f l]|]; [|reflexivity].
    cbn [mbind result_bind bind fst snd].
    rewrite (select_non_recurring_same rows1 rows2 r n Hrec).
    rewrite (expand_loop_ext _ _ _ _ (instances_on_same rows1 rows2 r n Hbad)).
    reflexivity.
  - intros today limit. unfold get_today_schedule_full, today_events.
    rewrite (select_non_recurring_same rows1 rows2 r n Hrec).
    rewrite (instances_on_same rows1 rows2 r n Hbad). reflexivity.
  - intros today limit. unfold get_today_schedule.
    rewrite (today_pairs_same rows1 rows2 r n Hrec Hbad). reflexivity.
  - intros Hids s e events E ev Hev Hid.
    assert (Hr : In r (rows with_r)) by (apply in_or_app; right; left; reflexivity).
    destruct (range_events_ids _ _ _ _ E ev Hev)
      as [(r' & Hr' & Ho & ->)|(r' & day & st & dt & Hr' & _ & Hst & Hdt & ->)];
      simpl in Hid; apply (id_inj _ _ _ Hids Hr' Hr) in Hid; subst r'.
    + destruct Ho as (_ & [Ho|Ho]); congruence.
    + rewrite Hst in Hbad. simpl in Hbad. congruence.
Qed.

End RangeEventsIds.

Lemma C8_witness :
  get_schedule_by_date_range example_db (jan 1) (jan 7) =
  get_schedule_by_date_range
    (mkDb [mkRow 1 "Standup" (Some "2024-01-01T09:00:00") 0 (Some "local") None
                 (Some 1) (Some "0,2,4") (Some "medium");
           mkRow 2 "Dentist" (Some "2024-01-03T08:30:00") 0 (Some "local") None
                 (Some 0) None (Some "medium");
           mkRow 3 "Lunch" (Some "2024-01-03T14:00:00") 0 (Some "local") None
                 None None (Some "medium")] 4)
    (jan 1) (jan 7).
Proof.
  exact (proj1 (C8_unparseable_recurring_skipped
                  [mkRow 1 "Standup" (Some "2024-01-01T09:00:00") 0 (Some "local")
                         None (Some 1) (Some "0,2,4") (Some "medium");
                   mkRow 2 "Dentist" (Some "2024-01-03T08:30:00") 0 (Some "local")
                         None (Some 0) None (Some "medium");
                   mkRow 3 "Lunch" (Some "2024-01-03T14:00:00") 0 (Some "local")
                         None None None (Some "medium")]
                  (mkRow 4 "Broken" (Some "soon") 0 (Some "local") None
                         (Some 1) (Some "2") (Some "medium"))
                  [] 4 eq_refl eq_refl)
               (jan 1) (jan 7)).
Defined.

(** ** Today's schedule *)

Section Today.

Context {lib : Library}.

Lemma slice_to_nonneg {A} (l : list A) limit :
  0 <= limit -> slice_to l limit = firstn (Z.to_nat limit) l.
Proof.
  intros H. unfold slice_to. destruct (Z.ltb_spec limit 0); [lia|reflexivity].
Qed.

Lemma today_pairs_events d today :
  today_pairs d today = map title_time (today_events d today).
Proof.
  unfold today_pairs, today_events, select_non_recurring.
  rewrite List.map_app. f_equal.
  rewrite (sort_by_map title_time sort_key pair_key) by reflexivity.
  rewrite map_map. reflexivity.
Qed.

(** Between a text and itself lies that text only. *)
Lemma range_test_same today ds :
  range_test today today ds = String.eqb (str_date today) ds.
Proof.
  unfold range_test, str_leb. apply eq_true_iff_eq.
  rewrite andb_true_iff, String.eqb_eq. split.
  - intros [H1 H2]. apply String.leb_antisym; assumption.
  - intros <-. split; apply str_leb_refl.
Qed.

Lemma today_test_range today r :
  date_test (String.eqb (str_date today)) r = date_test (range_test today today) r.
Proof.
  unfold date_test. destruct (start_time r) as [st|]; [|reflexivity].
  destruct (sqlite_date st) as [ds|]; [|reflexivity].
  symmetry. apply range_test_same.
Qed.

Lemma filter_ext_in {A} (p q : A -> bool) l :
  (forall x, p x = q x) -> List.filter p l = List.filter q l.
Proof.
  intros H. induction l as [|x l IH]; simpl; [reflexivity|].
  rewrite H, IH. reflexivity.
Qed.

(** Today's merged list is the one the single-day range query sorts. *)
Lemma today_is_single_day_range d today :
  valid_date today = true -> date_lt today date_max ->
  get_schedule_by_date_range d today today =
  Ok (sort_by sort_key (today_events d today)).
Proof.
  intros Hv Hmax.
  destruct (next_day_spec today date_max Hv eq_refl Hmax) as (nx & En & _ & Hlt & _).
  unfold get_schedule_by_date_range, loop_bound.
  replace (Z.to_nat (rank today - rank today + 1)) with 1%nat by lia.
  cbn [expand_loop].
  replace (date_leb today today) with true
    by (symmetry; apply date_leb_le; right; reflexivity).
  rewrite En. cbn [mbind result_bind bind].
  replace (date_leb nx today) with false
    by (symmetry; apply date_leb_false; exact Hlt).
  cbn [mbind result_bind bind]. unfold today_events, select_non_recurring.
  rewrite (filter_ext_in
    (fun r => date_test (String.eqb (str_date today)) r && one_shot r)
    (fun r => date_test (range_test today today) r && one_shot r));
    [reflexivity|].
  intros r. rewrite (today_test_range today r). reflexivity.
Qed.

End Today.

Section TruncateAfterSort.

Context {lib : Library}.

(** C9.  With a limit [N >= 0] both today queries return the first [N]
    entries of the sorted merged list of today's one-shot and recurring
    occurrences: the list is sorted whole, then cut, so every returned
    entry sorts no later than every entry left out.  The sorted list is
    the one the range query returns for the single day. *)
Theorem C9_truncate_after_sort d today limit :
  0 <= limit ->
  let full := sort_by sort_key (today_events d today) in
  get_today_schedule_full d today limit = firstn (Z.to_nat limit) full /\
  get_today_schedule d today limit = firstn (Z.to_nat limit) (map title_time full) /\
  Permutation full (today_events d today) /\
  StronglySorted (key_le sort_key) full /\
  (forall a b,
     In a (get_today_schedule_full d today limit) ->
     In b (skipn (Z.to_nat limit) full) -> key_le sort_key a b) /\
  (valid_date today = true -> date_lt today date_max ->
   get_schedule_by_date_range d today today = Ok full).
Proof.
  intros Hl full.
  assert (E1 : get_today_schedule_full d today limit = firstn (Z.to_nat limit) full)
    by (apply slice_to_nonneg, Hl).
  split; [exact E1|]. split; [|split; [|split; [|split]]].
  - unfold get_today_schedule. rewrite slice_to_nonneg by exact Hl.
    rewrite today_pairs_events.
    rewrite <- (sort_by_map title_time sort_key pair_key) by reflexivity.
    reflexivity.
  - apply sort_by_perm.
  - apply sort_by_sorted.
  - intros a b Ha Hb. rewrite E1 in Ha.
    eapply sorted_firstn_skipn; [apply sort_by_sorted|exact Ha|exact Hb].
  - apply today_is_single_day_range.
Qed.

End TruncateAfterSort.

Lemma C9_witness :
  0 <= 2 /\
  get_today_schedule example_db (jan 3) 2 =
    [("Dentist", Some "2024-01-03T08:30:00"); ("Standup", Some "2024-01-03T09:00:00")].
Proof.
  assert (H : 0 <= 2) by lia. split; [exact H|].
  exact (proj1 (proj2 (C9_truncate_after_sort example_db (jan 3) 2 H))).
Defined.

(** ** Adding a schedule item *)

Section AddScheduleItem.

(** C10.  [add_schedule_item] raises [ValueError] for a task without a
    start_time (None or the empty string) and then hands no table back,
    the stored rows stay as they were; for a task with a start_time it
    appends exactly one row, with the next id and the fields of the
    task, and that id is new when the counter bounds the ids in use. *)
Theorem C10_add_schedule_item d task :
  (task_start_time task = None \/ task_start_time task = Some "" ->
   add_schedule_item d task = Raise ValueError) /\
  (forall c s,
     task_start_time task = Some (String c s) ->
     exists r,
       add_schedule_item d task = Ok (mkDb (rows d ++ [r]) (seq d + 1)) /\
       r = mkRow (seq d + 1) (task_title task) (Some (String c s))
                 (int_of_bool (task_completed task)) (task_source task)
                 (task_event_id task) (Some (int_of_bool (task_is_recurring task)))
                 (task_repeat_days task) (task_priority task) /\
       ((forall r', In r' (rows d) -> id r' <= seq d) ->
        ~ In (id r) (map id (rows d)))).
Proof.
  split.
  - intros [H|H]; unfold add_schedule_item; rewrite H; reflexivity.
  - intros c s H. eexists. split; [|split; [reflexivity|]].
    + unfold add_schedule_item, add_task. rewrite H. reflexivity.
    + intros Hb Hi. apply in_map_iff in Hi. destruct Hi as (r' & E & Hr').
      apply Hb in Hr'. simpl in E. lia.
Qed.

End AddScheduleItem.

Lemma C10_witness :
  add_schedule_item example_db (new_task "Call" None) = Raise ValueError /\
  exists r,
    add_schedule_item example_db (new_task "Call" (Some "2024-01-03T10:00:00")) =
      Ok (mkDb (rows example_db ++ [r]) 5) /\
    title r = "Call".
Proof.
  split.
  - exact (proj1 (C10_add_schedule_item example_db (new_task "Call" None))
             (or_introl eq_refl)).
  - destruct (proj2 (C10_add_schedule_item example_db
                       (new_task "Call" (Some "2024-01-03T10:00:00")))
                    _ _ eq_refl) as (r & E & Er & _).
    exists r. split; [exact E|]. rewrite Er. reflexivity.
Defined.

(** C4 as stated fails on the popup: at 14:00 on 3 January "Lunch" is in
    the way, and what [create_event_from_popup] answers is the fixed
    message, which carries no title. *)
Lemma C4_counterexample :
  In (mkEvent 3 "Lunch" (Some "2024-01-03T14:00:00") (Some "local") 0 None None None)
     (match get_schedule_by_date_range example_db (jan 3) (jan 3) with
      | Ok existing => existing
      | Raise _ => []
      end) /\
  create_event_from_popup example_db "Call" (mkDatetime (jan 3) (mkTime 14 0 0 0))
      false [] =
    ErrorPopup
      "An event already exists at this date and time. Please choose a different time.".
Proof. split; [right; right; left; reflexivity|reflexivity]. Qed.

(** ** Worked examples *)

Section Examples.

(** A stand-up on Monday, Wednesday and Friday, asked for the week of
    Monday 1 January 2024, with the one-shot events of the Wednesday. *)
Example week_of_january :
  start_times (get_schedule_by_date_range example_db (jan 1) (jan 7)) =
  [Some "2024-01-01T09:00:00"; Some "2024-01-03T08:30:00";
   Some "2024-01-03T09:00:00"; Some "2024-01-03T14:00:00";
   Some "2024-01-05T09:00:00"].
Proof. reflexivity. Qed.

(** Anchored on a Wednesday, repeating on Monday and Wednesday: four
    occurrences in fourteen days. *)
Example fortnight :
  start_times (get_schedule_by_date_range
                 (mkDb [weekly 1 "Review" "2024-01-03T10:15:00" "0,2"] 1)
                 (jan 1) (jan 14)) =
  [Some "2024-01-01T10:15:00"; Some "2024-01-03T10:15:00";
   Some "2024-01-08T10:15:00"; Some "2024-01-10T10:15:00"].
Proof. reflexivity. Qed.

(** Sundays across the end of a month. *)
Example across_months :
  start_times (get_schedule_by_date_range
                 (mkDb [weekly 1 "Call home" "2023-12-31T18:00:00" "6"] 1)
                 (jan 28) (mkDate 2024 2 4)) =
  [Some "2024-01-28T18:00:00"; Some "2024-02-04T18:00:00"].
Proof. reflexivity. Qed.

(** The anchor day itself is left out when its weekday is not listed:
    Monday 1 January, repeating on Tuesdays. *)
Example anchor_not_listed :
  start_times (get_schedule_by_date_range
                 (mkDb [weekly 1 "Gym" "2024-01-01T07:00:00" "1"] 1)
                 (jan 1) (jan 7)) =
  [Some "2024-01-02T07:00:00"].
Proof. reflexivity. Qed.

(** February 2024 through the month query: the recurring stand-up only. *)
Example february :
  length (start_times (get_schedule_by_month example_db 2024 2)) = 12%nat.
Proof. reflexivity. Qed.

(** At [date.max] the last step of the loop overflows. *)
Example range_to_last_day :
  get_schedule_by_date_range example_db date_max date_max = Raise OverflowError.
Proof. reflexivity. Qed.

Example december_9999 :
  get_schedule_by_month example_db 9999 12 = Raise ValueError.
Proof. reflexivity. Qed.

Example today_cut_to_two :
  map ev_title (get_today_schedule_full example_db (jan 3) 2) = ["Dentist"; "Standup"].
Proof. reflexivity. Qed.

End Examples.


(** * Deleting, completing and looking up rows *)

Section FilterFacts.

Context {A : Type} (key : A -> string) (q : A -> bool).

Lemma insert_by_first x l :
  (forall y, In y l -> key_le key x y) -> insert_by key x l = x :: l.
Proof.
  destruct l as [|y l]; simpl; [reflexivity|]. intros H.
  rewrite (H y (or_introl eq_refl)). reflexivity.
Qed.

Lemma filter_insert_by x l :
  StronglySorted (key_le key) l ->
  List.filter q (insert_by key x l) =
  if q x then insert_by key x (List.filter q l) else List.filter q l.
Proof.
  induction 1 as [|y l Hs IH Hy].
  - simpl. destruct (q x); reflexivity.
  - cbn [insert_by]. destruct (str_leb (key x) (key y)) eqn:E.
    + cbn [List.filter]. destruct (q x) eqn:Ex; [|reflexivity].
      symmetry. apply insert_by_first. intros z Hz.
      assert (Hin : In z (y :: l)).
      { destruct (q y); [|right; eapply filter_In, Hz].
        destruct Hz as [<-|Hz]; [left; reflexivity|right; eapply filter_In, Hz]. }
      destruct Hin as [<-|Hin]; [exact E|].
      rewrite List.Forall_forall in Hy. eapply str_leb_trans; [exact E|apply Hy, Hin].
    + cbn [List.filter]. rewrite IH. destruct (q y), (q x); try reflexivity.
      cbn [insert_by]. rewrite E. reflexivity.
Qed.

(** Filtering commutes with the stable sort. *)
Lemma filter_sort_by l :
  List.filter q (sort_by key l) = sort_by key (List.filter q l).
Proof.
  induction l as [|x l IH]; [reflexivity|].
  change (sort_by key (x :: l)) with (insert_by key x (sort_by key l)).
  rewrite filter_insert_by by apply sort_by_sorted.
  rewrite IH. simpl. destruct (q x); reflexivity.
Qed.

End FilterFacts.

Section Removal.

Context {lib : Library}.

Variable i : Z.


Lemma filter_filter_comm {A} (p q : A -> bool) l :
  List.filter p (List.filter q l) = List.filter q (List.filter p l).
Proof.
  induction l as [|x l IH]; simpl; [reflexivity|].
  destruct (p x) eqn:Ep, (q x) eqn:Eq; simpl; rewrite ?Ep, ?Eq, IH; reflexivity.
Qed.

Lemma filter_map_select p (l : list row) :
  (forall r, p (select_event r) = other_row i r) ->
  List.filter p (map select_event l) = map select_event (List.filter (other_row i) l).
Proof.
  intros H. induction l as [|r l IH]; simpl; [reflexivity|].
  rewrite H, IH. destruct (other_row i r); reflexivity.
Qed.

Lemma instances_on_without day rec :
  instances_on day (List.filter (other_event i) rec) = List.filter (other_event i) (instances_on day rec).
Proof.
  unfold instances_on. induction rec as [|e rec IH]; simpl; [reflexivity|].
  rewrite List.filter_app, <- IH.
  assert (H : List.filter (other_event i) (instance_for day e) =
              if (other_event i) e then instance_for day e else []).
  { unfold instance_for. destruct (repeats_on _ _); [|destruct (other_event i e); reflexivity].
    destruct (ev_start_time e ≫= fromisoformat); [|destruct (other_event i e); reflexivity].
    simpl. unfold other_event at 1. simpl. fold (other_event i e). destruct (other_event i e); reflexivity. }
  rewrite H. destruct (other_event i e); reflexivity.
Qed.

Lemma expand_loop_without fuel continue rec : forall cur evs,
  expand_loop fuel continue cur (List.filter (other_event i) rec) (List.filter (other_event i) evs) =
  map_result (List.filter (other_event i)) (expand_loop fuel continue cur rec evs).
Proof.
  induction fuel as [|fuel IH]; intros cur evs; simpl; [reflexivity|].
  destruct (continue cur); [|reflexivity].
  destruct (next_day cur) as [n|e]; simpl; [|reflexivity].
  rewrite <- IH, List.filter_app, instances_on_without. reflexivity.
Qed.

Lemma select_non_recurring_without test rs n n' :
  select_non_recurring test (mkDb (List.filter (other_row i) rs) n) =
  List.filter (other_event i) (select_non_recurring test (mkDb rs n')).
Proof.
  unfold select_non_recurring. simpl. rewrite filter_sort_by. f_equal.
  rewrite (filter_map_select (other_event i)) by reflexivity. f_equal.
  apply filter_filter_comm.
Qed.

Lemma select_recurring_without rs n n' :
  select_recurring (mkDb (List.filter (other_row i) rs) n) =
  List.filter (other_event i) (select_recurring (mkDb rs n')).
Proof.
  unfold select_recurring. simpl.
  rewrite (filter_map_select (other_event i)) by reflexivity. f_equal.
  apply filter_filter_comm.
Qed.

Lemma range_without rs n n' s e :
  get_schedule_by_date_range (mkDb (List.filter (other_row i) rs) n) s e =
  map_result (without_id i) (get_schedule_by_date_range (mkDb rs n') s e).
Proof.
  unfold get_schedule_by_date_range.
  rewrite (select_non_recurring_without _ rs n n'), (select_recurring_without rs n n').
  rewrite expand_loop_without.
  destruct (expand_loop _ _ _ _ _) as [l|x]; simpl; [|reflexivity].
  unfold without_id. rewrite filter_sort_by. reflexivity.
Qed.

End Removal.


Section RemovalQueries.

Context {lib : Library}.

Variable i : Z.

Lemma month_without rs n n' y m :
  get_schedule_by_month (mkDb (List.filter (other_row i) rs) n) y m =
  map_result (without_id i) (get_schedule_by_month (mkDb rs n') y m).
Proof.
  unfold get_schedule_by_month.
  destruct (if m =? 12 then _ else _) as [[f l]|x]; [|reflexivity].
  cbn [mbind result_bind bind fst snd].
  rewrite (select_non_recurring_without i _ rs n n'), (select_recurring_without i rs n n').
  rewrite expand_loop_without.
  destruct (expand_loop _ _ _ _ _) as [l'|x]; simpl; [|reflexivity].
  unfold without_id. rewrite filter_sort_by. reflexivity.
Qed.

Lemma find_other (rs : list row) j :
  j <> i ->
  find (fun r => id r =? j) (List.filter (other_row i) rs) =
  find (fun r => id r =? j) rs.
Proof.
  intros Hj. induction rs as [|r rs IH]; simpl; [reflexivity|].
  unfold other_row at 1. destruct (Z.eqb_spec (id r) i) as [E|E]; simpl.
  - destruct (Z.eqb_spec (id r) j); [lia|exact IH].
  - rewrite IH. reflexivity.
Qed.

Lemma find_removed (rs : list row) :
  find (fun r => id r =? i) (List.filter (other_row i) rs) = None.
Proof.
  induction rs as [|r rs IH]; simpl; [reflexivity|].
  unfold other_row at 1. destruct (Z.eqb_spec (id r) i) as [E|E]; simpl; [exact IH|].
  destruct (Z.eqb_spec (id r) i); [contradiction|exact IH].
Qed.

End RemovalQueries.

Section DeleteTaskLookup.

Context {lib : Library}.

(** [delete_task] reports whether a row had the id; afterwards
    [get_schedule_item_by_id] finds nothing under that id and answers as
    before for every other id. *)
Theorem delete_task_lookup d task_id :
  (snd (delete_task d task_id) = true <->
   exists r, In r (rows d) /\ id r = task_id) /\
  get_schedule_item_by_id (fst (delete_task d task_id)) task_id = None /\
  (forall j, j <> task_id ->
     get_schedule_item_by_id (fst (delete_task d task_id)) j =
     get_schedule_item_by_id d j).
Proof.
  split; [|split].
  - simpl. rewrite existsb_exists. split.
    + intros (r & Hr & E). exists r. split; [exact Hr|]. apply Z.eqb_eq, E.
    + intros (r & Hr & E). exists r. split; [exact Hr|]. apply Z.eqb_eq, E.
  - unfold get_schedule_item_by_id. simpl.
    rewrite (find_removed task_id). reflexivity.
  - intros j Hj. unfold get_schedule_item_by_id. simpl.
    rewrite (find_other task_id) by exact Hj. reflexivity.
Qed.

(** After [delete_task] the range query and the month query return what
    they returned before with the tuples of the deleted row taken out:
    the row's own tuple and every occurrence expanded from it go, the
    rest stays, in the same order; a query that raised raises the same
    exception. *)
Theorem delete_task_schedule d task_id :
  (forall start_date end_date,
     get_schedule_by_date_range (fst (delete_task d task_id)) start_date end_date =
     map_result (without_id task_id)
                (get_schedule_by_date_range d start_date end_date)) /\
  (forall year month,
     get_schedule_by_month (fst (delete_task d task_id)) year month =
     map_result (without_id task_id) (get_schedule_by_month d year month)).
Proof.
  destruct d as [rs n]. split.
  - intros s e. apply (range_without task_id rs n n s e).
  - intros y m. apply (month_without task_id rs n n y m).
Qed.

End DeleteTaskLookup.


Section Completion.

Context {lib : Library}.

Variable i : Z.

Lemma filter_toggled (P : row -> bool) rs n :
  (forall r, id r = i -> completed r <> 0 -> P r = false) ->
  (forall r, In r rs -> id r = i -> completed r = 0) ->
  List.filter P (rows (fst (toggle_task_completion (mkDb rs n) i))) =
  List.filter P (List.filter (other_row i) rs).
Proof.
  intros HP. simpl. induction rs as [|r rs IH]; intros H; simpl; [reflexivity|].
  unfold other_row at 1. destruct (Z.eqb_spec (id r) i) as [E|E]; simpl.
  - rewrite HP; [apply IH; intros; apply H; simpl; auto|exact E|].
    simpl. rewrite (H r (or_introl eq_refl) E). discriminate.
  - rewrite IH by (intros; apply H; simpl; auto). reflexivity.
Qed.

Lemma one_shot_completed test r :
  completed r <> 0 -> date_test test r && one_shot r = false.
Proof.
  intros H. unfold one_shot. destruct (Z.eqb_spec (completed r) 0); [contradiction|].
  simpl. apply andb_false_r.
Qed.

Lemma recurring_row_completed r : completed r <> 0 -> recurring_row r = false.
Proof.
  intros H. unfold recurring_row.
  destruct (start_time r), (is_recurring r), (repeat_days r); try reflexivity.
  destruct (Z.eqb_spec (completed r) 0); [contradiction|apply andb_false_r].
Qed.

Lemma toggled_like_deleted d :
  (forall r, In r (rows d) -> id r = i -> completed r = 0) ->
  (forall test,
     select_non_recurring test (fst (toggle_task_completion d i)) =
     select_non_recurring test (fst (delete_task d i))) /\
  select_recurring (fst (toggle_task_completion d i)) =
  select_recurring (fst (delete_task d i)).
Proof.
  destruct d as [rs n]. intros H. split.
  - intros test. unfold select_non_recurring. do 2 f_equal.
    rewrite (filter_toggled _ rs n); [reflexivity| |exact H].
    intros r _ Hc. apply one_shot_completed, Hc.
  - unfold select_recurring. f_equal.
    rewrite (filter_toggled _ rs n); [reflexivity| |exact H].
    intros r _ Hc. apply recurring_row_completed, Hc.
Qed.

End Completion.

Section CompleteHidesEvent.

Context {lib : Library}.

(** Marking an open event complete takes it out of the schedule exactly
    as deleting it would: the range and month queries return what they
    returned before without the tuples of that row. *)
Theorem complete_hides_event d task_id :
  (forall r, In r (rows d) -> id r = task_id -> completed r = 0) ->
  (forall start_date end_date,
     get_schedule_by_date_range (fst (toggle_task_completion d task_id))
                                start_date end_date =
     map_result (without_id task_id)
                (get_schedule_by_date_range d start_date end_date)) /\
  (forall year month,
     get_schedule_by_month (fst (toggle_task_completion d task_id)) year month =
     map_result (without_id task_id) (get_schedule_by_month d year month)).
Proof.
  intros H. destruct (toggled_like_deleted task_id d H) as [Hn Hr].
  destruct d as [rs n]. split.
  - intros s e. rewrite <- (range_without task_id rs n n s e).
    unfold get_schedule_by_date_range. cbv zeta. rewrite Hn, Hr. reflexivity.
  - intros y m. rewrite <- (month_without task_id rs n n y m).
    unfold get_schedule_by_month. cbv zeta. rewrite Hr.
    destruct (if m =? 12 then _ else _) as [[f l]|x]; [|reflexivity].
    cbn [mbind result_bind bind fst snd]. rewrite Hn. reflexivity.
Qed.

End CompleteHidesEvent.

Lemma complete_hides_event_witness :
  (forall r, In r (rows example_db) -> id r = 2 -> completed r = 0) /\
  get_schedule_by_date_range (fst (toggle_task_completion example_db 2))
                             (jan 3) (jan 3) =
  Ok [mkEvent 1 "Standup" (Some "2024-01-03T09:00:00") (Some "local") 0 None
              (Some 1) (Some "0,2,4");
      mkEvent 3 "Lunch" (Some "2024-01-03T14:00:00") (Some "local") 0 None
              None None].
Proof.
  assert (H : forall r, In r (rows example_db) -> id r = 2 -> completed r = 0).
  { intros r Hr _. simpl in Hr.
    destruct Hr as [<-|[<-|[<-|[<-|[]]]]]; reflexivity. }
  split; [exact H|].
  exact (proj1 (complete_hides_event example_db 2 H) (jan 3) (jan 3)).
Defined.

Section ToggleTwice.

(** Toggling the completion of a row twice leaves the table as it was,
    when the row's flag is 0 or 1 (what [add_task] writes). *)
Theorem toggle_twice d task_id :
  (forall r, In r (rows d) -> id r = task_id -> completed r = 0 \/ completed r = 1) ->
  fst (toggle_task_completion (fst (toggle_task_completion d task_id)) task_id) = d.
Proof.
  destruct d as [rs n]. intros H. unfold toggle_task_completion. simpl. f_equal.
  rewrite map_map. rewrite <- (map_id rs) at 2. apply map_ext_in.
  intros r Hr. destruct (Z.eqb_spec (id r) task_id) as [E|E]; simpl.
  - rewrite E, Z.eqb_refl. destruct (H _ Hr E) as [Hc|Hc];
      destruct r as [a b c cm e f g h p]; simpl in *; subst a cm; reflexivity.
  - destruct (Z.eqb_spec (id r) task_id); [contradiction|reflexivity].
Qed.

End ToggleTwice.

Lemma toggle_twice_witness :
  (forall r, In r (rows example_db) -> id r = 3 ->
             completed r = 0 \/ completed r = 1) /\
  fst (toggle_task_completion (fst (toggle_task_completion example_db 3)) 3) =
  example_db.
Proof.
  assert (H : forall r, In r (rows example_db) -> id r = 3 ->
                        completed r = 0 \/ completed r = 1).
  { intros r Hr _. simpl in Hr.
    destruct Hr as [<-|[<-|[<-|[<-|[]]]]]; left; reflexivity. }
  split; [exact H|]. exact (toggle_twice example_db 3 H).
Defined.


(** * The task list *)

Section OrderBy.

Context {A : Type} (leb : A -> A -> bool).

Lemma insert_row_perm x l : Permutation (insert_row leb x l) (x :: l).
Proof.
  induction l as [|y l IH]; simpl; [reflexivity|].
  destruct (leb x y); [reflexivity|].
  rewrite IH. apply perm_swap.
Qed.

Lemma order_by_perm l : Permutation (order_by leb l) l.
Proof.
  induction l as [|x l IH]; simpl; [reflexivity|].
  rewrite insert_row_perm, IH. reflexivity.
Qed.

Lemma order_by_In x l : In x (order_by leb l) <-> In x l.
Proof.
  split; apply Permutation_in; [|symmetry]; apply order_by_perm.
Qed.

Variable R : A -> A -> Prop.
Variable Q : A -> Prop.
Hypothesis leb_R : forall a b, Q a -> Q b -> leb a b = true -> R a b.
Hypothesis leb_total : forall a b, Q a -> Q b -> leb a b = false -> R b a.
Hypothesis R_trans : forall a b c, Q a -> Q b -> Q c -> R a b -> R b c -> R a c.

Lemma insert_row_sorted x l :
  Q x -> Forall Q l -> StronglySorted R l -> StronglySorted R (insert_row leb x l).
Proof.
  intros Hx Hq Hs. induction Hs as [|y l Hs IH Hy]; simpl.
  - repeat constructor.
  - apply Forall_cons_iff in Hq. destruct Hq as [Qy Ql].
    destruct (leb x y) eqn:E.
    + constructor; [constructor; assumption|].
      constructor; [apply leb_R; assumption|].
      rewrite List.Forall_forall in *. intros z Hz.
      apply (R_trans x y z);
        [exact Hx|exact Qy|apply Ql, Hz|apply leb_R; assumption|apply Hy, Hz].
    + constructor; [apply IH, Ql|].
      rewrite List.Forall_forall in *. intros z Hz.
      apply (Permutation_in _ (insert_row_perm x l)) in Hz.
      destruct Hz as [<-|Hz]; [apply leb_total; assumption|apply Hy, Hz].
Qed.

Lemma order_by_sorted l : Forall Q l -> StronglySorted R (order_by leb l).
Proof.
  induction l as [|x l IH]; simpl; intros H; [constructor|].
  apply Forall_cons_iff in H. destruct H as [Hx Hl].
  apply insert_row_sorted; [exact Hx| |apply IH, Hl].
  rewrite List.Forall_forall in *. intros z Hz. apply Hl, order_by_In, Hz.
Qed.

End OrderBy.

Section SortedMap.

Lemma sorted_map {A B} (f : A -> B) (R : B -> B -> Prop) l :
  StronglySorted (fun a b => R (f a) (f b)) l -> StronglySorted R (map f l).
Proof.
  induction 1 as [|x l Hs IH Hx]; simpl; constructor; [exact IH|].
  rewrite List.Forall_forall in *. intros y Hy. apply in_map_iff in Hy.
  destruct Hy as (z & <- & Hz). apply Hx, Hz.
Qed.

Lemma priority_order a b :
  known_priority (priority a) -> known_priority (priority b) ->
  (priority_desc_id_desc a b = true -> listed_before (select_task a) (select_task b)) /\
  (priority_desc_id_desc a b = false -> listed_before (select_task b) (select_task a)).
Proof.
  unfold known_priority, priority_desc_id_desc, listed_before. simpl.
  intros [Ha|[Ha|Ha]] [Hb|[Hb|Hb]]; rewrite Ha, Hb; cbn;
    (split; intros H; try discriminate; try (left; lia));
    right; (split; [reflexivity|]);
    first [apply Z.leb_le in H|apply Z.leb_gt in H]; lia.
Qed.

Lemma listed_before_trans a b c :
  listed_before a b -> listed_before b c -> listed_before a c.
Proof.
  unfold listed_before. intros [H1|[E1 H1]] [H2|[E2 H2]].
  - left. lia.
  - left. rewrite <- E2. exact H1.
  - left. rewrite E1. exact H2.
  - right. split; [congruence|lia].
Qed.

Lemma tasks_by_status_In d completed_flag t :
  In t (get_tasks_by_status d completed_flag None) <->
  exists r, In r (rows d) /\ completed r = int_of_bool completed_flag /\
            start_time r = None /\ t = select_task r.
Proof.
  unfold get_tasks_by_status, sql_limit. rewrite in_map_iff. split.
  - intros (r & <- & Hr). apply order_by_In, filter_In in Hr.
    destruct Hr as (Hr & Hc). apply andb_true_iff in Hc. destruct Hc as [Hc Hs].
    exists r. split; [exact Hr|]. split; [apply Z.eqb_eq, Hc|].
    split; [|reflexivity]. destruct (start_time r); [discriminate|reflexivity].
  - intros (r & Hr & Hc & Hs & ->). exists r. split; [reflexivity|].
    apply order_by_In, filter_In. split; [exact Hr|].
    rewrite Hc, Hs, Z.eqb_refl. reflexivity.
Qed.

(** [get_tasks_by_status] without a limit lists exactly the rows with
    the given completion flag and no start_time.  When every priority is
    one of high, medium and low, the medium tasks come first, then the
    low ones, then the high ones (the priorities are ordered as text,
    descending), and within one priority the later row comes first.  A
    positive limit cuts this list; a limit of 0 or below returns all of
    it. *)
Theorem tasks_by_status_listing d completed_flag :
  let listing := get_tasks_by_status d completed_flag None in
  (forall t, In t listing <->
     exists r, In r (rows d) /\ completed r = int_of_bool completed_flag /\
               start_time r = None /\ t = select_task r) /\
  ((forall r, In r (rows d) -> known_priority (priority r)) ->
   StronglySorted listed_before listing) /\
  (forall n, 0 < n ->
     get_tasks_by_status d completed_flag (Some n) = firstn (Z.to_nat n) listing) /\
  (forall n, n <= 0 -> get_tasks_by_status d completed_flag (Some n) = listing).
Proof.
  intros listing. split; [|split; [|split]].
  - intros t. apply tasks_by_status_In.
  - intros Hk. unfold listing, get_tasks_by_status, sql_limit. apply sorted_map.
    apply (order_by_sorted priority_desc_id_desc _
             (fun r => known_priority (priority r))).
    + intros a b Ha Hb. apply priority_order; assumption.
    + intros a b Ha Hb. apply priority_order; assumption.
    + intros a b c _ _ _. apply listed_before_trans.
    + apply List.Forall_forall. intros r Hr. apply filter_In in Hr. apply Hk, Hr.
  - intros n Hn. unfold listing, get_tasks_by_status, sql_limit.
    destruct (Z.leb_spec n 0); [lia|reflexivity].
  - intros n Hn. unfold listing, get_tasks_by_status, sql_limit.
    destruct (Z.leb_spec n 0); [reflexivity|lia].
Qed.

Lemma task_db_priorities r : In r (rows task_db) -> known_priority (priority r).
Proof.
  simpl. unfold known_priority.
  intros [<-|[<-|[<-|[<-|[<-|[<-|[]]]]]]]; simpl; auto.
Qed.

End SortedMap.

Lemma tasks_by_status_listing_witness :
  (forall r, In r (rows task_db) -> known_priority (priority r)) /\
  StronglySorted listed_before (get_tasks_by_status task_db false None) /\
  get_tasks_by_status task_db false (Some 0) = get_tasks_by_status task_db false None.
Proof.
  split; [exact task_db_priorities|].
  pose proof (tasks_by_status_listing task_db false) as H.
  split; [exact (proj1 (proj2 H) task_db_priorities)|].
  apply (proj2 (proj2 (proj2 H))). lia.
Defined.

Section AllTasks.

Lemma sql_compare_antisym a b : sql_compare a b = CompOpp (sql_compare b a).
Proof.
  destruct a as [x|], b as [y|]; simpl; try reflexivity.
  apply String.compare_antisym.
Qed.

Lemma sql_compare_trans a b c :
  sql_compare a b <> Gt -> sql_compare b c <> Gt -> sql_compare a c <> Gt.
Proof.
  destruct a as [x|], b as [y|], c as [z|]; simpl; try congruence.
  apply compare_not_Gt_trans.
Qed.

End AllTasks.

Section GetAllTasksListing.

(** [get_all_tasks] returns one [Task] per row, rows without a
    start_time first and the others by start_time in ascending order.
    The stored priority is not read: every [Task] returned has the
    default priority, medium. *)
Theorem get_all_tasks_listing d :
  Permutation (get_all_tasks d) (map listed_task (rows d)) /\
  StronglySorted start_time_le (get_all_tasks d) /\
  (forall t, In t (get_all_tasks d) -> task_priority t = Some "medium").
Proof.
  split; [|split].
  - unfold get_all_tasks. apply Permutation_map, order_by_perm.
  - unfold get_all_tasks.
    apply (sorted_map listed_task start_time_le).
    apply (order_by_sorted start_time_asc _ (fun _ => True)).
    + intros a b _ _. unfold start_time_asc, start_time_le. simpl.
      destruct (sql_compare (start_time a) (start_time b)); congruence.
    + intros a b _ _. unfold start_time_asc, start_time_le. simpl.
      rewrite (sql_compare_antisym (start_time b)).
      destruct (sql_compare (start_time a) (start_time b)); simpl; congruence.
    + intros a b c _ _ _. unfold start_time_le. simpl. apply sql_compare_trans.
    + apply List.Forall_forall. intros; exact I.
  - intros t Ht. unfold get_all_tasks in Ht. apply in_map_iff in Ht.
    destruct Ht as (r & <- & _). reflexivity.
Qed.

End GetAllTasksListing.


(** * Lookups after a change *)

Section Lookup.

Lemma find_map_same (p : row -> bool) (f : row -> row) rs :
  (forall r, p (f r) = p r) ->
  find p (map f rs) = option_map f (find p rs).
Proof.
  intros H. induction rs as [|r rs IH]; simpl; [reflexivity|].
  rewrite H. destruct (p r); [reflexivity|exact IH].
Qed.

Lemma find_map_fixed (p : row -> bool) (f : row -> row) rs :
  (forall r, p (f r) = p r) -> (forall r, p r = true -> f r = r) ->
  find p (map f rs) = find p rs.
Proof.
  intros H Hf. induction rs as [|r rs IH]; simpl; [reflexivity|].
  rewrite H. destruct (p r) eqn:E; [rewrite Hf by exact E; reflexivity|exact IH].
Qed.

Lemma py_bool_int b : py_bool (Some (int_of_bool b)) = b.
Proof. destruct b; reflexivity. Qed.

Lemma find_app_fresh (p : row -> bool) rs r :
  (forall x, In x rs -> p x = false) -> find p (rs ++ [r]) = find p [r].
Proof.
  intros H. induction rs as [|x rs IH]; [reflexivity|]. simpl.
  rewrite (H x (or_introl eq_refl)). apply IH. intros y Hy. apply H. right. exact Hy.
Qed.

Lemma find_app_other (p : row -> bool) rs r :
  p r = false -> find p (rs ++ [r]) = find p rs.
Proof.
  intros H. induction rs as [|x rs IH]; simpl; [rewrite H; reflexivity|].
  destruct (p x); [reflexivity|exact IH].
Qed.

Lemma lookup_updated d task_id new_title new_start new_recurring new_repeat_days :
  get_schedule_item_by_id
    (update_task d task_id new_title new_start new_recurring new_repeat_days) task_id =
  updated_item new_title new_start new_recurring new_repeat_days
    <$> get_schedule_item_by_id d task_id.
Proof.
  unfold get_schedule_item_by_id, update_task. simpl.
  rewrite find_map_same
    by (intros r; destruct (id r =? task_id) eqn:E; simpl; exact E).
  destruct (find _ (rows d)) as [r|] eqn:E; [|reflexivity]. simpl.
  apply find_some in E. destruct E as [_ E]. rewrite E. simpl.
  unfold updated_item. simpl. f_equal. f_equal.
  destruct new_recurring as [b|]; [apply py_bool_int|reflexivity].
Qed.

End Lookup.

Section UpdateTaskLookup.

(** After [update_task] the row found under the id carries the values
    passed, and keeps its own where [None] was passed; source,
    completion flag and event id are never touched.  Every other id is
    answered as before. *)
Theorem update_task_lookup d task_id new_title new_start new_recurring new_repeat_days :
  get_schedule_item_by_id
    (update_task d task_id new_title new_start new_recurring new_repeat_days) task_id =
  updated_item new_title new_start new_recurring new_repeat_days
    <$> get_schedule_item_by_id d task_id /\
  (forall j, j <> task_id ->
     get_schedule_item_by_id
       (update_task d task_id new_title new_start new_recurring new_repeat_days) j =
     get_schedule_item_by_id d j).
Proof.
  split; [apply lookup_updated|].
  intros j Hj. unfold get_schedule_item_by_id, update_task. simpl.
  rewrite find_map_fixed; [reflexivity| |].
  - intros r. destruct (id r =? task_id); reflexivity.
  - intros r E. apply Z.eqb_eq in E.
    destruct (Z.eqb_spec (id r) task_id); [lia|reflexivity].
Qed.

(** When no id of the table is above the AUTOINCREMENT counter, the row
    [add_task] inserts is found under the next id with the task's
    fields, and every other id is answered as before. *)
Theorem add_task_lookup d task :
  (forall r, In r (rows d) -> id r <= seq d) ->
  get_schedule_item_by_id (add_task d task) (seq d + 1) =
    Some (item_of (row_of (seq d + 1) task)) /\
  (forall j, j <> seq d + 1 ->
     get_schedule_item_by_id (add_task d task) j = get_schedule_item_by_id d j).
Proof.
  intros H. split.
  - unfold get_schedule_item_by_id, add_task. cbn [rows].
    rewrite find_app_fresh.
    + simpl. rewrite Z.eqb_refl. reflexivity.
    + intros x Hx. apply H in Hx. apply Z.eqb_neq. lia.
  - intros j Hj. unfold get_schedule_item_by_id, add_task. cbn [rows].
    rewrite find_app_other; [reflexivity|]. simpl. apply Z.eqb_neq. lia.
Qed.

End UpdateTaskLookup.

Lemma add_task_lookup_witness :
  (forall r, In r (rows example_db) -> id r <= seq example_db) /\
  get_schedule_item_by_id
    (add_task example_db (new_task "Gym" (Some "2024-01-05T18:00:00"))) 5 =
  Some (mkItem 5 "Gym" (Some "2024-01-05T18:00:00") (Some "local") false None
               false None).
Proof.
  assert (H : forall r, In r (rows example_db) -> id r <= seq example_db).
  { intros r Hr. simpl in Hr.
    destruct Hr as [<-|[<-|[<-|[<-|[]]]]]; simpl; lia. }
  split; [exact H|].
  exact (proj1 (add_task_lookup example_db
                  (new_task "Gym" (Some "2024-01-05T18:00:00")) H)).
Defined.


(** * The table stays well formed *)

Section WellFormed.

Lemma well_formed_filter (p : row -> bool) rs n :
  well_formed (mkDb rs n) -> well_formed (mkDb (List.filter p rs) n).
Proof.
  intros [Hn Hs]. split; simpl in *.
  - apply NoDup_map_filter, Hn.
  - intros r Hr. apply filter_In in Hr. apply Hs, Hr.
Qed.

Lemma well_formed_map (f : row -> row) rs n :
  (forall r, id (f r) = id r) ->
  well_formed (mkDb rs n) -> well_formed (mkDb (map f rs) n).
Proof.
  intros Hf [Hn Hs]. split; simpl in *.
  - rewrite map_map. rewrite (map_ext _ id Hf). exact Hn.
  - intros r Hr. apply in_map_iff in Hr. destruct Hr as (x & <- & Hx).
    rewrite Hf. apply Hs, Hx.
Qed.

Lemma well_formed_add d task : well_formed d -> well_formed (add_task d task).
Proof.
  intros [Hn Hs]. split; simpl.
  - rewrite List.map_app. simpl. apply List.NoDup_app.
    + exact Hn.
    + repeat constructor. simpl. tauto.
    + intros x Hx [<-|[]]. apply in_map_iff in Hx.
      destruct Hx as (r & E & Hr). apply Hs in Hr. lia.
  - intros r Hr. apply in_app_iff in Hr. destruct Hr as [Hr|[<-|[]]].
    + apply Hs in Hr. lia.
    + simpl. lia.
Qed.

Lemma well_formed_sync events : forall d,
  well_formed d ->
  well_formed (fold_left (fun table e => add_task table (google_task e)) events d).
Proof.
  induction events as [|e events IH]; intros d H; simpl; [exact H|].
  apply IH, well_formed_add, H.
Qed.

End WellFormed.

Section WellFormedKept.

Context {lib : Library}.

(** Unique ids, none above the AUTOINCREMENT counter, are kept by every
    operation that changes the table: inserting, deleting, completing,
    updating, clearing and syncing the Google rows, and the two popups
    and the voice command that add or edit an event.  The empty table is
    well formed, so every table the application builds is. *)
Theorem well_formed_kept d :
  well_formed d ->
  (forall task, well_formed (add_task d task)) /\
  (forall task d', add_schedule_item d task = Ok d' -> well_formed d') /\
  (forall task_id, well_formed (fst (delete_task d task_id))) /\
  (forall task_id, well_formed (fst (toggle_task_completion d task_id))) /\
  (forall task_id new_title new_start new_recurring new_repeat_days,
     well_formed (update_task d task_id new_title new_start new_recurring
                              new_repeat_days)) /\
  well_formed (clear_google_tasks d) /\
  (forall events, well_formed (sync_google_events_to_db d events)) /\
  (forall title dt is_recurring selected_repeat_days d',
     create_event_from_popup d title dt is_recurring selected_repeat_days = Saved d' ->
     well_formed d') /\
  (forall event_id title dt is_recurring selected_repeat_days d',
     update_event_from_popup d event_id title dt is_recurring selected_repeat_days
       = Saved d' ->
     well_formed d') /\
  (forall who today target_date title time_str time_obj,
     well_formed
       (snd (add_event_voice who d today target_date title time_str time_obj))).
Proof.
  intros H.
  assert (Hadd : forall task d', add_schedule_item d task = Ok d' -> well_formed d').
  { intros task d'. unfold add_schedule_item.
    destruct (negb _); [discriminate|]. intros [= <-]. apply well_formed_add, H. }
  assert (Hupd : forall task_id a b c e, well_formed (update_task d task_id a b c e)).
  { intros task_id a b c e. destruct d as [rs n]. unfold update_task.
    apply well_formed_map; [|exact H].
    intros r. simpl. destruct (id r =? task_id); reflexivity. }
  split; [intros task; apply well_formed_add, H|].
  split; [exact Hadd|].
  split; [intros i; destruct d as [rs n]; apply well_formed_filter, H|].
  split.
  { intros i. destruct d as [rs n]. unfold toggle_task_completion, fst.
    apply well_formed_map; [|exact H].
    intros r. simpl. destruct (id r =? i); reflexivity. }
  split; [exact Hupd|].
  assert (Hclear : well_formed (clear_google_tasks d)).
  { destruct d as [rs n]. apply well_formed_filter, H. }
  split; [exact Hclear|].
  split; [intros events; apply well_formed_sync, Hclear|].
  split; [|split].
  - intros title dt is_recurring days d'. unfold create_event_from_popup.
    destruct (String.eqb title ""); [discriminate|].
    destruct (is_recurring && is_nil days); [discriminate|].
    destruct (get_schedule_by_date_range _ _ _); [|discriminate].
    destruct (existsb _ _); [discriminate|].
    destruct (add_schedule_item _ _) as [d''|] eqn:E; [|discriminate].
    intros [= <-]. eapply Hadd, E.
  - intros event_id title dt is_recurring days d'. unfold update_event_from_popup.
    destruct (String.eqb title ""); [discriminate|].
    destruct (is_recurring && is_nil days); [discriminate|].
    destruct (get_schedule_by_date_range _ _ _); [|discriminate].
    destruct (existsb _ _); [discriminate|].
    intros [= <-]. apply Hupd.
  - intros who today target title time_str time_obj. unfold add_event_voice.
    destruct (String.eqb title ""); [exact H|].
    destruct (date_display _ _); [|exact H].
    destruct who as [|answered].
    + destruct (voice_conflict _ _ _ _); [exact H|].
      destruct (add_schedule_item _ _) as [d''|] eqn:E; [|exact H].
      eapply Hadd, E.
    + unfold check_and_add_on_main_thread.
      destruct (voice_conflict _ _ _ _); [exact H|].
      destruct (add_schedule_item _ _) as [d''|] eqn:E; [|exact H].
      eapply Hadd, E.
Qed.

Lemma empty_table_well_formed : well_formed (mkDb [] 0).
Proof. split; simpl; [constructor|tauto]. Qed.

End WellFormedKept.

Lemma well_formed_kept_witness :
  well_formed (mkDb [] 0) /\
  well_formed (add_task (mkDb [] 0) (new_task "Gym" (Some "2024-01-05T18:00:00"))).
Proof.
  split; [exact empty_table_well_formed|].
  exact (proj1 (well_formed_kept (mkDb [] 0) empty_table_well_formed) _).
Defined.

(** * Syncing the Google rows *)

Section Sync.

Lemma sync_rows events : forall d,
  List.filter is_local
    (rows (fold_left (fun table e => add_task table (google_task e)) events d)) =
  List.filter is_local (rows d) /\
  map synced_fields
    (List.filter is_google
       (rows (fold_left (fun table e => add_task table (google_task e)) events d))) =
  map synced_fields (List.filter is_google (rows d)) ++ map fetched_fields events /\
  seq (fold_left (fun table e => add_task table (google_task e)) events d) =
  seq d + Z.of_nat (length events).
Proof.
  induction events as [|e events IH]; intros d.
  - simpl. rewrite app_nil_r. repeat split. lia.
  - cbn [fold_left]. destruct (IH (add_task d (google_task e))) as (H1 & H2 & H3).
    rewrite H1, H2, H3. unfold add_task. cbn [rows seq].
    rewrite !List.filter_app, List.map_app, <- app_assoc. simpl. repeat split.
    + apply app_nil_r.
    + cbn [length]. lia.
Qed.

Lemma filter_filter_neg {A} (p : A -> bool) l :
  List.filter p (List.filter (fun x => negb (p x)) l) = [].
Proof.
  induction l as [|x l IH]; simpl; [reflexivity|].
  destruct (p x) eqn:E; simpl; [exact IH|]. rewrite E. exact IH.
Qed.

Lemma filter_idem {A} (p : A -> bool) l :
  List.filter p (List.filter p l) = List.filter p l.
Proof.
  induction l as [|x l IH]; simpl; [reflexivity|].
  destruct (p x) eqn:E; simpl; [rewrite E, IH; reflexivity|exact IH].
Qed.

End Sync.

Section SyncReplacesGoogleRows.

(** After [sync_google_events_to_db] the rows whose source is not
    Google are the ones the table had, in their order, and the Google
    rows are the fetched events, one row each in the order fetched,
    whatever Google rows the table held before: a second sync of the
    same events does not double them. *)
Theorem sync_replaces_google_rows d events :
  List.filter is_local (rows (sync_google_events_to_db d events)) =
    List.filter is_local (rows d) /\
  map synced_fields (List.filter is_google (rows (sync_google_events_to_db d events))) =
    map fetched_fields events /\
  seq (sync_google_events_to_db d events) = seq d + Z.of_nat (length events) /\
  map synced_fields
    (List.filter is_google
       (rows (sync_google_events_to_db (sync_google_events_to_db d events) events))) =
    map fetched_fields events.
Proof.
  assert (G : forall d0, List.filter is_google (rows (clear_google_tasks d0)) = []).
  { intros d0. unfold clear_google_tasks. cbn [rows].
    apply (filter_filter_neg is_google). }
  unfold sync_google_events_to_db.
  destruct (sync_rows events (clear_google_tasks d)) as (H1 & H2 & H3).
  split; [|split; [|split]].
  - rewrite H1. unfold clear_google_tasks. cbn [rows].
    apply (filter_idem is_local).
  - rewrite H2, G. reflexivity.
  - rewrite H3. reflexivity.
  - destruct (sync_rows events (clear_google_tasks
        (fold_left (fun table e => add_task table (google_task e)) events
           (clear_google_tasks d)))) as (_ & H2' & _).
    rewrite H2', G. reflexivity.
Qed.


(** Checking off an open task moves it from the list of open tasks to
    the list of completed ones and leaves every other task where it
    was. *)
Theorem complete_moves_task d task_id r :
  well_formed d -> In r (rows d) -> id r = task_id ->
  completed r = 0 -> start_time r = None ->
  let d' := fst (toggle_task_completion d task_id) in
  (forall t, In t (get_tasks_by_status d' false None) -> tt_id t <> task_id) /\
  (exists t, In t (get_tasks_by_status d' true None) /\
             tt_id t = task_id /\ tt_title t = title r /\
             tt_priority t = priority r) /\
  (forall t completed_flag, tt_id t <> task_id ->
     (In t (get_tasks_by_status d' completed_flag None) <->
      In t (get_tasks_by_status d completed_flag None))).
Proof.
  intros [Hnd _] Hr Hid Hc Hs d'.
  assert (Hrows : forall x, In x (rows d') <->
            exists x0, In x0 (rows d) /\
              x = (if id x0 =? task_id then
                     mkRow (id x0) (title x0) (start_time x0) (sql_not (completed x0))
                           (source x0) (event_id x0) (is_recurring x0)
                           (repeat_days x0) (priority x0)
                   else x0)).
  { intros x. unfold d'. simpl. rewrite in_map_iff. split.
    - intros (x0 & <- & H). exists x0. auto.
    - intros (x0 & H & ->). exists x0. auto. }
  split; [|split].
  - intros t Ht. apply tasks_by_status_In in Ht.
    destruct Ht as (x & Hx & Hcx & _ & ->). simpl.
    apply Hrows in Hx. destruct Hx as (x0 & Hx0 & ->).
    destruct (Z.eqb_spec (id x0) task_id) as [E|E]; [|exact E].
    assert (x0 = r) by (apply (id_inj (rows d)); auto; congruence). subst x0.
    simpl in Hcx. rewrite Hc in Hcx. discriminate.
  - exists (select_task (mkRow (id r) (title r) (start_time r) (sql_not (completed r))
                               (source r) (event_id r) (is_recurring r)
                               (repeat_days r) (priority r))).
    split; [|simpl; auto].
    apply tasks_by_status_In. eexists. split; [|split; [|split; [|reflexivity]]].
    + apply Hrows. exists r. split; [exact Hr|].
      rewrite Hid, Z.eqb_refl. reflexivity.
    + simpl. rewrite Hc. reflexivity.
    + exact Hs.
  - intros t flag Ht. rewrite !tasks_by_status_In. split.
    + intros (x & Hx & Hcx & Hsx & ->). apply Hrows in Hx.
      destruct Hx as (x0 & Hx0 & ->).
      destruct (Z.eqb_spec (id x0) task_id) as [E|E]; [simpl in Ht; contradiction|].
      exists x0. auto.
    + intros (x & Hx & Hcx & Hsx & ->). exists x. split; [|auto].
      apply Hrows. exists x. split; [exact Hx|].
      destruct (Z.eqb_spec (id x) task_id) as [E|E]; [simpl in Ht; contradiction|].
      reflexivity.
Qed.

Lemma task_db_well_formed : well_formed task_db.
Proof.
  split.
  - simpl. repeat constructor; simpl; intuition discriminate.
  - intros r Hr. simpl in Hr.
    destruct Hr as [<-|[<-|[<-|[<-|[<-|[<-|[]]]]]]]; simpl; lia.
Qed.

End SyncReplacesGoogleRows.

Lemma complete_moves_task_witness :
  let r := mkRow 2 "Buy milk" None 0 (Some "local") None (Some 0) None (Some "low") in
  well_formed task_db /\ In r (rows task_db) /\ id r = 2 /\
  completed r = 0 /\ start_time r = None /\
  exists t, In t (get_tasks_by_status (fst (toggle_task_completion task_db 2))
                                      true None) /\
            tt_id t = 2 /\ tt_title t = "Buy milk".
Proof.
  intros r.
  assert (Hr : In r (rows task_db)) by (simpl; auto).
  split; [exact task_db_well_formed|]. split; [exact Hr|].
  split; [reflexivity|]. split; [reflexivity|]. split; [reflexivity|].
  destruct (proj1 (proj2 (complete_moves_task task_db 2 r task_db_well_formed Hr
                            eq_refl eq_refl eq_refl)))
    as (t & Ht & H1 & H2 & _).
  exists t. auto.
Defined.


(** * A month is a range *)

Section MonthAsRange.

Lemma date_le_lex a b :
  date_le a b <->
  year a < year b \/
  (year a = year b /\ (month a < month b \/ (month a = month b /\ day a <= day b))).
Proof.
  destruct a as [a1 a2 a3], b as [b1 b2 b3]. unfold date_le, date_lt. simpl. split.
  - intros [H|[= -> -> ->]]; lia.
  - intros H. destruct (Z.eq_dec a1 b1) as [->|]; [|lia].
    destruct (Z.eq_dec a2 b2) as [->|]; [|lia].
    destruct (Z.eq_dec a3 b3) as [->|]; [right; reflexivity|lia].
Qed.

Lemma last_of_month_valid y m :
  1 <= y <= 9999 -> 1 <= m <= 12 ->
  valid_date (mkDate y m (days_in_month y m)) = true.
Proof.
  intros Hy Hm. unfold valid_date, MINYEAR, MAXYEAR. simpl.
  pose proof (days_in_month_bounds y m).
  repeat (apply andb_true_intro; split); lia.
Qed.

(** The days of a month are the days from its first to its last. *)
Lemma month_days y m day :
  valid_date day = true ->
  (in_month y m day <->
   in_range (mkDate y m 1) (mkDate y m (days_in_month y m)) day).
Proof.
  intros Hv. pose proof (valid_date_bounds _ Hv) as B.
  unfold in_month, in_range. rewrite !date_le_lex. simpl. intuition (subst; lia).
Qed.

Lemma days_loop_agree f1 : forall f2 c1 c2 cur l1 l2,
  valid_date cur = true ->
  (forall day, valid_date day = true -> date_le cur day -> c1 day = c2 day) ->
  days_loop f1 c1 cur = Ok l1 -> days_loop f2 c2 cur = Ok l2 -> l1 = l2.
Proof.
  induction f1 as [|f1 IH]; intros f2 c1 c2 cur l1 l2 Hv Hc;
    cbn [days_loop]; [discriminate|].
  destruct f2 as [|f2]; cbn [days_loop]; [discriminate|].
  rewrite <- (Hc cur Hv (or_intror eq_refl)).
  destruct (c1 cur); [|intros [= <-] [= <-]; reflexivity].
  destruct (next_day cur) as [n|] eqn:En; cbn [mbind result_bind bind];
    [|discriminate].
  assert (Hne : cur <> date_max) by (intros ->; discriminate En).
  destruct (next_day_spec cur date_max Hv eq_refl (date_lt_max _ Hv Hne))
    as (n' & En' & Hn & Hlt & _).
  rewrite En in En'. injection En' as <-.
  destruct (days_loop f1 c1 n) as [d1|] eqn:E1; cbn [mbind result_bind bind];
    [|discriminate].
  destruct (days_loop f2 c2 n) as [d2|] eqn:E2; cbn [mbind result_bind bind];
    [|discriminate].
  intros [= <-] [= <-]. f_equal. eapply IH; [exact Hn| |exact E1|exact E2].
  intros day Hd Hle. apply Hc; [exact Hd|]. left.
  destruct Hle as [L| <-]; [eapply date_lt_trans; eassumption|exact Hlt].
Qed.

End MonthAsRange.

Section MonthIsRange.

Context {lib : Library}.

(** On a table where [DATE()] of every stored timestamp is NULL or a
    day of the calendar, and for every month but December 9999,
    [get_schedule_by_month] returns what [get_schedule_by_date_range]
    returns from the first to the last day of the month: the same tuples
    in the same order. *)
Theorem month_is_range d y m :
  calendar_dates d ->
  1 <= y <= 9999 -> 1 <= m <= 12 -> ~ (y = 9999 /\ m = 12) ->
  get_schedule_by_month d y m =
  get_schedule_by_date_range d (mkDate y m 1) (mkDate y m (days_in_month y m)).
Proof.
  intros Hcal Hy Hm Hn.
  destruct (month_bounds y m Hy Hm Hn)
    as (first_day & last_day & Eb & [-> _] & Hf & Hl & Hmax & Hin).
  pose proof (last_of_month_valid y m Hy Hm) as He.
  assert (Hemax : date_lt (mkDate y m (days_in_month y m)) date_max).
  { apply date_lt_max; [exact He|]. unfold date_max. intros [= -> -> _]. lia. }
  assert (Hc : forall day, valid_date day = true -> date_le (mkDate y m 1) day ->
                 date_ltb day last_day = date_leb day (mkDate y m (days_in_month y m))).
  { intros day Hd Hle. apply eq_true_iff_eq. rewrite date_ltb_lt, date_leb_le.
    pose proof (Hin day Hd) as H1. pose proof (month_days y m day Hd) as H2.
    unfold in_range, date_le in *. tauto. }
  destruct (range_days (mkDate y m 1) _ Hf He Hemax) as (days2 & E2 & _ & _).
  destruct (days_loop_spec (fun c => date_ltb c last_day) last_day Hl Hmax) with
    (fuel := loop_bound (mkDate y m 1) last_day) (cur := mkDate y m 1)
    as (days1 & E1 & _ & _).
  - intros c H. left. apply date_ltb_lt, H.
  - intros a b [Hab| ->] Hb; [|exact Hb]. apply date_ltb_lt.
    apply date_ltb_lt in Hb. eapply date_lt_trans; eassumption.
  - exact Hf.
  - unfold loop_bound. lia.
  - unfold loop_bound. lia.
  - assert (Ed : days1 = days2)
      by (eapply days_loop_agree; [exact Hf|exact Hc|exact E1|exact E2]).
    unfold get_schedule_by_month, get_schedule_by_date_range.
    rewrite Eb. cbn [mbind result_bind bind fst snd].
    rewrite !expand_loop_days, E1, E2, Ed. cbn [mbind result_bind bind].
    do 3 f_equal. unfold select_non_recurring. do 2 f_equal.
    apply List.filter_ext_in. intros r Hr. f_equal.
    unfold date_test. destruct (start_time r) as [st|] eqn:Est; [|reflexivity].
    destruct (sqlite_date st) as [ds|] eqn:E; [|reflexivity].
    destruct (Hcal r ds Hr) as (day & Hd & ->); [exists st; auto|].
    change (month_test (mkDate y m 1) last_day (str_date day) =
            range_test (mkDate y m 1) (mkDate y m (days_in_month y m)) (str_date day)).
    rewrite month_test_date, range_test_date by assumption.
    destruct (date_leb (mkDate y m 1) day) eqn:El; [|reflexivity].
    simpl. apply Hc; [exact Hd|]. apply date_leb_le in El. exact El.
Qed.

End MonthIsRange.

(** The timestamps of the example table are all plain. *)
Lemma example_calendar_dates : calendar_dates example_db.
Proof.
  intros r ds Hr (st & Est & Hds). simpl in Hr.
  destruct Hr as [<-|[<-|[<-|[<-|[]]]]]; simpl in Est; injection Est as <-;
    vm_compute in Hds; try discriminate; injection Hds as <-.
  - exists (jan 1). split; reflexivity.
  - exists (jan 3). split; reflexivity.
  - exists (jan 3). split; reflexivity.
Qed.

Lemma month_is_range_witness :
  calendar_dates example_db /\
  1 <= 2024 <= 9999 /\ 1 <= 2 <= 12 /\ ~ (2024 = 9999 /\ 2 = 12) /\
  get_schedule_by_month example_db 2024 2 =
  get_schedule_by_date_range example_db (mkDate 2024 2 1) (mkDate 2024 2 29).
Proof.
  assert (Hy : 1 <= 2024 <= 9999) by lia.
  assert (Hm : 1 <= 2 <= 12) by lia.
  assert (Hn : ~ (2024 = 9999 /\ 2 = 12)) by lia.
  split; [exact example_calendar_dates|].
  split; [exact Hy|]. split; [exact Hm|]. split; [exact Hn|].
  exact (month_is_range example_db 2024 2 example_calendar_dates Hy Hm Hn).
Defined.


(** * Splitting a range *)

Section SplitRange.

Context {lib : Library}.

Lemma filter_split_perm {A} (p p1 p2 : A -> bool) l :
  (forall x, In x l -> p x = p1 x || p2 x /\ p1 x && p2 x = false) ->
  Permutation (List.filter p l) (List.filter p1 l ++ List.filter p2 l).
Proof.
  induction l as [|x l IH]; simpl; intros H; [constructor|].
  destruct (H x (or_introl eq_refl)) as [Hp Hd]. rewrite Hp.
  assert (IH' := IH (fun y Hy => H y (or_intror Hy))).
  destruct (p1 x), (p2 x); simpl in *; try discriminate.
  - constructor. exact IH'.
  - apply Permutation_cons_app. exact IH'.
  - exact IH'.
Qed.

Variables a b b' c : date.
Hypothesis a_valid : valid_date a = true.
Hypothesis b_valid : valid_date b = true.
Hypothesis c_valid : valid_date c = true.
Hypothesis a_le_b : date_le a b.
Hypothesis b_next : next_day b = Ok b'.
Hypothesis b'_le_c : date_le b' c.
Hypothesis c_not_last : date_lt c date_max.

Lemma date_le_trans x y z : date_le x y -> date_le y z -> date_le x z.
Proof.
  intros [L1| ->] [L2| ->]; [left; eapply date_lt_trans; eassumption|left|left|right];
    auto.
Qed.

Lemma split_point :
  valid_date b' = true /\ date_lt b b' /\
  (forall day, valid_date day = true -> date_lt b day -> date_le b' day).
Proof.
  assert (Hne : b <> date_max) by (intros ->; discriminate b_next).
  destruct (next_day_spec b date_max b_valid eq_refl (date_lt_max _ b_valid Hne))
    as (n & En & Hn & Hlt & _).
  rewrite b_next in En. injection En as <-.
  split; [exact Hn|]. split; [exact Hlt|].
  intros day Hd L. destruct (next_day_spec b day b_valid Hd L) as (n' & En' & _ & _ & H).
  rewrite b_next in En'. injection En' as <-. exact H.
Qed.

(** A day of the whole range lies in exactly one of the two parts. *)
Lemma split_days day :
  valid_date day = true ->
  (in_range a c day <-> in_range a b day \/ in_range b' c day) /\
  ~ (in_range a b day /\ in_range b' c day).
Proof.
  intros Hd. destruct split_point as (Hb' & Hlt & Hnext).
  assert (Hbc : date_le b c)
    by (eapply date_le_trans; [left; exact Hlt|exact b'_le_c]).
  assert (Hab' : date_le a b')
    by (eapply date_le_trans; [exact a_le_b|left; exact Hlt]).
  unfold in_range. split.
  - split.
    + intros (_ & H1 & H2).
      destruct (date_lt_total b day) as [L|[E|L]].
      * right. split; [exact Hd|]. split; [apply Hnext; assumption|exact H2].
      * left. split; [exact Hd|]. split; [exact H1|right; auto].
      * left. split; [exact Hd|]. split; [exact H1|left; exact L].
    + intros [(_ & H1 & H2)|(_ & H1 & H2)]; (split; [exact Hd|]); split.
      * exact H1.
      * eapply date_le_trans; eassumption.
      * eapply date_le_trans; eassumption.
      * exact H2.
  - intros [(_ & _ & H1) (_ & H2 & _)].
    destruct (date_le_trans _ _ _ H2 H1) as [L|E].
    + exact (date_lt_irrefl _ (date_lt_trans _ _ _ Hlt L)).
    + rewrite E in Hlt. exact (date_lt_irrefl _ Hlt).
Qed.

(** So the test of the whole range is the one or the other of the
    tests of the parts, on a row dated on a day of the calendar. *)
Lemma split_tests r ds day :
  date_text r ds -> valid_date day = true -> ds = str_date day ->
  (date_test (range_test a c) r && one_shot r =
   (date_test (range_test a b) r && one_shot r) ||
   (date_test (range_test b' c) r && one_shot r)) /\
  (date_test (range_test a b) r && one_shot r) &&
  (date_test (range_test b' c) r && one_shot r) = false.
Proof.
  intros (st & Est & Hds) Hd ->.
  destruct split_point as (Hb' & _ & _).
  assert (G : date_test (range_test a c) r =
              date_test (range_test a b) r || date_test (range_test b' c) r /\
              date_test (range_test a b) r && date_test (range_test b' c) r = false).
  { unfold date_test. rewrite Est, Hds.
    destruct (split_days day Hd) as [H1 H2].
    rewrite !range_test_date by assumption.
    assert (R : forall x y, date_leb x day && date_leb day y = true <-> in_range x y day).
    { intros x y. rewrite andb_true_iff, !date_leb_le. unfold in_range, date_le. tauto. }
    split.
    - apply eq_true_iff_eq. rewrite orb_true_iff, !R. exact H1.
    - apply not_true_is_false. rewrite andb_true_iff, !R. exact H2. }
  destruct G as [G1 G2]. rewrite G1.
  destruct (date_test (range_test a b) r), (date_test (range_test b' c) r),
    (one_shot r); simpl in *; auto; discriminate.
Qed.

(** A row without a date passes none of the tests. *)
Lemma no_date_no_test test r :
  (forall ds, ~ date_text r ds) -> date_test test r = false.
Proof.
  intros H. unfold date_test. destruct (start_time r) as [st|] eqn:Est; [|reflexivity].
  destruct (sqlite_date st) as [ds|] eqn:E; [|reflexivity].
  destruct (H ds). exists st. auto.
Qed.

End SplitRange.

Section RangeSplits.

Context {lib : Library}.

(** A range cut in two, on a table where [DATE()] of every stored
    timestamp is NULL or a day of the calendar: for [a <= b < c], with
    [b'] the day after [b], the events of the range from [a] to [c] are
    the events of the range from [a] to [b] together with the events of
    the range from [b'] to [c], each as often. *)
Theorem range_splits d a b b' c :
  calendar_dates d ->
  valid_date a = true -> valid_date b = true -> valid_date c = true ->
  date_le a b -> next_day b = Ok b' -> date_le b' c -> date_lt c date_max ->
  exists whole head rest,
    get_schedule_by_date_range d a c = Ok whole /\
    get_schedule_by_date_range d a b = Ok head /\
    get_schedule_by_date_range d b' c = Ok rest /\
    Permutation whole (head ++ rest).
Proof.
  intros Hcal Ha Hb Hc Hab Hn Hbc Hmax.
  destruct (split_point a b b' Hb Hab Hn) as (Hb' & Hlt & _).
  assert (Hbmax : date_lt b date_max).
  { eapply date_lt_trans; [exact Hlt|].
    destruct Hbc as [L| ->]; [eapply date_lt_trans; eassumption|exact Hmax]. }
  destruct (get_schedule_by_date_range_merged d a c Ha Hc Hmax)
    as (days & E & Hnd & Hin).
  destruct (get_schedule_by_date_range_merged d a b Ha Hb Hbmax)
    as (days1 & E1 & Hnd1 & Hin1).
  destruct (get_schedule_by_date_range_merged d b' c Hb' Hc Hmax)
    as (days2 & E2 & Hnd2 & Hin2).
  do 3 eexists. split; [exact E|]. split; [exact E1|]. split; [exact E2|].
  rewrite !sort_by_perm. unfold merged.
  assert (Pd : Permutation days (days1 ++ days2)).
  { apply Permutation.NoDup_Permutation; [exact Hnd| |].
    - apply List.NoDup_app; [exact Hnd1|exact Hnd2|].
      intros day H1 H2. apply Hin1 in H1. apply Hin2 in H2.
      pose proof (in_range_valid _ _ _ H1) as Hd.
      exact (proj2 (split_days a b b' c Hb Hab Hn Hbc day Hd) (conj H1 H2)).
    - intros day. rewrite in_app_iff, Hin, Hin1, Hin2. split.
      + intros H. pose proof (in_range_valid _ _ _ H) as Hd.
        apply (proj1 (split_days a b b' c Hb Hab Hn Hbc day Hd)), H.
      + intros H.
        assert (Hd : valid_date day = true)
          by (destruct H as [H|H]; exact (in_range_valid _ _ _ H)).
        apply (proj1 (split_days a b b' c Hb Hab Hn Hbc day Hd)), H. }
  assert (Ps : Permutation (select_non_recurring (range_test a c) d)
                 (select_non_recurring (range_test a b) d ++
                  select_non_recurring (range_test b' c) d)).
  { unfold select_non_recurring. rewrite !sort_by_perm, <- List.map_app.
    apply Permutation_map, filter_split_perm. intros r Hr.
    destruct (start_time r) as [st|] eqn:Est;
      [destruct (sqlite_date st) as [ds|] eqn:Eds|].
    - destruct (Hcal r ds Hr) as (day & Hd & Eday); [exists st; auto|].
      apply (split_tests a b b' c Ha Hb Hc Hab Hn Hbc r ds day);
        [exists st; auto|exact Hd|exact Eday].
    - rewrite !no_date_no_test; [auto| | |];
        intros ds (st' & E' & Hds); congruence.
    - rewrite !no_date_no_test; [auto| | |];
        intros ds (st' & E' & _); congruence. }
  rewrite Ps, (Permutation_flat_map _ Pd), List.flat_map_app.
  rewrite <- !app_assoc. apply Permutation_app_head.
  rewrite !app_assoc. apply Permutation_app_tail. apply Permutation_app_comm.
Qed.

End RangeSplits.

Lemma range_splits_witness :
  calendar_dates example_db /\
  valid_date (jan 1) = true /\ valid_date (jan 3) = true /\
  valid_date (jan 7) = true /\ date_le (jan 1) (jan 3) /\
  next_day (jan 3) = Ok (jan 4) /\ date_le (jan 4) (jan 7) /\
  date_lt (jan 7) date_max /\
  exists whole head rest,
    get_schedule_by_date_range example_db (jan 1) (jan 7) = Ok whole /\
    get_schedule_by_date_range example_db (jan 1) (jan 3) = Ok head /\
    get_schedule_by_date_range example_db (jan 4) (jan 7) = Ok rest /\
    Permutation whole (head ++ rest).
Proof.
  assert (H1 : date_le (jan 1) (jan 3)) by (left; unfold date_lt; simpl; lia).
  assert (H2 : date_le (jan 4) (jan 7)) by (left; unfold date_lt; simpl; lia).
  split; [exact example_calendar_dates|].
  split; [reflexivity|]. split; [reflexivity|]. split; [reflexivity|].
  split; [exact H1|]. split; [reflexivity|]. split; [exact H2|].
  split; [apply jan_before_max|].
  exact (range_splits example_db (jan 1) (jan 3) (jan 4) (jan 7)
           example_calendar_dates eq_refl eq_refl eq_refl H1 eq_refl H2
           (jan_before_max 7)).
Defined.


(** * The pickers *)

Section MonthSteps.

(** One step forward or back in the month navigation moves to the
    adjacent month, across the turn of the year as well, and each step
    undoes the other. *)
Theorem month_steps y m :
  1 <= m <= 12 ->
  (1 <= snd (next_month y m) <= 12 /\
   fst (next_month y m) * 12 + snd (next_month y m) = y * 12 + m + 1 /\
   prev_month (fst (next_month y m)) (snd (next_month y m)) = (y, m)) /\
  (1 <= snd (prev_month y m) <= 12 /\
   fst (prev_month y m) * 12 + snd (prev_month y m) = y * 12 + m - 1 /\
   next_month (fst (prev_month y m)) (snd (prev_month y m)) = (y, m)).
Proof.
  intros Hm. unfold next_month, prev_month. split.
  - destruct (Z.eqb_spec m 12) as [->|H]; simpl.
    + repeat split; try lia. f_equal. lia.
    + destruct (Z.eqb_spec (m + 1) 1); [lia|].
      repeat split; try lia. f_equal. lia.
  - destruct (Z.eqb_spec m 1) as [->|H]; simpl.
    + repeat split; try lia. f_equal. lia.
    + destruct (Z.eqb_spec (m - 1) 12); [lia|].
      repeat split; try lia. f_equal. lia.
Qed.

End MonthSteps.

Lemma month_steps_witness :
  1 <= 12 <= 12 /\ next_month 2024 12 = (2025, 1) /\ prev_month 2025 1 = (2024, 12).
Proof.
  assert (H : 1 <= 12 <= 12) by lia. split; [exact H|].
  split; [reflexivity|].
  exact (proj2 (proj2 (proj1 (month_steps 2024 12 H)))).
Defined.

Section Selection.

Lemma remove_first_In x l w :
  NoDup l -> (In w (remove_first x l) <-> In w l /\ w <> x).
Proof.
  induction l as [|y l IH]; simpl; intros H; [tauto|].
  apply NoDup_cons_iff in H. destruct H as [Hy Hl].
  destruct (Z.eqb_spec y x) as [->|E].
  - split; [intros Hw; split; [right; exact Hw|congruence]|].
    intros [[<-|Hw] Hne]; [congruence|exact Hw].
  - simpl. rewrite (IH Hl). split.
    + intros [<-|[Hw Hne]]; [split; [left; reflexivity|exact E]|tauto].
    + intros [[<-|Hw] Hne]; [left; reflexivity|right; tauto].
Qed.

Lemma remove_first_NoDup x l : NoDup l -> NoDup (remove_first x l).
Proof.
  induction l as [|y l IH]; simpl; intros H; [constructor|].
  pose proof H as H'. apply NoDup_cons_iff in H. destruct H as [Hy Hl].
  destruct (y =? x); [exact Hl|].
  constructor; [|apply IH, Hl].
  intros Hi. apply remove_first_In in Hi; [|exact Hl]. tauto.
Qed.

Lemma existsb_Z x l : existsb (Z.eqb x) l = true <-> In x l.
Proof.
  rewrite existsb_exists. split.
  - intros (y & Hy & E). apply Z.eqb_eq in E. subst y. exact Hy.
  - intros H. exists x. split; [exact H|apply Z.eqb_refl].
Qed.

Lemma on_repeat_day_changed_spec selected day_num state :
  NoDup selected ->
  NoDup (on_repeat_day_changed selected day_num state) /\
  (forall w, In w (on_repeat_day_changed selected day_num state) <->
     if w =? day_num then String.eqb state "down" = true else In w selected).
Proof.
  intros H. unfold on_repeat_day_changed.
  destruct (String.eqb state "down");
    destruct (existsb (Z.eqb day_num) selected) eqn:E.
  - apply existsb_Z in E. split; [exact H|].
    intros w. destruct (Z.eqb_spec w day_num) as [->|]; tauto.
  - assert (Hn : ~ In day_num selected).
    { intros Hi. apply existsb_Z in Hi. congruence. }
    split.
    + apply List.NoDup_app; [exact H|repeat constructor; simpl; tauto|].
      intros x Hx [<-|[]]. exact (Hn Hx).
    + intros w. rewrite in_app_iff. simpl.
      destruct (Z.eqb_spec w day_num) as [->|]; intuition congruence.
  - split; [apply remove_first_NoDup, H|].
    intros w. rewrite remove_first_In by exact H.
    destruct (Z.eqb_spec w day_num) as [->|]; intuition congruence.
  - assert (Hn : ~ In day_num selected).
    { intros Hi. apply existsb_Z in Hi. congruence. }
    split; [exact H|].
    intros w. destruct (Z.eqb_spec w day_num) as [->|]; intuition congruence.
Qed.

End Selection.

Section SelectionAfterPresses.

(** Whatever weekday buttons are pressed, in whatever order, the list of
    selected weekdays never holds a day twice, and holds a day exactly
    when the last press on its button put it down. *)
Theorem selection_after_presses presses :
  NoDup (selection_after presses) /\
  (forall w, In w (selection_after presses) <-> is_down w presses = true).
Proof.
  unfold selection_after, is_down.
  assert (G : forall selected down_of,
    NoDup selected ->
    (forall w, In w selected <-> down_of w = true) ->
    NoDup (fold_left (fun sel press =>
             on_repeat_day_changed sel (fst press) (snd press)) presses selected) /\
    (forall w,
       In w (fold_left (fun sel press =>
               on_repeat_day_changed sel (fst press) (snd press)) presses selected) <->
       fold_left (fun down press =>
                    if fst press =? w then String.eqb (snd press) "down" else down)
                 presses (down_of w) = true)).
  { induction presses as [|[day state] presses IH]; intros selected down_of Hn Hd.
    - simpl. split; [exact Hn|exact Hd].
    - cbn [fold_left fst snd].
      destruct (on_repeat_day_changed_spec selected day state Hn) as [Hn' Hd'].
      apply (IH _ (fun w => if day =? w then String.eqb state "down" else down_of w));
        [exact Hn'|].
      intros w. rewrite Hd'. rewrite (Z.eqb_sym day w).
      destruct (w =? day); [reflexivity|apply Hd]. }
  destruct (G [] (fun _ => false)) as [H1 H2].
  - constructor.
  - intros w. simpl. split; [tauto|discriminate].
  - split; [exact H1|exact H2].
Qed.

End SelectionAfterPresses.


Section RepeatDays.

Lemma split_comma_cons_free c r :
  Ascii.eqb c "," = false ->
  exists p ps, split_comma r = p :: ps /\ split_comma (String c r) = String c p :: ps.
Proof.
  intros E. cbn [split_comma]. rewrite E.
  destruct (split_comma r) as [|p ps] eqn:Er.
  - destruct r as [|c' r']; [discriminate|]. cbn [split_comma] in Er.
    destruct (Ascii.eqb c' ","); [discriminate|].
    destruct (split_comma r'); discriminate.
  - exists p, ps. split; reflexivity.
Qed.

Lemma split_comma_free s : comma_free s = true -> split_comma s = [s].
Proof.
  induction s as [|c r IH]; [reflexivity|]. cbn [comma_free].
  intros H. apply andb_true_iff in H. destruct H as [Hc Hr].
  apply negb_true_iff in Hc.
  destruct (split_comma_cons_free c r Hc) as (p & ps & E1 & E2).
  rewrite E2. rewrite (IH Hr) in E1. injection E1 as <- <-. reflexivity.
Qed.

Lemma split_comma_app x rest :
  comma_free x = true ->
  split_comma (x +:+ String "," rest) = x :: split_comma rest.
Proof.
  induction x as [|c r IH]; [reflexivity|]. cbn [comma_free].
  intros H. apply andb_true_iff in H. destruct H as [Hc Hr].
  apply negb_true_iff in Hc.
  change (String c r +:+ String "," rest) with (String c (r +:+ String "," rest)).
  destruct (split_comma_cons_free c (r +:+ String "," rest) Hc) as (p & ps & E1 & E2).
  rewrite E2. rewrite (IH Hr) in E1. injection E1 as <- <-. reflexivity.
Qed.

Lemma split_comma_join l :
  l <> [] -> Forall (fun s => comma_free s = true) l ->
  split_comma (join "," l) = l.
Proof.
  induction l as [|x l IH]; [congruence|]. intros _ H.
  apply Forall_cons_iff in H. destruct H as [Hx Hl].
  destruct l as [|y l]; [apply split_comma_free, Hx|].
  change (join "," (x :: y :: l)) with (x +:+ String "," (join "," (y :: l))).
  rewrite split_comma_app by exact Hx. f_equal. apply IH; [discriminate|exact Hl].
Qed.

Lemma insert_Z_perm x l : Permutation (insert_Z x l) (x :: l).
Proof.
  induction l as [|y l IH]; simpl; [reflexivity|].
  destruct (x <=? y); [reflexivity|]. rewrite IH. apply perm_swap.
Qed.

Lemma sorted_days_perm l : Permutation (fold_right insert_Z [] l) l.
Proof.
  induction l as [|x l IH]; simpl; [reflexivity|].
  rewrite insert_Z_perm, IH. reflexivity.
Qed.

Lemma digit_string_free n :
  0 <= n <= 9 -> comma_free (String (digit_char n) "") = true.
Proof.
  intros H. cbn [comma_free]. rewrite andb_true_r. apply negb_true_iff.
  destruct (Ascii.eqb_spec (digit_char n) ",") as [E|E]; [|reflexivity].
  apply (f_equal digit_val) in E. rewrite digit_val_char in E by exact H.
  discriminate.
Qed.

Lemma str_small_digit n : 0 <= n <= 9 -> str_small n = String (digit_char n) "".
Proof. intros H. unfold str_small. destruct (Z.ltb_spec n 10); [reflexivity|lia]. Qed.

(** The string stored for a selection lists exactly the selected days. *)
Lemma repeats_on_selection days w :
  weekdays days -> 0 <= w <= 6 ->
  (repeats_on (Some (repeat_days_of days)) w = true <-> In w days).
Proof.
  intros Hd Hw. unfold repeat_days_of.
  set (sorted := fold_right insert_Z [] days).
  assert (Hs : forall x, In x sorted <-> In x days).
  { intros x. split; apply Permutation_in;
      [apply sorted_days_perm|symmetry; apply sorted_days_perm]. }
  destruct sorted as [|d0 sorted'] eqn:Es.
  - simpl. split; [discriminate|]. intros H. apply Hs in H. destruct H.
  - rewrite <- Es in *. rewrite repeats_on_iff.
    assert (Hsplit : split_comma (join "," (map str_small sorted)) =
                     map str_small sorted).
    { apply split_comma_join.
      - rewrite Es. discriminate.
      - apply List.Forall_forall. intros s Hin. apply in_map_iff in Hin.
        destruct Hin as (n & <- & Hn). apply Hs, Hd in Hn.
        rewrite str_small_digit by lia. apply digit_string_free. lia. }
    split.
    + intros (s & [= <-] & _ & Hin). rewrite Hsplit in Hin.
      apply in_map_iff in Hin. destruct Hin as (n & E & Hn).
      pose proof (Hd n (proj1 (Hs n) Hn)) as Bn.
      rewrite str_small_digit in E by lia. unfold str_weekday in E.
      injection E as E. apply digit_char_inj in E; [|lia|lia].
      subst n. apply Hs, Hn.
    + intros Hin. exists (join "," (map str_small sorted)).
      split; [reflexivity|]. split.
      * rewrite Es. cbn [map join].
        assert (B0 : 0 <= d0 <= 6)
          by (apply Hd, Hs; rewrite Es; left; reflexivity).
        rewrite str_small_digit by lia.
        destruct (map str_small sorted'); discriminate.
      * rewrite Hsplit. apply in_map_iff. exists w. split; [|apply Hs, Hin].
        rewrite str_small_digit by lia. reflexivity.
Qed.

End RepeatDays.


(** * From the popup to the schedule *)

Section Created.

Context {lib : Library}.

Lemma weekday_range d : 0 <= weekday d <= 6.
Proof. unfold weekday. pose proof (Z.mod_pos_bound (toordinal d + 6) 7). lia. Qed.

Lemma single_day day day0 : in_range day day day0 -> day0 = day.
Proof.
  intros (_ & [L1|E1] & [L2|E2]); try congruence.
  destruct (date_lt_irrefl day). eapply date_lt_trans; eassumption.
Qed.

Lemma create_saved d title dt is_recurring days d' :
  create_event_from_popup d title dt is_recurring days = Saved d' ->
  d' = add_task d (popup_task title dt is_recurring days).
Proof.
  unfold create_event_from_popup.
  destruct (String.eqb title ""); [discriminate|].
  destruct (is_recurring && is_nil days) eqn:G; [discriminate|].
  destruct (get_schedule_by_date_range _ _ _); [|discriminate].
  destruct (existsb _ _); [discriminate|].
  unfold add_schedule_item. cbn [task_start_time].
  destruct (negb _); [discriminate|]. intros [= <-]. f_equal.
  unfold popup_task. f_equal.
  destruct is_recurring; [|reflexivity]. simpl in G. rewrite G. reflexivity.
Qed.

End Created.

Section CreatedEventDays.

Context {lib : Library}.

(** An event saved by the create popup is listed by the day view of a
    day exactly when, for a one-shot event, the day is its date and, for
    a repeating event, the weekday of the day is one of the days
    selected; it is listed once, under the next id, at the time of day
    chosen.  (The date chosen for a repeating event does not matter.) *)
Theorem created_event_days d title dt is_recurring selected_repeat_days d' :
  well_formed d ->
  valid_date (dt_date dt) = true -> valid_time (dt_time dt) = true ->
  weekdays selected_repeat_days ->
  create_event_from_popup d title dt is_recurring selected_repeat_days = Saved d' ->
  forall day, valid_date day = true -> date_lt day date_max ->
  exists events,
    get_schedule_by_date_range d' day day = Ok events /\
    (forall ev, In ev events -> ev_id ev = seq d + 1 ->
       ev = mkEvent (seq d + 1) title
                    (Some (isoformat (combine day (dt_time dt))))
                    (Some "local") 0 None (Some (int_of_bool is_recurring))
                    (if is_recurring
                     then Some (repeat_days_of selected_repeat_days) else None)) /\
    ((exists ev, In ev events /\ ev_id ev = seq d + 1) <->
     if is_recurring then In (weekday day) selected_repeat_days
     else day = dt_date dt).
Proof.
  intros [Hnd Hseq] Hd Ht Hw Hc day Hday Hmax.
  apply create_saved in Hc. subst d'.
  set (task := popup_task title dt is_recurring selected_repeat_days).
  set (r0 := row_of (seq d + 1) task).
  assert (Hrows : forall r, In r (rows (add_task d task)) ->
                    id r = seq d + 1 -> r = r0).
  { intros r Hr Hid. simpl in Hr. apply in_app_iff in Hr.
    destruct Hr as [Hr|[<-|[]]]; [apply Hseq in Hr; lia|reflexivity]. }
  assert (Hr0 : In r0 (rows (add_task d task))).
  { simpl. apply in_app_iff. right. left. reflexivity. }
  assert (Hiso : dt = combine (dt_date dt) (dt_time dt)) by (destruct dt; reflexivity).
  destruct (range_events_mem (add_task d task) day day Hday Hday Hmax)
    as (events & E & _ & Hin).
  exists events. split; [exact E|].
  assert (Hev : forall ev, In ev events -> ev_id ev = seq d + 1 ->
            (is_recurring = false /\ day = dt_date dt /\ ev = select_event r0) \/
            (is_recurring = true /\ In (weekday day) selected_repeat_days /\
             ev = instance_at day (dt_time dt) (select_event r0))).
  { intros ev Hev Hid. apply Hin in Hev.
    destruct Hev as [(r & ds & Hr & Ho & Hs & Hrange & ->)
                    |(r & day0 & st & dt0 & Hr & Hrec & Hrange & Hrep & Hst & Hp & ->)].
    - simpl in Hid. apply (Hrows r Hr) in Hid. subst r. left.
      destruct Hs as (st & Hst & Hp). simpl in Hst. injection Hst as <-.
      rewrite sqlite_date_isoformat in Hp by assumption.
      injection Hp as <-.
      rewrite range_test_same in Hrange. apply String.eqb_eq in Hrange.
      apply str_date_inj in Hrange; [|exact Hday|exact Hd].
      destruct Ho as (_ & [Ho|Ho]); simpl in Ho; [|discriminate].
      destruct is_recurring; [discriminate|]. auto.
    - simpl in Hid. apply (Hrows r Hr) in Hid. subst r. right.
      apply single_day in Hrange. subst day0.
      simpl in Hst. injection Hst as <-.
      rewrite fromisoformat_isoformat in Hp by assumption. injection Hp as <-.
      destruct Hrec as (_ & Hrec & _). simpl in Hrec.
      destruct is_recurring; [|discriminate]. simpl in Hrep.
      apply repeats_on_selection in Hrep; [|exact Hw|apply weekday_range]. auto. }
  split.
  - intros ev Hin' Hid.
    destruct (Hev ev Hin' Hid) as [(-> & -> & ->)|(-> & _ & ->)].
    + rewrite <- Hiso. reflexivity.
    + reflexivity.
  - split.
    + intros (ev & Hin' & Hid).
      destruct (Hev ev Hin' Hid) as [(-> & -> & _)|(-> & H & _)]; [reflexivity|exact H].
    + intros H. destruct is_recurring.
      * exists (instance_at day (dt_time dt) (select_event r0)).
        split; [|reflexivity]. apply Hin. right.
        exists r0, day, (isoformat dt), dt.
        split; [exact Hr0|]. split.
        { unfold recurring_item. simpl. repeat split; discriminate. }
        split; [split; [exact Hday|split; right; reflexivity]|].
        split; [apply repeats_on_selection; [exact Hw|apply weekday_range|exact H]|].
        split; [reflexivity|]. split; [|reflexivity].
        apply fromisoformat_isoformat; assumption.
      * subst day. exists (select_event r0). split; [|reflexivity].
        apply Hin. left. exists r0, (str_date (dt_date dt)).
        split; [exact Hr0|]. split.
        { unfold one_shot_item. simpl. auto. }
        split.
        { exists (isoformat dt). split; [reflexivity|].
          apply sqlite_date_isoformat; assumption. }
        split; [|reflexivity].
        rewrite range_test_same. apply String.eqb_refl.
Qed.


Lemma example_db_well_formed : well_formed example_db.
Proof.
  split; [exact example_ids_unique|].
  intros r Hr. simpl in Hr. destruct Hr as [<-|[<-|[<-|[<-|[]]]]]; simpl; lia.
Qed.

End CreatedEventDays.

Lemma created_event_days_witness :
  let dt := mkDatetime (jan 5) (mkTime 18 0 0 0) in
  let d' := add_task example_db (popup_task "Gym" dt true [4; 0]) in
  well_formed example_db /\
  valid_date (dt_date dt) = true /\ valid_time (dt_time dt) = true /\
  weekdays [4; 0] /\
  create_event_from_popup example_db "Gym" dt true [4; 0] = Saved d' /\
  valid_date (jan 8) = true /\ date_lt (jan 8) date_max /\
  exists events,
    get_schedule_by_date_range d' (jan 8) (jan 8) = Ok events /\
    exists ev, In ev events /\ ev_id ev = 5.
Proof.
  intros dt d'.
  assert (Hw : weekdays [4; 0]) by (intros w [<-|[<-|[]]]; lia).
  assert (Hc : create_event_from_popup example_db "Gym" dt true [4; 0] = Saved d')
    by reflexivity.
  split; [exact example_db_well_formed|]. split; [reflexivity|].
  split; [reflexivity|]. split; [exact Hw|]. split; [exact Hc|].
  split; [reflexivity|]. split; [apply jan_before_max|].
  destruct (created_event_days example_db "Gym" dt true [4; 0] d'
              example_db_well_formed eq_refl eq_refl Hw Hc (jan 8) eq_refl
              (jan_before_max 8)) as (events & E & _ & Hiff).
  exists events. split; [exact E|].
  apply Hiff. simpl. right. left. reflexivity.
Defined.


(** * The time picker and the stored time *)

Section PickerTime.

Lemma hour_24_range h ampm :
  1 <= h <= 12 -> ampm = "AM" \/ ampm = "PM" ->
  0 <= hour_24 h ampm < 24 /\
  (if hour_24 h ampm mod 12 =? 0 then 12 else hour_24 h ampm mod 12) = h /\
  (if hour_24 h ampm <? 12 then "AM" else "PM") = ampm.
Proof.
  intros Hh [-> | ->]; unfold hour_24; simpl;
    destruct (Z.eqb_spec h 12) as [->|Hne]; simpl; try (repeat split; lia).
  - assert (E : h mod 12 = h) by (apply Z.mod_small; lia). rewrite E.
    destruct (Z.eqb_spec h 0); [lia|]. destruct (Z.ltb_spec h 12); [|lia].
    repeat split; lia.
  - assert (E : (h + 12) mod 12 = h)
      by (rewrite <- (Z.mod_small h 12) at 2 by lia;
          rewrite <- Z.add_mod_idemp_r by lia; rewrite Z.mod_same by lia;
          rewrite Z.add_0_r; reflexivity).
    rewrite E.
    destruct (Z.eqb_spec h 0); [lia|]. destruct (Z.ltb_spec (h + 12) 12); [lia|].
    repeat split; lia.
Qed.

Lemma hour_12_range H :
  0 <= H < 24 ->
  1 <= (if H mod 12 =? 0 then 12 else H mod 12) <= 12 /\
  hour_24 (if H mod 12 =? 0 then 12 else H mod 12)
          (if H <? 12 then "AM" else "PM") = H.
Proof.
  intros HH. pose proof (Z.mod_pos_bound H 12).
  unfold hour_24.
  destruct (Z.eqb_spec (H mod 12) 0) as [E|E];
    destruct (Z.ltb_spec H 12); simpl.
  - split; [lia|]. rewrite Z.mod_small in E by lia. lia.
  - split; [lia|]. Z.div_mod_to_equations. lia.
  - split; [lia|]. rewrite Z.mod_small in * by lia.
    destruct (Z.eqb_spec H 12); [lia|reflexivity].
  - split; [lia|]. destruct (Z.eqb_spec (H mod 12) 12); [lia|].
    simpl. Z.div_mod_to_equations. lia.
Qed.

End PickerTime.

Section PickedTimeIsShownAgain.

Context {lib : Library}.

(** A time chosen in the picker (hour 1 to 12, minute, AM or PM) and
    saved comes back as the same choice when the event is opened for
    editing: the stored hour is in 0..23, and the edit popup sets the
    picker to the hour, minute and AM/PM that were chosen, with the date
    and the 24-hour time the popups read. *)
Theorem picked_time_is_shown_again h m ampm d p :
  picker_choice h m ampm -> valid_date d = true ->
  let chosen := mkPicker (selected_event_date p) (selected_event_time p)
                         (Some h) (Some m) (Some ampm) in
  let time_str := pad2 (hour_24 h ampm) +:+ ":" +:+ pad2 m in
  let stored := isoformat (mkDatetime d (mkTime (hour_24 h ampm) m 0 0)) in
  selected_event_time (fst (confirm_time_selection chosen)) = Some time_str /\
  0 <= hour_24 h ampm < 24 /\
  fst (prefill_time (Some stored) p) =
    mkPicker (Some (str_date d)) (Some time_str) (Some h) (Some m) (Some ampm).
Proof.
  intros (Hh & Hm & Hampm) Hd chosen time_str stored.
  destruct (hour_24_range h ampm Hh Hampm) as (H24 & H12 & Hap).
  split; [reflexivity|]. split; [exact H24|].
  unfold prefill_time, stored. rewrite truthy_isoformat.
  cbn [mbind option_bind].
  rewrite fromisoformat_isoformat.
  - cbn [dt_date dt_time hour minute fst]. rewrite H12, Hap. reflexivity.
  - exact Hd.
  - unfold valid_time. cbn [dt_time hour minute second microsecond].
    repeat (apply andb_true_intro; split); lia.
Qed.

End PickedTimeIsShownAgain.

Lemma picked_time_is_shown_again_witness :
  picker_choice 12 30 "AM" /\ valid_date (jan 5) = true /\
  fst (prefill_time (Some "2024-01-05T00:30:00") (mkPicker None None None None None)) =
  mkPicker (Some "2024-01-05") (Some "00:30") (Some 12) (Some 30) (Some "AM").
Proof.
  assert (H : picker_choice 12 30 "AM") by (unfold picker_choice; auto with zarith).
  split; [exact H|]. split; [reflexivity|].
  exact (proj2 (proj2 (picked_time_is_shown_again 12 30 "AM" (jan 5)
                         (mkPicker None None None None None) H eq_refl))).
Defined.

Section ReopenedTimeIsKept.

Context {lib : Library}.

(** Opening an event for editing and confirming the time picker without
    touching it changes nothing: the picker is filled from the stored
    start_time with an hour from 1 to 12, and confirming yields the
    stored hour and minute again. *)
Theorem reopened_time_is_kept st dt p :
  fromisoformat st = Some dt ->
  let filled := fst (prefill_time (Some st) p) in
  selected_event_date filled = Some (str_date (dt_date dt)) /\
  selected_event_time filled =
    Some (pad2 (hour (dt_time dt)) +:+ ":" +:+ pad2 (minute (dt_time dt))) /\
  (exists h, selected_hour filled = Some h /\ 1 <= h <= 12) /\
  fst (confirm_time_selection (open_time_picker_for_edit_event filled)) = filled.
Proof.
  intros Hp filled.
  assert (Ht : truthy (Some st) = true) by (apply (truthy_parse (Some st) dt), Hp).
  destruct (fromisoformat_valid _ _ Hp) as [_ Hv].
  assert (HH : 0 <= hour (dt_time dt) < 24)
    by (pose proof (valid_time_fields _ Hv); lia).
  destruct (hour_12_range _ HH) as [H12 H24].
  unfold filled, prefill_time. rewrite Ht. cbn [mbind option_bind]. rewrite Hp.
  cbn [fst selected_event_date selected_event_time selected_hour].
  split; [reflexivity|]. split; [reflexivity|].
  split; [eexists; split; [reflexivity|exact H12]|].
  unfold open_time_picker_for_edit_event, render_time_picker, confirm_time_selection.
  cbn [selected_hour selected_minute selected_ampm selected_event_date
       selected_event_time fst].
  rewrite H24. reflexivity.
Qed.

End ReopenedTimeIsKept.

Lemma reopened_time_is_kept_witness :
  fromisoformat "2024-01-03T14:00:00" =
    Some (mkDatetime (jan 3) (mkTime 14 0 0 0)) /\
  fst (prefill_time (Some "2024-01-03T14:00:00") (mkPicker None None None None None)) =
  mkPicker (Some "2024-01-03") (Some "14:00") (Some 2) (Some 0) (Some "PM") /\
  fst (confirm_time_selection
         (open_time_picker_for_edit_event
            (mkPicker (Some "2024-01-03") (Some "14:00") (Some 2) (Some 0)
                      (Some "PM")))) =
  mkPicker (Some "2024-01-03") (Some "14:00") (Some 2) (Some 0) (Some "PM").
Proof.
  assert (H : fromisoformat "2024-01-03T14:00:00" =
              Some (mkDatetime (jan 3) (mkTime 14 0 0 0))) by reflexivity.
  split; [exact H|]. split; [reflexivity|].
  exact (proj2 (proj2 (proj2 (reopened_time_is_kept _ _
                  (mkPicker None None None None None) H)))).
Defined.


(** * The spoken time *)

Section SpokenTime.

Lemma In_upto n x : 0 <= x < Z.of_nat n -> In x (upto n).
Proof.
  intros H. unfold upto. apply in_map_iff. exists (Z.to_nat x).
  split; [lia|]. apply in_seq. lia.
Qed.

Lemma time_eqb_eq a b : time_eqb a b = true -> a = b.
Proof.
  destruct a, b. unfold time_eqb. simpl. intros H.
  apply andb_prop in H. destruct H as [H H4].
  apply andb_prop in H. destruct H as [H H3].
  apply andb_prop in H. destruct H as [H1 H2].
  apply Z.eqb_eq in H1, H2, H3, H4. congruence.
Qed.

Lemma suggestions_read_back_true : suggestions_read_back = true.
Proof. vm_compute. reflexivity. Qed.

Lemma matched_valid r t : matched r = Some t -> valid_time t = true.
Proof.
  unfold matched. destruct r as [[t' [|c s]]|]; try discriminate.
  destruct (valid_time t') eqn:E; [|discriminate]. intros [= <-]. exact E.
Qed.

Lemma or_else_valid (x y : option time) t :
  (forall t, x = Some t -> valid_time t = true) ->
  (forall t, y = Some t -> valid_time t = true) ->
  or_else x y = Some t -> valid_time t = true.
Proof. intros Hx Hy. destruct x; simpl; intros H; [apply Hx, H|apply Hy, H]. Qed.

Lemma spoken_time_valid s : valid_time (spoken_time s) = true.
Proof.
  unfold spoken_time.
  set (l := remove_char "." (remove_char " " (strip (lower s)))).
  match goal with |- valid_time (match ?p with _ => _ end) = true =>
    assert (H : forall t, p = Some t -> valid_time t = true);
      [|destruct p as [t|]; [apply H; reflexivity|reflexivity]] end.
  intros t. destruct (contains "pm" l || contains "am" l).
  - apply or_else_valid; [intros t'; apply matched_valid|].
    intros t'. apply or_else_valid; intros t''; apply matched_valid.
  - destruct (contains ":" l); [|discriminate].
    apply or_else_valid; intros t'; apply matched_valid.
Qed.

End SpokenTime.

Section SpokenTimeReadBack.

(** A time the assistant suggests after a conflict ("1pm", "1:30pm",
    "12am"), said back to it, is read as the time suggested, and a
    24-hour time "HH:MM" is read as written. *)
Theorem spoken_time_read_back dt :
  0 <= hour (dt_time dt) < 24 -> 0 <= minute (dt_time dt) < 60 ->
  spoken_time (format_12h dt) =
    mkTime (hour (dt_time dt)) (minute (dt_time dt)) 0 0 /\
  spoken_time (pad2 (hour (dt_time dt)) +:+ ":" +:+ pad2 (minute (dt_time dt))) =
    mkTime (hour (dt_time dt)) (minute (dt_time dt)) 0 0.
Proof.
  destruct dt as [d [h m s]]. cbn [dt_time hour minute]. intros Hh Hm.
  pose proof suggestions_read_back_true as H. unfold suggestions_read_back in H.
  rewrite forallb_forall in H. specialize (H h (In_upto 24 h ltac:(lia))).
  rewrite forallb_forall in H. specialize (H m (In_upto 60 m ltac:(lia))).
  apply andb_prop in H. destruct H as [H1 H2].
  apply time_eqb_eq in H1, H2. split; [exact H1|exact H2].
Qed.

End SpokenTimeReadBack.

Lemma spoken_time_read_back_witness :
  0 <= 13 < 24 /\ 0 <= 30 < 60 /\
  spoken_time "1:30pm" = mkTime 13 30 0 0 /\
  spoken_time "13:30" = mkTime 13 30 0 0.
Proof.
  assert (Hh : 0 <= 13 < 24) by lia. assert (Hm : 0 <= 30 < 60) by lia.
  split; [exact Hh|]. split; [exact Hm|].
  exact (spoken_time_read_back (mkDatetime (jan 1) (mkTime 13 30 0 0)) Hh Hm).
Defined.

Section VoiceEventNeedsTime.

Context {lib : Library}.

(** An event spoken without a time is never stored, whichever thread
    the command runs on: the table is as before.  On the main thread the
    reply is that the event could not be added. *)
Theorem voice_event_needs_time who d today target_date title :
  snd (add_event_voice_at who d today target_date title "") = d /\
  add_event_voice_at MainThread d today target_date title "" =
  (if String.eqb title "" then "Please provide an event title"
   else "Could not add event", d).
Proof.
  unfold add_event_voice_at, add_event_voice. split.
  - destruct (String.eqb title ""); [reflexivity|].
    cbn [String.eqb]. destruct (date_display today target_date); [|reflexivity].
    destruct who; reflexivity.
  - destruct (String.eqb title ""); [reflexivity|].
    cbn [String.eqb]. destruct (date_display today target_date); reflexivity.
Qed.

End VoiceEventNeedsTime.


(** * A slot stays taken *)

Section SlotTaken.

Context {lib : Library}.

Variable d : db.
Variable title : string.
Variable dt : datetime.
Variable is_recurring : bool.
Variable days : list Z.
Hypothesis dt_date_valid : valid_date (dt_date dt) = true.
Hypothesis dt_time_valid : valid_time (dt_time dt) = true.
Hypothesis dt_not_last : date_lt (dt_date dt) date_max.

(** The event a popup or the voice command has added is listed on its
    own date, at its own minute, when it is a one-shot event or repeats
    on the weekday of that date. *)
Lemma added_event_occupies :
  weekdays days ->
  (is_recurring = true -> In (weekday (dt_date dt)) days) ->
  exists existing ev,
    get_schedule_by_date_range (add_task d (popup_task title dt is_recurring days))
                               (dt_date dt) (dt_date dt) = Ok existing /\
    In ev existing /\ occupies (dt_date dt) ev (time_key dt) /\ ev_title ev = title.
Proof.
  intros Hw Hrec.
  set (task := popup_task title dt is_recurring days).
  set (r0 := row_of (seq d + 1) task).
  assert (Hr0 : In r0 (rows (add_task d task))).
  { simpl. apply in_app_iff. right. left. reflexivity. }
  assert (Hiso : fromisoformat (isoformat dt) = Some dt)
    by (apply fromisoformat_isoformat; assumption).
  destruct (range_events_mem (add_task d task) _ _ dt_date_valid dt_date_valid
              dt_not_last) as (existing & E & _ & Hin).
  exists existing.
  assert (Hdt : dt = combine (dt_date dt) (dt_time dt)) by (destruct dt; reflexivity).
  destruct is_recurring eqn:Er.
  - exists (instance_at (dt_date dt) (dt_time dt) (select_event r0)).
    split; [exact E|]. split; [|split; [|reflexivity]].
    + apply Hin. right. exists r0, (dt_date dt), (isoformat dt), dt.
      split; [exact Hr0|]. split.
      { unfold recurring_item. simpl. repeat split; discriminate. }
      split; [split; [exact dt_date_valid|split; right; reflexivity]|].
      split; [apply repeats_on_selection;
              [exact Hw|apply weekday_range|apply Hrec; reflexivity]|].
      split; [reflexivity|]. split; [exact Hiso|reflexivity].
    + exists (isoformat dt), dt. simpl. rewrite <- Hdt. auto.
  - exists (select_event r0).
    split; [exact E|]. split; [|split; [|reflexivity]].
    + apply Hin. left. exists r0, (str_date (dt_date dt)).
      split; [exact Hr0|]. split; [unfold one_shot_item; simpl; auto|].
      split.
      { exists (isoformat dt). split; [reflexivity|].
        apply sqlite_date_isoformat; assumption. }
      split; [|reflexivity].
      rewrite range_test_same. apply String.eqb_refl.
    + exists (isoformat dt), dt. simpl. auto.
Qed.

(** What is listed after the addition was listed before, or carries the
    title of the event added. *)
Lemma added_event_or_old existing existing' :
  get_schedule_by_date_range d (dt_date dt) (dt_date dt) = Ok existing ->
  get_schedule_by_date_range (add_task d (popup_task title dt is_recurring days))
                             (dt_date dt) (dt_date dt) = Ok existing' ->
  forall ev, In ev existing' -> In ev existing \/ ev_title ev = title.
Proof.
  intros E E' ev Hev.
  destruct (range_events_mem d _ _ dt_date_valid dt_date_valid dt_not_last)
    as (l & El & _ & Hin).
  rewrite E in El. injection El as <-.
  destruct (range_events_mem (add_task d (popup_task title dt is_recurring days))
              _ _ dt_date_valid dt_date_valid dt_not_last) as (l' & El' & _ & Hin').
  rewrite E' in El'. injection El' as <-.
  apply Hin' in Hev.
  destruct Hev as [(r & day & Hr & Hrest)|(r & day & st & dt0 & Hr & Hrest)];
    simpl in Hr; apply in_app_iff in Hr; destruct Hr as [Hr|[<-|[]]].
  - left. apply Hin. left. exists r, day. tauto.
  - right. destruct Hrest as (_ & _ & _ & ->). reflexivity.
  - left. apply Hin. right. exists r, day, st, dt0. tauto.
  - right. destruct Hrest as (_ & _ & _ & _ & _ & ->). reflexivity.
Qed.

End SlotTaken.


Section VoiceSlotTaken.

Context {lib : Library}.

(** After an event was spoken for a date and a time, the check of a
    second command for the same date, hour and minute finds a conflict
    and stores nothing, whether the first command added its event or met
    a conflict itself, and on whichever threads the two commands run.
    The second caller is answered with the conflict message when it
    learns what the check found (always on the main thread); when the
    first command added its event, it is the title of that event the
    message names. *)
Theorem voice_slot_taken who d today target title time_str :
  title <> "" -> time_str <> "" ->
  valid_date target = true -> year today < MAXYEAR -> inner_year target ->
  let first := add_event_voice_at who d today target title time_str in
  (snd first = d \/
   snd first = add_task d (new_task title
                 (Some (isoformat (combine target (spoken_time time_str)))))) /\
  forall who2 title2 time_str2,
    title2 <> "" -> time_str2 <> "" ->
    hour (spoken_time time_str2) = hour (spoken_time time_str) ->
    minute (spoken_time time_str2) = minute (spoken_time time_str) ->
    exists conflicting_title shown suggestions,
      date_display today target = Ok shown /\
      add_event_voice_at who2 (snd first) today target title2 time_str2 =
        (if heard who2
         then conflict_message conflicting_title time_str2 shown suggestions
         else "Added '" +:+ title2 +:+ "' on " +:+ shown +:+ " at " +:+ time_str2,
         snd first) /\
      (snd first <> d -> conflicting_title = title).
Proof.
  intros Ht Hts Hv Htoday Hinner first.
  pose proof (inner_year_lt_max _ Hv Hinner) as Hmax.
  set (t := spoken_time time_str) in *.
  pose proof (spoken_time_valid time_str) as Hvt. fold t in Hvt.
  destruct (range_events_mem d target target Hv Hv Hmax) as (existing & E & _ & _).
  destruct (date_display_defined today target Htoday) as (shown & Es).
  destruct (probes_exist (combine target t) Hinner) as (alts & Hp).
  assert (Hfirst : first =
            match first_at target (time_key (combine target t)) existing with
            | Some e => (if heard who
                         then conflict_message (ev_title e) time_str shown
                                (suggestions_for target existing alts)
                         else "Added '" +:+ title +:+ "' on " +:+ shown +:+ " at "
                                +:+ time_str, d)
            | None => ("Added '" +:+ title +:+ "' on " +:+ shown +:+ " at "
                         +:+ time_str,
                       add_task d (new_task title
                                     (Some (isoformat (combine target t)))))
            end).
  { unfold first, add_event_voice_at. fold t.
    apply add_event_voice_cases; assumption. }
  assert (Hsecond : forall who2 d1 existing1 title2 time_str2 e1,
            get_schedule_by_date_range d1 target target = Ok existing1 ->
            title2 <> "" -> time_str2 <> "" ->
            hour (spoken_time time_str2) = hour t ->
            minute (spoken_time time_str2) = minute t ->
            first_at target (time_key (combine target t)) existing1 = Some e1 ->
            exists suggestions,
              add_event_voice_at who2 d1 today target title2 time_str2 =
              (if heard who2
               then conflict_message (ev_title e1) time_str2 shown suggestions
               else "Added '" +:+ title2 +:+ "' on " +:+ shown +:+ " at "
                      +:+ time_str2, d1)).
  { intros who2 d1 existing1 title2 time_str2 e1 E1 Ht2 Hts2 Hh Hm Hf.
    destruct (probes_exist (combine target (spoken_time time_str2)) Hinner)
      as (alts2 & Hp2).
    exists (suggestions_for target existing1 alts2).
    unfold add_event_voice_at.
    rewrite (proj2 (add_event_voice_cases who2 d1 today target title2 time_str2 _
               existing1 shown alts2 Ht2 Hts2 Hv (spoken_time_valid time_str2)
               E1 Es Hp2)).
    replace (time_key (combine target (spoken_time time_str2)))
      with (time_key (combine target t))
      by (unfold time_key; simpl; congruence).
    rewrite Hf. reflexivity. }
  destruct (first_at target (time_key (combine target t)) existing) as [e|] eqn:Ef.
  - rewrite Hfirst. cbn [snd]. split; [left; reflexivity|].
    intros who2 title2 time_str2 Ht2 Hts2 Hh Hm.
    destruct (Hsecond who2 d existing title2 time_str2 e E Ht2 Hts2 Hh Hm Ef)
      as (sg & Hs).
    exists (ev_title e), shown, sg. split; [exact Es|]. split; [exact Hs|].
    intros Hne. destruct Hne. reflexivity.
  - rewrite Hfirst. cbn [snd]. split; [right; reflexivity|].
    intros who2 title2 time_str2 Ht2 Hts2 Hh Hm.
    change (new_task title (Some (isoformat (combine target t))))
      with (popup_task title (combine target t) false []) in *.
    destruct (added_event_occupies d title (combine target t) false [] Hv Hvt Hmax)
      as (existing1 & ev & E1 & Hev & Hocc & Htitle).
    { intros w []. }
    { discriminate. }
    cbn [dt_date combine] in E1, Hev, Hocc.
    assert (Htaken : taken target existing1 (time_key (combine target t)) = true)
      by (apply taken_iff; exists ev; auto).
    apply first_at_taken in Htaken. destruct Htaken as (e1 & Ef1).
    destruct (Hsecond who2 _ existing1 title2 time_str2 e1 E1 Ht2 Hts2 Hh Hm Ef1)
      as (sg & Hs).
    exists (ev_title e1), shown, sg. split; [exact Es|]. split; [exact Hs|].
    intros _. apply first_at_occupies in Ef1. destruct Ef1 as [Hin1 Hocc1].
    destruct (added_event_or_old d title (combine target t) false [] Hv Hmax
                existing existing1 E E1 e1 Hin1) as [Hold|Hnew]; [|exact Hnew].
    exfalso. exact (proj1 (first_at_none _ _ _) Ef e1 Hold Hocc1).
Qed.

End VoiceSlotTaken.


Lemma voice_slot_taken_witness :
  "Gym" <> "" /\ "6pm" <> "" /\ valid_date (jan 5) = true /\
  year (jan 1) < MAXYEAR /\ inner_year (jan 5) /\
  exists conflicting_title shown suggestions,
    add_event_voice_at MainThread
      (snd (add_event_voice_at (OtherThread false) example_db (jan 1) (jan 5)
              "Gym" "6pm"))
      (jan 1) (jan 5) "Run" "6:00 PM" =
    (conflict_message conflicting_title "6:00 PM" shown suggestions,
     snd (add_event_voice_at (OtherThread false) example_db (jan 1) (jan 5)
            "Gym" "6pm")).
Proof.
  assert (H1 : "Gym" <> "") by discriminate.
  assert (H2 : "6pm" <> "") by discriminate.
  assert (H3 : year (jan 1) < MAXYEAR) by (unfold MAXYEAR; simpl; lia).
  assert (H4 : inner_year (jan 5)) by (unfold inner_year, MINYEAR, MAXYEAR; simpl; lia).
  split; [exact H1|]. split; [exact H2|]. split; [reflexivity|].
  split; [exact H3|]. split; [exact H4|].
  destruct (proj2 (voice_slot_taken (OtherThread false) example_db (jan 1) (jan 5)
                     "Gym" "6pm" H1 H2 eq_refl H3 H4) MainThread "Run" "6:00 PM")
    as (c & s & sg & _ & E & _);
    [discriminate|discriminate|reflexivity|reflexivity|].
  exists c, s, sg. exact E.
Defined.

Section PopupSlotTaken.

Context {lib : Library}.

(** After the create popup saved an event that is listed on its own
    date (a one-shot event, or a repeating one whose date falls on one
    of its days), creating another event for the same date, hour and
    minute is refused with the message that an event already exists. *)
Theorem popup_slot_taken d title dt is_recurring selected_repeat_days d' :
  valid_date (dt_date dt) = true -> valid_time (dt_time dt) = true ->
  date_lt (dt_date dt) date_max ->
  weekdays selected_repeat_days ->
  (is_recurring = true -> In (weekday (dt_date dt)) selected_repeat_days) ->
  create_event_from_popup d title dt is_recurring selected_repeat_days = Saved d' ->
  forall title2 dt2 is_recurring2 selected_repeat_days2,
    title2 <> "" -> (is_recurring2 = true -> selected_repeat_days2 <> []) ->
    dt_date dt2 = dt_date dt ->
    hour (dt_time dt2) = hour (dt_time dt) ->
    minute (dt_time dt2) = minute (dt_time dt) ->
    create_event_from_popup d' title2 dt2 is_recurring2 selected_repeat_days2 =
    ErrorPopup already_exists.
Proof.
  intros Hd Ht Hmax Hw Hrec Hc title2 dt2 rec2 days2 Ht2 Hrec2 Hdate Hh Hm.
  apply create_saved in Hc. subst d'.
  destruct (added_event_occupies d title dt is_recurring selected_repeat_days
              Hd Ht Hmax Hw Hrec) as (existing & ev & E & Hev & Hocc & _).
  destruct (recurring_guard _ _ Hrec2) as [G1 _].
  unfold create_event_from_popup.
  rewrite (eqb_false_of_ne _ Ht2), G1, Hdate, E.
  rewrite (existsb_ext_eq _ _ _ (same_slot_takes (dt_date dt) dt2)), existsb_takes.
  replace (taken (dt_date dt) existing (time_key dt2)) with true; [reflexivity|].
  symmetry. apply taken_iff. exists ev. split; [exact Hev|].
  replace (time_key dt2) with (time_key dt); [exact Hocc|].
  unfold time_key. congruence.
Qed.

End PopupSlotTaken.

Lemma popup_slot_taken_witness :
  let dt := mkDatetime (jan 5) (mkTime 18 0 0 0) in
  let d' := add_task example_db (popup_task "Gym" dt false []) in
  valid_date (dt_date dt) = true /\ valid_time (dt_time dt) = true /\
  date_lt (dt_date dt) date_max /\ weekdays [] /\
  (false = true -> In (weekday (dt_date dt)) []) /\
  create_event_from_popup example_db "Gym" dt false [] = Saved d' /\
  create_event_from_popup d' "Run" (mkDatetime (jan 5) (mkTime 18 0 30 0)) false [] =
  ErrorPopup already_exists.
Proof.
  intros dt d'.
  assert (Hw : weekdays []) by (intros w []).
  assert (Hr : false = true -> In (weekday (dt_date dt)) []) by discriminate.
  assert (Hc : create_event_from_popup example_db "Gym" dt false [] = Saved d')
    by reflexivity.
  split; [reflexivity|]. split; [reflexivity|]. split; [apply jan_before_max|].
  split; [exact Hw|]. split; [exact Hr|]. split; [exact Hc|].
  apply (popup_slot_taken example_db "Gym" dt false [] d' eq_refl eq_refl
           (jan_before_max 5) Hw Hr Hc "Run" (mkDatetime (jan 5) (mkTime 18 0 30 0))
           false []); [discriminate|discriminate|reflexivity|reflexivity|reflexivity].
Defined.


(** * The date hint *)

Section DateHint.

(** Within a month's worth of days from a date before the last year,
    adding days runs through dates that exist. *)
Lemma add_days_spec d n :
  valid_date d = true -> year d < MAXYEAR -> 0 <= n <= 31 ->
  exists target,
    add_days d n = Ok target /\ valid_date target = true /\
    toordinal target = toordinal d + n.
Proof.
  intros Hv Hy Hn. unfold add_days.
  destruct (Z.leb_spec 0 n) as [_|]; [|lia].
  assert (G : forall k, (k <= 31)%nat ->
    exists x, Nat.iter k (fun r => r ≫= next_day) (Ok d) = Ok x /\
      valid_date x = true /\ toordinal x = toordinal d + Z.of_nat k /\
      (year x < MAXYEAR \/
       (year x = MAXYEAR /\ month x = 1 /\ day x <= Z.of_nat k))).
  { induction k as [|k IH]; intros Hk.
    - exists d. simpl. repeat split; [exact Hv|lia|left; exact Hy].
    - destruct IH as (x & E & Hx & Ho & Hi); [lia|].
      assert (Hne : x <> date_max).
      { intros ->. unfold date_max, MAXYEAR in Hi. simpl in Hi. lia. }
      destruct (next_day_spec x date_max Hx eq_refl (date_lt_max _ Hx Hne))
        as (nx & En & Hnx & _ & _).
      exists nx. rewrite Nat.iter_succ, E. cbn [mbind result_bind bind].
      split; [exact En|]. split; [exact Hnx|]. split.
      + rewrite (next_day_toordinal x nx Hx En). lia.
      + pose proof (valid_date_bounds _ Hx) as Bx.
        unfold next_day, MAXYEAR in *. destruct x as [y m dd].
        cbn [year month day] in *.
        destruct (Z.ltb_spec dd (days_in_month y m)).
        * injection En as <-. cbn [year month day]. lia.
        * destruct (Z.ltb_spec m 12).
          -- injection En as <-. cbn [year month day].
             destruct Hi as [Hi|(Hi1 & Hi2 & Hi3)]; [left; exact Hi|].
             subst m. unfold days_in_month in *. simpl in *. lia.
          -- destruct (Z.ltb_spec y 9999); [|discriminate].
             injection En as <-. cbn [year month day]. lia. }
  destruct (G (Z.to_nat n)) as (x & E & Hx & Ho & _); [lia|].
  exists x. split; [exact E|]. split; [exact Hx|]. lia.
Qed.

Lemma day_names_range name num : In (name, num) day_names -> 0 <= num <= 6.
Proof.
  unfold day_names. simpl. intros H.
  repeat (destruct H as [H|H]; [injection H as _ <-; lia|]). destruct H.
Qed.

Lemma lower_app a b : lower (a +:+ b) = lower a +:+ lower b.
Proof. induction a as [|c a IH]; simpl; [reflexivity|]. rewrite IH. reflexivity. Qed.

Lemma prefix_app a b : String.prefix a (a +:+ b) = true.
Proof.
  induction a as [|c a IH]; simpl; [destruct b; reflexivity|].
  destruct (ascii_dec c c); [exact IH|contradiction].
Qed.

Lemma contains_prefix p s : String.prefix p s = true -> contains p s = true.
Proof. intros H. destruct s; simpl; simpl in H; rewrite H; reflexivity. Qed.

End DateHint.

Section WeekdayHintDate.

(** A hint or title that names a weekday, and has none of the words
    today, tomorrow and next week, is read as a date that exists, lies
    1 to 13 days after today (at most 7 without the word next) and
    falls on the weekday named, the first of the names in the order of
    the table that occurs in the text. *)
Theorem weekday_hint_date today date_hint title day_name day_num :
  valid_date today = true -> year today < MAXYEAR ->
  no_day_word date_hint (lower (date_hint +:+ " " +:+ title)) ->
  find (fun entry => contains (fst entry) (lower (date_hint +:+ " " +:+ title)))
       day_names = Some (day_name, day_num) ->
  exists target k,
    parse_date_hint_words today date_hint title = Some (Ok target) /\
    valid_date target = true /\
    toordinal target = toordinal today + k /\ 1 <= k <= 13 /\
    (contains "next" (lower (date_hint +:+ " " +:+ title)) = false -> k <= 7) /\
    weekday target = day_num.
Proof.
  intros Hv Hy (H1 & H2 & H3 & H4) Hf.
  set (text := lower (date_hint +:+ " " +:+ title)) in *.
  pose proof (find_some _ _ Hf) as [Hin _]. apply day_names_range in Hin.
  pose proof (weekday_range today) as Hc.
  set (k := if contains "next" text || (day_num - weekday today <=? 0)
            then day_num - weekday today + 7 else day_num - weekday today).
  assert (Hk : 1 <= k <= 13 /\ (contains "next" text = false -> k <= 7) /\
               (k = day_num - weekday today \/ k = day_num - weekday today + 7)).
  { unfold k. destruct (contains "next" text); simpl.
    - split; [lia|]. split; [discriminate|]. right. reflexivity.
    - destruct (Z.leb_spec (day_num - weekday today) 0).
      + split; [lia|]. split; [intros _; lia|]. right. reflexivity.
      + split; [lia|]. split; [intros _; lia|]. left. reflexivity. }
  destruct Hk as (Hk1 & Hk2 & Hk3).
  destruct (add_days_spec today k Hv Hy) as (target & E & Ht & Ho); [lia|].
  exists target, k.
  split; [|split; [exact Ht|split; [exact Ho|split; [exact Hk1|split; [exact Hk2|]]]]].
  - unfold parse_date_hint_words. fold text. rewrite H1, H3, H4, Hf.
    rewrite (eqb_false_of_ne _ H2).
    assert (Hl : String.eqb (lower date_hint) "today" = false).
    { apply String.eqb_neq. intros El.
      assert (Hp : contains "today" text = true).
      { apply contains_prefix. unfold text. rewrite lower_app, El.
        apply (prefix_app "today"). }
      congruence. }
    rewrite Hl. cbn [orb]. fold k. rewrite E. reflexivity.
  - unfold weekday in *. rewrite Ho.
    destruct Hk3 as [-> | ->]; Z.div_mod_to_equations; lia.
Qed.

End WeekdayHintDate.

Lemma weekday_hint_date_witness :
  valid_date (jan 1) = true /\ year (jan 1) < MAXYEAR /\
  no_day_word "next friday" (lower ("next friday" +:+ " " +:+ "Dinner")) /\
  exists target k,
    parse_date_hint_words (jan 1) "next friday" "Dinner" = Some (Ok target) /\
    toordinal target = toordinal (jan 1) + k /\ weekday target = 4.
Proof.
  assert (Hy : year (jan 1) < MAXYEAR) by (unfold MAXYEAR; simpl; lia).
  assert (Hn : no_day_word "next friday" (lower ("next friday" +:+ " " +:+ "Dinner"))).
  { unfold no_day_word. repeat split; try reflexivity. discriminate. }
  split; [reflexivity|]. split; [exact Hy|]. split; [exact Hn|].
  destruct (weekday_hint_date (jan 1) "next friday" "Dinner" "friday" 4
              eq_refl Hy Hn eq_refl) as (target & k & E & _ & Ho & _ & _ & Hw).
  exists target, k. auto.
Defined.


(** * The dots of the month grid *)

Section GridFacts.

Context {lib : Library}.

Lemma date_key_inj a b : date_key a = date_key b -> a = b.
Proof. destruct a, b. unfold date_key. simpl. congruence. Qed.

Lemma py_bool_flag (z : option Z) : py_bool z = true \/ py_bool z = false.
Proof. destruct (py_bool z); auto. Qed.

(** What one round of the loop adds to the two dicts. *)
Lemma mark_event_spec (marks : gmap (Z * Z * Z) bool * gmap (Z * Z * Z) bool)
    (event : event_tuple) (k : Z * Z * Z) :
  (is_Some (fst (mark_event marks event) !! k) <->
   is_Some (fst marks !! k) \/
   exists day, k = date_key day /\ marked_on day false event) /\
  (is_Some (snd (mark_event marks event) !! k) <->
   is_Some (snd marks !! k) \/
   exists day, k = date_key day /\ marked_on day true event).
Proof.
  unfold mark_event, marked_on.
  destruct (ev_start_time event) as [st|] eqn:Est.
  2:{ simpl. split; (split; [auto|]); intros [H|(day & _ & _ & st & dt & E & _)];
        try exact H; discriminate. }
  destruct (truthy (Some st)) eqn:Et.
  2:{ assert (Hn : fromisoformat st = None)
        by (destruct st; [apply fromisoformat_empty|discriminate]).
      split; (split; [auto|]);
        intros [H|(day & _ & _ & st' & dt & [= <-] & E & _)]; try exact H;
        congruence. }
  cbn [mbind option_bind]. destruct (fromisoformat st) as [dt|] eqn:Ep.
  2:{ split; (split; [auto|]);
        intros [H|(day & _ & _ & st' & dt & [= <-] & E & _)]; try exact H;
        congruence. }
  destruct (py_bool (ev_is_recurring event)) eqn:Ef.
  - split.
    + assert (Hsame : fst (match snd marks !! date_key (dt_date dt) with
                           | Some _ => marks
                           | None => (fst marks,
                                      <[date_key (dt_date dt) := true]> (snd marks))
                           end) = fst marks)
        by (destruct (snd marks !! _); reflexivity).
      rewrite Hsame. split; [auto|].
      intros [H|(day & _ & [=] & _)]. exact H.
    + destruct (snd marks !! date_key (dt_date dt)) as [b|] eqn:El.
      * split; [auto|]. intros [H|(day & -> & _ & st' & dt' & [= <-] & E & <-)];
          [exact H|]. rewrite Ep in E. injection E as <-. rewrite El. eauto.
      * cbn [snd]. rewrite lookup_insert_is_Some. split.
        -- intros [<-|[_ H]]; [|left; exact H].
           right. exists (dt_date dt). split; [reflexivity|].
           split; [reflexivity|]. exists st, dt. auto.
        -- intros [H|(day & -> & _ & st' & dt' & [= <-] & E & <-)].
           ++ destruct (decide (date_key (dt_date dt) = k)); [left|right]; auto.
           ++ rewrite Ep in E. injection E as <-. left. reflexivity.
  - split.
    + destruct (fst marks !! date_key (dt_date dt)) as [b|] eqn:El.
      * split; [auto|]. intros [H|(day & -> & _ & st' & dt' & [= <-] & E & <-)];
          [exact H|]. rewrite Ep in E. injection E as <-. rewrite El. eauto.
      * cbn [fst]. rewrite lookup_insert_is_Some. split.
        -- intros [<-|[_ H]]; [|left; exact H].
           right. exists (dt_date dt). split; [reflexivity|].
           split; [reflexivity|]. exists st, dt. auto.
        -- intros [H|(day & -> & _ & st' & dt' & [= <-] & E & <-)].
           ++ destruct (decide (date_key (dt_date dt) = k)); [left|right]; auto.
           ++ rewrite Ep in E. injection E as <-. left. reflexivity.
    + assert (Hsame : snd (match fst marks !! date_key (dt_date dt) with
                           | Some _ => marks
                           | None => (<[date_key (dt_date dt) := true]> (fst marks),
                                      snd marks)
                           end) = snd marks)
        by (destruct (fst marks !! _); reflexivity).
      rewrite Hsame. split; [auto|].
      intros [H|(day & _ & [=] & _)]. exact H.
Qed.

(** Every value stored is [True]. *)
Lemma mark_event_values (marks : gmap (Z * Z * Z) bool * gmap (Z * Z * Z) bool)
    (event : event_tuple) :
  (forall k b, fst marks !! k = Some b -> b = true) /\
  (forall k b, snd marks !! k = Some b -> b = true) ->
  (forall k b, fst (mark_event marks event) !! k = Some b -> b = true) /\
  (forall k b, snd (mark_event marks event) !! k = Some b -> b = true).
Proof.
  intros [H1 H2]. unfold mark_event.
  destruct (truthy _); [|auto].
  destruct (_ ≫= fromisoformat) as [dt|]; [|auto].
  destruct (py_bool _).
  - destruct (snd marks !! date_key (dt_date dt)); [auto|]. split; [exact H1|].
    cbn [snd]. intros k b Hk. apply lookup_insert_Some in Hk.
    destruct Hk as [[_ <-]|[_ Hk]]; [reflexivity|eapply H2, Hk].
  - destruct (fst marks !! date_key (dt_date dt)); [auto|]. split; [|exact H2].
    cbn [fst]. intros k b Hk. apply lookup_insert_Some in Hk.
    destruct Hk as [[_ <-]|[_ Hk]]; [reflexivity|eapply H1, Hk].
Qed.

Lemma marks_fold events :
  forall marks : gmap (Z * Z * Z) bool * gmap (Z * Z * Z) bool,
  ((forall k b, fst marks !! k = Some b -> b = true) /\
   (forall k b, snd marks !! k = Some b -> b = true)) ->
  ((forall k b, fst (fold_left mark_event events marks) !! k = Some b -> b = true) /\
   (forall k b, snd (fold_left mark_event events marks) !! k = Some b -> b = true)) /\
  forall k,
    (is_Some (fst (fold_left mark_event events marks) !! k) <->
     is_Some (fst marks !! k) \/
     exists ev day, In ev events /\ k = date_key day /\ marked_on day false ev) /\
    (is_Some (snd (fold_left mark_event events marks) !! k) <->
     is_Some (snd marks !! k) \/
     exists ev day, In ev events /\ k = date_key day /\ marked_on day true ev).
Proof.
  induction events as [|e events IH]; intros marks Hv.
  - simpl. split; [exact Hv|]. intros k.
    split; (split; [auto|]); intros [H|(ev & _ & [] & _)]; exact H.
  - cbn [fold_left].
    destruct (IH (mark_event marks e) (mark_event_values marks e Hv)) as [Hv' Hk].
    split; [exact Hv'|]. intros k. destruct (Hk k) as [H1 H2].
    destruct (mark_event_spec marks e k) as [S1 S2].
    split.
    + rewrite H1, S1. split.
      * intros [[H|(day & Hd & Hm)]|(ev & day & Hin & Hd & Hm)]; auto.
        -- right. exists e, day. simpl. auto.
        -- right. exists ev, day. simpl. auto.
      * intros [H|(ev & day & [<-|Hin] & Hd & Hm)]; auto.
        -- left. right. exists day. auto.
        -- right. exists ev, day. auto.
    + rewrite H2, S2. split.
      * intros [[H|(day & Hd & Hm)]|(ev & day & Hin & Hd & Hm)]; auto.
        -- right. exists e, day. simpl. auto.
        -- right. exists ev, day. simpl. auto.
      * intros [H|(ev & day & [<-|Hin] & Hd & Hm)]; auto.
        -- left. right. exists day. auto.
        -- right. exists ev, day. auto.
Qed.

(** The dots of a day, read off the events of the month. *)
Lemma dots_of_events events day :
  (has_events (fold_left mark_event events (∅, ∅)) day = true <->
   exists ev, In ev events /\ marked_on day false ev) /\
  (has_recurring_events (fold_left mark_event events (∅, ∅)) day = true <->
   exists ev, In ev events /\ marked_on day true ev).
Proof.
  destruct (marks_fold events (∅, ∅)) as [[V1 V2] Hk].
  { split; intros k b H; simpl in H; rewrite lookup_empty in H; discriminate. }
  destruct (Hk (date_key day)) as [H1 H2]. unfold has_events, has_recurring_events.
  split.
  - split.
    + intros H.
      assert (Hs : is_Some (fst (fold_left mark_event events (∅, ∅)) !! date_key day)).
      { destruct (fst (fold_left mark_event events (∅, ∅)) !! date_key day);
          [eauto|simpl in H; discriminate]. }
      apply H1 in Hs. destruct Hs as [Hs|(ev & day' & Hin & Hd & Hm)].
      * simpl in Hs. rewrite lookup_empty in Hs. destruct Hs; discriminate.
      * apply date_key_inj in Hd. subst day'. eauto.
    + intros (ev & Hin & Hm).
      assert (Hs : is_Some (fst (fold_left mark_event events (∅, ∅)) !! date_key day))
        by (apply H1; right; exists ev, day; auto).
      destruct Hs as [b Hb]. rewrite Hb. simpl. eapply V1, Hb.
  - split.
    + intros H.
      assert (Hs : is_Some (snd (fold_left mark_event events (∅, ∅)) !! date_key day)).
      { destruct (snd (fold_left mark_event events (∅, ∅)) !! date_key day);
          [eauto|simpl in H; discriminate]. }
      apply H2 in Hs. destruct Hs as [Hs|(ev & day' & Hin & Hd & Hm)].
      * simpl in Hs. rewrite lookup_empty in Hs. destruct Hs; discriminate.
      * apply date_key_inj in Hd. subst day'. eauto.
    + intros (ev & Hin & Hm).
      assert (Hs : is_Some (snd (fold_left mark_event events (∅, ∅)) !! date_key day))
        by (apply H2; right; exists ev, day; auto).
      destruct Hs as [b Hb]. rewrite Hb. simpl. eapply V2, Hb.
Qed.

End GridFacts.


Section MonthDots.

Context {lib : Library}.

(** On a table where [DATE()] and [fromisoformat] read the same day from
    the stored timestamps, for every month but December 9999 and every
    day of the month, the grid shows the dot for events on the day
    exactly when the day view lists a non-recurring event there whose
    start_time can be read, and the dot for repeating events exactly when
    the day view lists an occurrence of a repeating event there. *)
Theorem month_dots d y m :
  dates_agree d ->
  1 <= y <= 9999 -> 1 <= m <= 12 -> ~ (y = 9999 /\ m = 12) ->
  exists marks,
    month_marks d y m = Ok marks /\
    forall day, in_month y m day ->
    exists listed,
      show_day_events d day = Ok listed /\
      (has_events marks day = true <->
       exists ev, In ev listed /\ py_bool (ev_is_recurring ev) = false /\
                  readable ev) /\
      (has_recurring_events marks day = true <->
       exists ev, In ev listed /\ py_bool (ev_is_recurring ev) = true).
Proof.
  intros Hagree Hy Hm Hn.
  destruct (month_events d y m Hy Hm Hn) as (events & E & _ & Hin).
  destruct (month_bounds y m Hy Hm Hn)
    as (first_day & last_day & _ & [-> ->] & Hf & Hl & _ & Hmonth).
  exists (fold_left mark_event events (∅, ∅)). split.
  { unfold month_marks. rewrite E. reflexivity. }
  intros day Hday. pose proof Hday as (Hv & Hyd & Hmd).
  assert (Hmax : date_lt day date_max).
  { apply date_lt_max; [exact Hv|]. intros ->. unfold date_max in *.
    simpl in *. lia. }
  destruct (range_events_mem d day day Hv Hv Hmax) as (listed & El & _ & Hl').
  exists listed. split; [exact El|].
  destruct (dots_of_events events day) as [D1 D2].
  assert (Hself : in_range day day day)
    by (split; [exact Hv|split; right; reflexivity]).
  assert (Htest : month_test (mkDate y m 1) (next_month_first y m) (str_date day)
                  = true).
  { rewrite month_test_date by assumption.
    apply andb_true_iff. rewrite date_leb_le, date_ltb_lt.
    apply (Hmonth day Hv). exact Hday. }
  split.
  - rewrite D1. split.
    + intros (ev & Hev & Hflag & st & dt & Hst & Hp & Hd).
      exists ev. split; [|split; [exact Hflag|exists st, dt; auto]].
      apply Hin in Hev. apply Hl'.
      destruct Hev as [(r & ds & Hr & Ho & Hs & _ & ->)
                      |(r & day' & st' & dt' & Hr & Hrec & _ & _ & _ & _ & ->)].
      * left. exists r, ds. split; [exact Hr|]. split; [exact Ho|].
        split; [exact Hs|]. split; [|reflexivity].
        destruct Hs as (st0 & Hst0 & Hsq). simpl in Hst. rewrite Hst0 in Hst.
        injection Hst as <-.
        rewrite (Hagree r st0 dt ds Hr Hst0 Hp Hsq), Hd, range_test_same.
        apply String.eqb_refl.
      * destruct Hrec as (_ & Hrec & _). simpl in Hflag. rewrite Hrec in Hflag.
        discriminate.
    + intros (ev & Hev & Hflag & st & dt & Hst & Hp).
      exists ev. apply Hl' in Hev.
      destruct Hev as [(r & ds & Hr & Ho & Hs & Hrange & ->)
                      |(r & day' & st' & dt' & Hr & Hrec & _ & _ & _ & _ & ->)].
      * rewrite range_test_same in Hrange. apply String.eqb_eq in Hrange.
        subst ds.
        destruct Hs as (st0 & Hst0 & Hsq). simpl in Hst. rewrite Hst0 in Hst.
        injection Hst as <-.
        pose proof (Hagree r st0 dt _ Hr Hst0 Hp Hsq) as Hsame.
        apply str_date_inj in Hsame;
          [|exact Hv|exact (proj1 (fromisoformat_valid _ _ Hp))].
        split.
        -- apply Hin. left. exists r, (str_date day).
           split; [exact Hr|]. split; [exact Ho|].
           split; [exists st0; auto|]. split; [exact Htest|reflexivity].
        -- split; [exact Hflag|]. exists st0, dt. split; [exact Hst0|].
           split; [exact Hp|]. symmetry. exact Hsame.
      * destruct Hrec as (_ & Hrec & _). simpl in Hflag. rewrite Hrec in Hflag.
        discriminate.
  - rewrite D2. split.
    + intros (ev & Hev & Hflag & st & dt & Hst & Hp & Hd).
      exists ev. split; [|exact Hflag].
      apply Hin in Hev. apply Hl'.
      destruct Hev as [(r & ds & Hr & Ho & _ & _ & ->)
                      |(r & day' & st' & dt' & Hr & Hrec & Hm' & Hrep & Hst' & Hp' & ->)].
      * destruct Ho as (_ & [Ho|Ho]); simpl in Hflag; rewrite Ho in Hflag;
          discriminate.
      * right. simpl in Hst. injection Hst as <-.
        destruct (fromisoformat_valid _ _ Hp') as [_ Hvt].
        destruct Hm' as (Hv' & _).
        rewrite (fromisoformat_isoformat (combine day' (dt_time dt')) Hv' Hvt) in Hp.
        injection Hp as <-. simpl in Hd. subst day'.
        exists r, day, st', dt'. auto 10.
    + intros (ev & Hev & Hflag).
      exists ev. apply Hl' in Hev.
      destruct Hev as [(r & ds & Hr & Ho & _ & _ & ->)
                      |(r & day' & st' & dt' & Hr & Hrec & Hrange & Hrep & Hst' & Hp' & ->)].
      * destruct Ho as (_ & [Ho|Ho]); simpl in Hflag; rewrite Ho in Hflag;
          discriminate.
      * apply single_day in Hrange. subst day'. split.
        -- apply Hin. right. exists r, day, st', dt'. auto 10.
        -- split; [exact Hflag|].
           destruct (fromisoformat_valid _ _ Hp') as [_ Hvt].
           exists (isoformat (combine day (dt_time dt'))), (combine day (dt_time dt')).
           split; [reflexivity|]. split; [|reflexivity].
           apply fromisoformat_isoformat; assumption.
Qed.

End MonthDots.

(** In the example table the two readings agree. *)
Lemma example_dates_agree : dates_agree example_db.
Proof.
  intros r st dt ds Hr Est Hp Hds. simpl in Hr.
  destruct Hr as [<-|[<-|[<-|[<-|[]]]]]; simpl in Est; injection Est as <-;
    vm_compute in Hp; vm_compute in Hds; try discriminate;
    injection Hp as <-; injection Hds as <-; reflexivity.
Qed.

Lemma month_dots_witness :
  dates_agree example_db /\
  1 <= 2024 <= 9999 /\ 1 <= 1 <= 12 /\ ~ (2024 = 9999 /\ 1 = 12) /\
  exists marks,
    month_marks example_db 2024 1 = Ok marks /\
    exists listed,
      show_day_events example_db (jan 3) = Ok listed /\
      (has_recurring_events marks (jan 3) = true <->
       exists ev, In ev listed /\ py_bool (ev_is_recurring ev) = true).
Proof.
  assert (Hy : 1 <= 2024 <= 9999) by lia.
  assert (Hm : 1 <= 1 <= 12) by lia.
  assert (Hn : ~ (2024 = 9999 /\ 1 = 12)) by lia.
  split; [exact example_dates_agree|].
  split; [exact Hy|]. split; [exact Hm|]. split; [exact Hn|].
  destruct (month_dots example_db 2024 1 example_dates_agree Hy Hm Hn)
    as (marks & E & H).
  exists marks. split; [exact E|].
  destruct (H (jan 3)) as (listed & El & _ & H2).
  { repeat split. }
  exists listed. split; [exact El|exact H2].
Defined.


(** * The time shown *)

Section ShownTime.

Lemma hour_cases h :
  0 <= h < 24 ->
  h = 0 \/ h = 1 \/ h = 2 \/ h = 3 \/ h = 4 \/ h = 5 \/ h = 6 \/ h = 7 \/
  h = 8 \/ h = 9 \/ h = 10 \/ h = 11 \/ h = 12 \/ h = 13 \/ h = 14 \/ h = 15 \/
  h = 16 \/ h = 17 \/ h = 18 \/ h = 19 \/ h = 20 \/ h = 21 \/ h = 22 \/ h = 23.
Proof. lia. Qed.

Lemma home_time_is_time_12h h m s us :
  0 <= h < 24 ->
  str_small (let hour_12 := if h <=? 12 then h else h - 12 in
             if hour_12 =? 0 then 12 else hour_12)
    +:+ ":" +:+ pad2 m +:+ " " +:+ (if h <? 12 then "AM" else "PM") =
  time_12h (mkTime h m s us).
Proof.
  intros H. apply hour_cases in H.
  repeat (destruct H as [->|H]; [reflexivity|]). subst h. reflexivity.
Qed.

End ShownTime.

Section ShownTimesAgree.

Context {lib : Library}.

(** The home screen, the day popup and the edit popup show a stored
    time alike: the hour from 1 to 12 without a leading zero, the
    minute in two digits, then AM or PM. *)
Theorem shown_times_agree st dt p :
  fromisoformat st = Some dt ->
  schedule_time (Some st) = time_12h (dt_time dt) /\
  day_popup_time (Some st) = time_12h (dt_time dt) /\
  snd (prefill_time (Some st) p) = time_12h (dt_time dt) /\
  time_12h (dt_time dt) =
    str_small ((hour (dt_time dt) + 11) mod 12 + 1) +:+ ":" +:+
    pad2 (minute (dt_time dt)) +:+ " " +:+
    (if hour (dt_time dt) <? 12 then "AM" else "PM").
Proof.
  intros Hp.
  assert (Ht : truthy (Some st) = true) by (apply (truthy_parse (Some st) dt), Hp).
  destruct (fromisoformat_valid _ _ Hp) as [_ Hv].
  assert (HH : 0 <= hour (dt_time dt) < 24).
  { unfold valid_time in Hv.
    repeat (apply andb_prop in Hv; destruct Hv as [Hv ?]). lia. }
  destruct (dt_time dt) as [h m s us] eqn:Et. cbn [hour minute] in *.
  split; [|split; [|split]].
  - unfold schedule_time. rewrite Ht. cbn [mbind option_bind]. rewrite Hp, Et.
    cbn [hour minute]. apply home_time_is_time_12h, HH.
  - unfold day_popup_time. rewrite Ht. cbn [mbind option_bind]. rewrite Hp, Et.
    reflexivity.
  - unfold prefill_time. rewrite Ht. cbn [mbind option_bind]. rewrite Hp, Et.
    reflexivity.
  - apply hour_cases in HH.
    repeat (destruct HH as [->|HH]; [reflexivity|]). subst h. reflexivity.
Qed.

End ShownTimesAgree.

Lemma shown_times_agree_witness :
  fromisoformat "2024-01-03T08:30:00" =
    Some (mkDatetime (jan 3) (mkTime 8 30 0 0)) /\
  schedule_time (Some "2024-01-03T08:30:00") = "8:30 AM" /\
  day_popup_time (Some "2024-01-03T08:30:00") = "8:30 AM".
Proof.
  assert (H : fromisoformat "2024-01-03T08:30:00" =
              Some (mkDatetime (jan 3) (mkTime 8 30 0 0))) by reflexivity.
  split; [exact H|].
  pose proof (shown_times_agree _ _ (mkPicker None None None None None) H)
    as (H1 & H2 & _).
  split; [exact H1|exact H2].
Defined.


(** * Editing and opening again *)

Section Reopen.

Context {lib : Library}.

Lemma update_saved d event_id title dt is_recurring days d' :
  update_event_from_popup d event_id title dt is_recurring days = Saved d' ->
  d' = update_task d event_id (Some title) (Some (isoformat dt)) (Some is_recurring)
         (if is_recurring then Some (repeat_days_of days) else None).
Proof.
  unfold update_event_from_popup.
  destruct (String.eqb title ""); [discriminate|].
  destruct (is_recurring && is_nil days) eqn:G; [discriminate|].
  destruct (get_schedule_by_date_range _ _ _); [|discriminate].
  destruct (existsb _ _); [discriminate|].
  intros [= <-]. f_equal.
  destruct is_recurring; [|reflexivity]. simpl in G. rewrite G. reflexivity.
Qed.

End Reopen.

Section EditedEventReopened.

Context {lib : Library}.

(** What the edit popup saves is what it shows when the event is opened
    again: the row found under the id then has the new title, the new
    start_time and the new recurrence (the old repeat days stay in the
    row when the event is made non-recurring), source and completion as
    before, and the pickers are filled with the date and the time that
    were saved. *)
Theorem edited_event_reopened d event_id title dt is_recurring selected_repeat_days
    d' it p :
  valid_date (dt_date dt) = true -> valid_time (dt_time dt) = true ->
  update_event_from_popup d event_id title dt is_recurring selected_repeat_days
    = Saved d' ->
  get_schedule_item_by_id d event_id = Some it ->
  exists it',
    get_schedule_item_by_id d' event_id = Some it' /\
    item_title it' = title /\
    item_start_time it' = Some (isoformat dt) /\
    item_is_recurring it' = is_recurring /\
    item_repeat_days it' =
      (if is_recurring then Some (repeat_days_of selected_repeat_days)
       else item_repeat_days it) /\
    item_source it' = item_source it /\
    item_completed it' = item_completed it /\
    selected_event_date (fst (prefill_time (item_start_time it') p)) =
      Some (str_date (dt_date dt)) /\
    selected_event_time (fst (prefill_time (item_start_time it') p)) =
      Some (pad2 (hour (dt_time dt)) +:+ ":" +:+ pad2 (minute (dt_time dt))).
Proof.
  intros Hd Ht Hu Hit. apply update_saved in Hu. subst d'.
  rewrite lookup_updated, Hit. cbn [fmap option_fmap option_map].
  eexists. split; [reflexivity|]. unfold updated_item.
  cbn [item_title item_start_time item_is_recurring item_repeat_days item_source
       item_completed default].
  split; [reflexivity|]. split; [reflexivity|]. split; [reflexivity|].
  split; [destruct is_recurring; reflexivity|].
  split; [reflexivity|]. split; [reflexivity|].
  unfold prefill_time. rewrite truthy_isoformat. cbn [mbind option_bind].
  rewrite fromisoformat_isoformat by assumption.
  split; reflexivity.
Qed.

End EditedEventReopened.

Lemma edited_event_reopened_witness :
  let dt := mkDatetime (jan 4) (mkTime 15 30 0 0) in
  let d' := update_task example_db 3 (Some "Late lunch") (Some (isoformat dt))
                        (Some false) None in
  valid_date (dt_date dt) = true /\ valid_time (dt_time dt) = true /\
  update_event_from_popup example_db 3 "Late lunch" dt false [] = Saved d' /\
  get_schedule_item_by_id example_db 3 =
    Some (mkItem 3 "Lunch" (Some "2024-01-03T14:00:00") (Some "local") false None
                 false None) /\
  exists it',
    get_schedule_item_by_id d' 3 = Some it' /\
    item_title it' = "Late lunch" /\
    item_start_time it' = Some "2024-01-04T15:30:00".
Proof.
  intros dt d'.
  assert (Hu : update_event_from_popup example_db 3 "Late lunch" dt false [] = Saved d')
    by reflexivity.
  assert (Hi : get_schedule_item_by_id example_db 3 =
               Some (mkItem 3 "Lunch" (Some "2024-01-03T14:00:00") (Some "local")
                            false None false None)) by reflexivity.
  split; [reflexivity|]. split; [reflexivity|]. split; [exact Hu|].
  split; [exact Hi|].
  destruct (edited_event_reopened example_db 3 "Late lunch" dt false [] d' _
              (mkPicker None None None None None) eq_refl eq_refl Hu Hi)
    as (it' & E & H1 & H2 & _).
  exists it'. auto.
Defined.
